(** * Verification of the workspace code-navigation service

    Shallow embedding of [lsp_service.py] (classes [LspService] and
    [LanguageServer]) and of [code_browser_api.py] (class
    [CodeBrowserAPI]), followed by the properties of the specification
    that were checked against it.

    Conventions of the embedding:
    - a Python [str] is a list of Unicode code points ([pystr]);
    - a Python [int] is a [Z];
    - a [dict] that is serialised or returned to the caller is a [json]
      value whose object case keeps the insertion order;
    - the sets [open_documents], [seen_locations] and
      [definition_locations] are [gset]s, the dictionary [servers] is a
      [gmap];
    - the file system, the language-server process and the Unicode
      character database are parameters of the model. *)

From Stdlib Require Import ZArith NArith List Ascii String DecimalString Sorted Lia.
From stdpp Require Import base option list gmap strings.
Import ListNotations.

Local Open Scope Z_scope.
Local Open Scope list_scope.

(** ** Python strings *)

(** One Unicode code point. *)
Abbreviation char := N (only parsing).
(** A Python [str]. *)
Abbreviation pystr := (list N) (only parsing).

(** The code points of an ASCII literal. *)
Definition py (s : string) : pystr :=
  map N_of_ascii (list_ascii_of_string s).

(** [str(n)] for an [int]: decimal digits with a leading minus sign. *)
Definition str_of_int (z : Z) : pystr :=
  py (NilZero.string_of_int (Z.to_int z)).

(** [len(s)]. *)
Definition len {A} (l : list A) : Z := Z.of_nat (length l).

Definition is_ascii (c : char) : Prop := (c < 128)%N.

(** ** JSON values and [json.dumps] *)

Module Json.

(** The values the service serialises: [None], [bool], [int], [str],
    [list] and [dict] with string keys.  No message of the service
    carries a float. *)
#[local] Unset Elimination Schemes.
Inductive json : Type :=
| JNull
| JBool (b : bool)
| JInt (z : Z)
| JStr (s : pystr)
| JList (l : list json)
| JDict (kvs : list (pystr * json)).
#[local] Set Elimination Schemes.

(** Lowercase hexadecimal digit, as in the format ['{0:04x}']. *)
Definition hex_digit (d : N) : char :=
  (if d <? 10 then 48 + d else 87 + d)%N.

Definition hex4 (n : N) : pystr :=
  [hex_digit ((n / 4096) mod 16); hex_digit ((n / 256) mod 16);
   hex_digit ((n / 16) mod 16); hex_digit (n mod 16)]%N.

(** [json.encoder.py_encode_basestring_ascii], the [replace] callback:
    the short escapes of [ESCAPE_DCT], then [\uXXXX], with a surrogate
    pair above the basic plane. *)
Definition escape_char (c : char) : pystr :=
  (if c =? 92 then py "\\"
   else if c =? 34 then [92; 34]
   else if c =? 8 then py "\b"
   else if c =? 12 then py "\f"
   else if c =? 10 then py "\n"
   else if c =? 13 then py "\r"
   else if c =? 9 then py "\t"
   else if c <? 65536 then py "\u" ++ hex4 c
   else
     let n := c - 65536 in
     let s1 := N.lor 55296 (N.land (N.shiftr n 10) 1023) in
     let s2 := N.lor 56320 (N.land n 1023) in
     py "\u" ++ hex4 s1 ++ py "\u" ++ hex4 s2)%N.

(** The pattern [ESCAPE_ASCII]: backslash (92), double quote (34) and
    everything outside the printable range from space to tilde are
    replaced. *)
Definition needs_escape (c : char) : bool :=
  ((c =? 92) || (c =? 34) || (c <? 32) || (126 <? c))%N.

Definition encode_basestring_ascii (s : pystr) : pystr :=
  [34%N] ++ flat_map (fun c => if needs_escape c then escape_char c else [c]) s
         ++ [34%N].

(** [json.dumps(obj)] with the default arguments of the call in
    [_send_message]: [ensure_ascii=True], a comma and a space between
    items, a colon and a space after a key, no indentation. *)
Fixpoint dumps (j : json) : pystr :=
  match j with
  | JNull => py "null"
  | JBool true => py "true"
  | JBool false => py "false"
  | JInt z => str_of_int z
  | JStr s => encode_basestring_ascii s
  | JList l =>
      py "[" ++
      (fix items (l : list json) : pystr :=
         match l with
         | [] => []
         | [x] => dumps x
         | x :: r => dumps x ++ py ", " ++ items r
         end) l ++ py "]"
  | JDict kvs =>
      py "{" ++
      (fix members (l : list (pystr * json)) : pystr :=
         match l with
         | [] => []
         | [(k, v)] => encode_basestring_ascii k ++ py ": " ++ dumps v
         | (k, v) :: r =>
             encode_basestring_ascii k ++ py ": " ++ dumps v ++ py ", " ++ members r
         end) kvs ++ py "}"
  end.

(** [d.get(k)] on a dictionary value. *)
Fixpoint assoc (k : pystr) (kvs : list (pystr * json)) : option json :=
  match kvs with
  | [] => None
  | (k', v) :: r => if decide (k' = k) then Some v else assoc k r
  end.

Definition get (k : string) (j : json) : option json :=
  match j with
  | JDict kvs => assoc (py k) kvs
  | _ => None
  end.


End Json.
Import Json.

(** Structural induction on [json] that reaches the values nested in
    lists and dictionaries. *)
Section JsonInduction.
Variable P : json -> Prop.
Hypothesis P_null : P JNull.
Hypothesis P_bool : forall b, P (JBool b).
Hypothesis P_int : forall z, P (JInt z).
Hypothesis P_str : forall s, P (JStr s).
Hypothesis P_list : forall l, Forall P l -> P (JList l).
Hypothesis P_dict : forall kvs, Forall (fun kv => P (snd kv)) kvs -> P (JDict kvs).

Fixpoint json_induction (j : json) : P j :=
  match j with
  | JNull => P_null
  | JBool b => P_bool b
  | JInt z => P_int z
  | JStr s => P_str s
  | JList l =>
      P_list l
        ((fix all (l : list json) : Forall P l :=
            match l with
            | [] => @List.Forall_nil _ P
            | x :: r => @List.Forall_cons _ P x r (json_induction x) (all r)
            end) l)
  | JDict kvs =>
      P_dict kvs
        ((fix all (l : list (pystr * json)) : Forall (fun kv => P (snd kv)) l :=
            match l with
            | [] => @List.Forall_nil _ _
            | kv :: r => @List.Forall_cons _ _ kv r (json_induction (snd kv)) (all r)
            end) kvs)
  end.
End JsonInduction.

(** ** UTF-8 *)

(** [s.encode('utf-8')]: one to four bytes per code point; a lone
    surrogate raises [UnicodeEncodeError]. *)
Definition utf8_char (c : char) : option (list N) :=
  (if c <? 128 then Some [c]
   else if c <? 2048 then Some [192 + c / 64; 128 + c mod 64]
   else if (55296 <=? c) && (c <? 57344) then None
   else if c <? 65536 then
     Some [224 + c / 4096; 128 + (c / 64) mod 64; 128 + c mod 64]
   else
     Some [240 + c / 262144; 128 + (c / 4096) mod 64;
           128 + (c / 64) mod 64; 128 + c mod 64])%N.

Fixpoint utf8_encode (s : pystr) : option (list N) :=
  match s with
  | [] => Some []
  | c :: r =>
      match utf8_char c, utf8_encode r with
      | Some b, Some bs => Some (b ++ bs)
      | _, _ => None
      end
  end.

(** ** Exceptions *)

(** A computation that returns a value or raises; the payload of [Raise]
    is [str(e)]. *)
Inductive exc (A : Type) : Type :=
| Return (a : A)
| Raise (msg : pystr).
Arguments Return {A} a.
Arguments Raise {A} msg.

#[global] Instance exc_ret : MRet exc := @Return.
#[global] Instance exc_bind : MBind exc := fun A B k m =>
  match m with
  | Return a => k a
  | Raise e => Raise e
  end.

(** ** The platform the service runs on *)

(** The two character classes of the Unicode database that the code
    uses outside the ASCII range: [str.isalnum] (behind the pattern
    escapes for word characters and word boundaries) and [str.isspace]
    (behind [strip], [lstrip], [rstrip] and the pattern escape for white
    space). *)
Class UnicodeDB : Type := {
  uni_isalnum : N -> bool;
  uni_isspace : N -> bool;
}.

(** The file system and the path functions, for one workspace directory:
    - [abspath p] is [str(Path(p))] when [p] is absolute and
      [str((workspace_dir / p).resolve())] otherwise; the resolution,
      which the methods perform before any [try] block, is taken to
      succeed here, and [Resolution] below has the case in which it
      raises;
    - [readlines p] is [open(p, 'r').readlines()], or the exception it
      raises;
    - [relpath p] is [os.path.relpath(p, workspace_dir)], which may raise
      [ValueError];
    - [suffix p] is [Path(p).suffix];
    - [unquote] is [urllib.parse.unquote]. *)
Class FileSystem : Type := {
  abspath : pystr -> pystr;
  readlines : pystr -> exc (list pystr);
  relpath : pystr -> exc pystr;
  suffix : pystr -> pystr;
  unquote : pystr -> pystr;
}.

(** ** String methods and the three search patterns *)

Module Text.
Section Text.
Context `{UnicodeDB}.

(** [str.isspace] on one character; below 128 these are the whitespace
    characters of Python: 9 to 13 and 28 to 32. *)
Definition isspace (c : char) : bool :=
  (if c <? 128 then ((9 <=? c) && (c <=? 13)) || ((28 <=? c) && (c <=? 32))
   else uni_isspace c)%N.

(** A word character of the pattern language: alphanumeric or the
    underscore. *)
Definition isword (c : char) : bool :=
  (if c <? 128 then
     ((48 <=? c) && (c <=? 57)) || ((65 <=? c) && (c <=? 90)) ||
     ((97 <=? c) && (c <=? 122)) || (c =? 95)
   else uni_isalnum c)%N.

(** [s.startswith(prefix)]. *)
Definition startswith (prefix s : pystr) : bool :=
  bool_decide (take (length prefix) s = prefix).

(** [sub in s]. *)
Fixpoint contains (sub s : pystr) : bool :=
  if startswith sub s then true
  else match s with
       | [] => false
       | _ :: r => contains sub r
       end.

Fixpoint find_from (sub s : pystr) (i : Z) : Z :=
  if startswith sub s then i
  else match s with
       | [] => -1
       | _ :: r => find_from sub r (i + 1)
       end.

(** [s.find(sub)]: the lowest index where [sub] occurs, or [-1]. *)
Definition find (sub s : pystr) : Z := find_from sub s 0.

(** [s.lstrip()], [s.rstrip()], [s.strip()]. *)
Fixpoint lstrip (s : pystr) : pystr :=
  match s with
  | c :: r => if isspace c then lstrip r else s
  | [] => []
  end.

Definition rstrip (s : pystr) : pystr := rev (lstrip (rev s)).

Definition strip (s : pystr) : pystr := lstrip (rstrip s).

(** *** Pattern matching

    A matcher is tried at one position of the line: [prev] is the
    character before the position ([None] at the start of the line) and
    [rest] the text from the position on. *)

Definition isword_at (o : option char) : bool :=
  match o with
  | Some c => isword c
  | None => false
  end.

(** The word-boundary assertion: exactly one of the two neighbours is a
    word character. *)
Definition word_boundary (prev : option char) (rest : pystr) : bool :=
  xorb (isword_at prev) (isword_at (head rest)).

(** The escaped symbol followed by a word boundary. *)
Definition symbol_then_boundary (sym : pystr) (prev : option char) (rest : pystr) : bool :=
  startswith sym rest &&
  word_boundary (match last sym with Some c => Some c | None => prev end)
                (drop (length sym) rest).

(** One or more white-space characters, then the symbol and a word
    boundary; every split of the white space is tried, as backtracking
    does. *)
Fixpoint spaces_then_symbol (sym rest : pystr) : bool :=
  match rest with
  | c :: r => isspace c && (symbol_then_boundary sym (Some c) r || spaces_then_symbol sym r)
  | [] => false
  end.

(** Tiers 1 and 2: boundary, keyword, white space, symbol, boundary. *)
Definition declaration_at (keyword sym : pystr) (prev : option char) (rest : pystr) : bool :=
  word_boundary prev rest && startswith keyword rest &&
  spaces_then_symbol sym (drop (length keyword) rest).

(** Tier 3: boundary, symbol, boundary. *)
Definition word_at (sym : pystr) (prev : option char) (rest : pystr) : bool :=
  word_boundary prev rest && symbol_then_boundary sym prev rest.

Fixpoint search_from (m : option char -> pystr -> bool) (prev : option char)
    (rest : pystr) (i : Z) : option Z :=
  if m prev rest then Some i
  else match rest with
       | [] => None
       | c :: r => search_from m (Some c) r (i + 1)
       end.

(** [re.search(pattern, line)]: [None], or [match.start()] of the
    leftmost match. *)
Definition re_search (m : option char -> pystr -> bool) (line : pystr) : option Z :=
  search_from m None line 0.

End Text.
End Text.
Import Text.

(** ** The connection to one language server: class [LanguageServer] *)

Module LanguageServer.

(** The part of a [LanguageServer] object that framing and correlation
    use.  [running] is [is_running()], [stdin] holds the bytes written to
    [process.stdin] so far, [response_queue] the parsed inbound messages
    in arrival order (the [Queue] filled by [_read_responses]). *)
Record t : Type := mk {
  running : bool;
  stdin : list N;
  request_id : Z;
  response_queue : list json;
}.

Definition CRLF : pystr := [13; 10]%N.

(** [_send_message(self, message)].  [pipe_ok = false] is the run in
    which the pipe is broken: [BrokenPipeError] is caught and
    [self.process] becomes [None].  A [UnicodeEncodeError] of [encode]
    is not caught and propagates. *)
Definition _send_message (pipe_ok : bool) (message : json) (self : t) : exc t :=
  if negb (running self) then Return self
  else
    let content := dumps message in
    let header := py "Content-Length: " ++ str_of_int (len content) ++ CRLF ++ CRLF in
    match utf8_encode header, utf8_encode content with
    | Some h, Some c =>
        if pipe_ok then
          Return (mk (running self) (stdin self ++ h ++ c)
                     (request_id self) (response_queue self))
        else
          Return (mk false (stdin self) (request_id self) (response_queue self))
    | _, _ => Raise (py "UnicodeEncodeError")
    end.

(** The envelope built by [_send_notification]. *)
Definition notification (method : pystr) (params : json) : json :=
  JDict [(py "jsonrpc", JStr (py "2.0")); (py "method", JStr method);
         (py "params", params)].

(** [_send_notification(self, method, params)]. *)
Definition _send_notification (pipe_ok : bool) (method : pystr) (params : json)
    (self : t) : exc t :=
  if negb (running self) then Return self
  else _send_message pipe_ok (notification method params) self.

(** The envelope built by [_send_request]. *)
Definition request (id : Z) (method : pystr) (params : json) : json :=
  JDict [(py "jsonrpc", JStr (py "2.0")); (py "id", JInt id);
         (py "method", JStr method); (py "params", params)].

(** Outcome of the test
    ['id' in response and response['id'] == self.request_id]. *)
Inductive id_test : Type := IdMatch | IdOther | IdRaise.

(** The test on a parsed message.  On a dictionary it looks the key up
    and compares ([True == 1] holds in Python); on a list or a string
    ['id' in response] is a membership test and the subscript then
    raises [TypeError]; on [None], a number or a boolean the membership
    test itself raises. *)
Definition test_id (rid : Z) (response : json) : id_test :=
  match response with
  | JDict kvs =>
      match assoc (py "id") kvs with
      | Some (JInt z) => if decide (z = rid) then IdMatch else IdOther
      | Some (JBool b) => if decide ((if b then 1 else 0) = rid) then IdMatch else IdOther
      | _ => IdOther
      end
  | JList l =>
      if existsb (fun x => match x with
                           | JStr s => bool_decide (s = py "id")
                           | _ => false
                           end) l
      then IdRaise else IdOther
  | JStr s => if contains (py "id") s then IdRaise else IdOther
  | _ => IdRaise
  end.

Inductive drained : Type :=
| Found (response : json)
| Missed
| Failed.

(** One polling pass of [_send_request]: the inner [while not
    self.response_queue.empty()] loop followed by the put-back loop.
    [queue] is what is still in [self.response_queue], [responses] the
    local list of messages taken out so far.  The results are the outcome
    and the queue the pass leaves behind: on a match the function
    returns at once, on an exception the [except] clause breaks out of
    the outer loop, and in both cases the local list is dropped. *)
Fixpoint drain (rid : Z) (queue responses : list json) : drained * list json :=
  match queue with
  | [] => (Missed, responses)
  | response :: queue' =>
      match test_id rid response with
      | IdMatch => (Found response, queue')
      | IdRaise => (Failed, queue')
      | IdOther => drain rid queue' (responses ++ [response])
      end
  end.

(** The outer [while time.time() - start_time < timeout] loop.  Each
    element of [arrivals] is one pass: the messages the reader thread
    has put on the queue since the previous pass.  The list running out
    is the timeout.  The reader thread is taken to put its messages
    between two passes; a message that it puts while a pass puts the
    unmatched messages back would come to stand before them, so the
    model fixes the content of the buffer after a pass and its order
    only up to this. *)
Fixpoint poll (rid : Z) (arrivals : list (list json)) (queue : list json)
    : option json * list json :=
  match arrivals with
  | [] => (None, queue)
  | arrived :: later =>
      match drain rid (queue ++ arrived) [] with
      | (Found response, queue') => (Some response, queue')
      | (Failed, queue') => (None, queue')
      | (Missed, queue') => poll rid later queue'
      end
  end.

(** [_send_request(self, method, params)]: the response (or [None]) and
    the connection afterwards. *)
Definition _send_request (pipe_ok : bool) (arrivals : list (list json))
    (method : pystr) (params : json) (self : t) : exc (option json * t) :=
  if negb (running self) then Return (None, self)
  else
    let self1 := mk (running self) (stdin self) (request_id self + 1)
                    (response_queue self) in
    self2 ← _send_message pipe_ok (request (request_id self1) method params) self1;
    let '(response, queue) := poll (request_id self2) arrivals (response_queue self2) in
    Return (response, mk (running self2) (stdin self2) (request_id self2) queue).

End LanguageServer.

(** ** Symbol position: [find_symbol_position]

    [LspService.find_symbol_position] and
    [LanguageServer.find_symbol_position] have the same body. *)

Module Locator.
Section Locator.
Context `{UnicodeDB} `{FileSystem}.

(** Whether a line matches one of the three patterns. *)
Definition matches (symbol_name line : pystr) : bool :=
  bool_decide (is_Some (re_search (declaration_at (py "def") symbol_name) line)) ||
  bool_decide (is_Some (re_search (declaration_at (py "class") symbol_name) line)) ||
  bool_decide (is_Some (re_search (word_at symbol_name) line)).

(** The loop [for line_num, line in enumerate(lines)]. *)
Fixpoint scan (symbol_name : pystr) (lines : list pystr) (line_num : Z)
    : option (Z * Z) :=
  match lines with
  | [] => None
  | line :: rest =>
      if bool_decide (is_Some (re_search (declaration_at (py "def") symbol_name) line))
      then Some (line_num, find symbol_name line)
      else if bool_decide (is_Some (re_search (declaration_at (py "class") symbol_name) line))
      then Some (line_num, find symbol_name line)
      else match re_search (word_at symbol_name) line with
           | Some start => Some (line_num, start)
           | None => scan symbol_name rest (line_num + 1)
           end
  end.

(** [find_symbol_position(self, file_path, symbol_name)]; the result
    [None] stands for the pair [(None, None)]. *)
Definition find_symbol_position (file_path symbol_name : pystr) : option (Z * Z) :=
  match readlines (abspath file_path) with
  | Return lines => scan symbol_name lines 0
  | Raise _ => None
  end.

End Locator.
End Locator.

(** ** Source context: [LspService.get_symbol_context] *)

Module Context.
Section Context.
Context `{UnicodeDB} `{FileSystem}.

(** The dictionary the method returns. *)
Record result : Type := mk {
  file : pystr;
  line : Z;
  context : list pystr;
}.

(** [lines[i]], with the negative indices of Python and its
    [IndexError]. *)
Definition subscript {A} (l : list A) (i : Z) : exc A :=
  let j := if i <? 0 then i + len l else i in
  match (if j <? 0 then None else l !! Z.to_nat j) with
  | Some x => Return x
  | None => Raise (py "list index out of range")
  end.

(** The rightwards arrow and a space, the mark of the target line. *)
Definition arrow : pystr := [8594; 32]%N.

(** The two renderings of line [i] (0-based) of the file. *)
Definition marked_line (i : Z) (text : pystr) : pystr :=
  arrow ++ str_of_int (i + 1) ++ py ": " ++ rstrip text.

Definition plain_line (i : Z) (text : pystr) : pystr :=
  py "  " ++ str_of_int (i + 1) ++ py ": " ++ rstrip text.

(** The renderings of consecutive lines, the first of which has index
    [i]: what a loop that appends [plain_line] to [func_lines] adds. *)
Fixpoint plain_lines (i : Z) (texts : list pystr) : list pystr :=
  match texts with
  | [] => []
  | text :: rest => plain_line i text :: plain_lines (i + 1) rest
  end.

(** The test [not stripped_line or stripped_line.startswith('#')]: an
    empty line or a comment. *)
Definition skipped (text : pystr) : bool :=
  let stripped_line := lstrip text in
  bool_decide (stripped_line = []) || startswith (py "#") stripped_line.

(** [len(lines[i]) - len(stripped_line)]. *)
Definition indentation (text : pystr) : Z := len text - len (lstrip text).

(** The indentation profile the specification speaks of: the values
    rise strictly, then fall strictly. *)
Definition rises_then_falls (l : list Z) : Prop :=
  exists up down, l = up ++ down /\
    StronglySorted Z.lt up /\ StronglySorted (fun a b => b < a) down.

(** The test of the declaration branch. *)
Definition looks_like_declaration (text : pystr) : bool :=
  contains (py "def ") text || contains (py "class ") text.

(** The first [while] loop, which looks for the indentation of the
    body.  [rest] is [lines[i:]]; the results are [func_lines] and
    [current_indent].  Blank lines and comment lines are appended to
    [func_lines] on the way. *)
Fixpoint discover (decl : pystr) (i : Z) (rest func_lines : list pystr)
    : list pystr * option Z :=
  match rest with
  | [] => (func_lines, None)
  | text :: rest' =>
      if skipped text
      then discover decl (i + 1) rest' (func_lines ++ [plain_line i text])
      else
        let indent := indentation text in
        if contains (py "def ") decl then (func_lines, Some indent)
        else if contains (py "class ") decl then (func_lines, Some indent)
        else discover decl (i + 1) rest' func_lines
  end.

(** The test that ends the body: a line that is not blank, does not
    start with [current_indent] spaces and does not start with a tab. *)
Definition leaves_body (current_indent : Z) (text : pystr) : bool :=
  negb (bool_decide (strip text = [])) &&
  negb (startswith (repeat 32%N (Z.to_nat current_indent)) text) &&
  negb (startswith [9%N] text).

(** The second [while] loop, which restarts at the line after the
    declaration and appends lines until one leaves the body. *)
Fixpoint collect (current_indent : Z) (i : Z) (rest func_lines : list pystr)
    : list pystr :=
  match rest with
  | [] => func_lines
  | text :: rest' =>
      if leaves_body current_indent text then func_lines
      else collect current_indent (i + 1) rest' (func_lines ++ [plain_line i text])
  end.

(** The declaration branch, for the lines after the declaration. *)
Definition expand (lines : list pystr) (line_index : Z) (decl : pystr) : list pystr :=
  let after := drop (Z.to_nat (line_index + 1)) lines in
  let '(func_lines, current_indent) :=
    discover decl (line_index + 1) after [marked_line line_index decl] in
  match current_indent with
  | None => func_lines
  | Some n => collect n (line_index + 1) after func_lines
  end.

(** The other branch: five lines before and after the target. *)
Definition window (lines : list pystr) (line_index : Z) : exc (list pystr) :=
  let context_start := Z.max 0 (line_index - 5) in
  let context_end := Z.min (len lines) (line_index + 6) in
  mapM (fun i =>
          text ← subscript lines i;
          Return (if bool_decide (i = line_index) then marked_line i text
                  else plain_line i text))
       (seqZ context_start (context_end - context_start)).

(** The body of the [try] block. *)
Definition get_symbol_context_try (abs_path : pystr) (line : Z) : exc result :=
  lines ← readlines abs_path;
  let line_index := line - 1 in
  if (line_index <? 0) || (len lines <=? line_index) then
    Return (mk abs_path line [py "Line " ++ str_of_int line ++ py " is out of range"])
  else
    decl ← subscript lines line_index;
    if looks_like_declaration decl then
      Return (mk abs_path line (expand lines line_index decl))
    else
      ctx ← window lines line_index;
      Return (mk abs_path line ctx).

(** [get_symbol_context(self, file_path, line)]: the [except Exception]
    clause turns every exception of the body into a one-line context. *)
Definition get_symbol_context (file_path : pystr) (line : Z) : result :=
  let abs_path := abspath file_path in
  match get_symbol_context_try abs_path line with
  | Return r => r
  | Raise e => mk abs_path line [py "Error: " ++ e]
  end.

End Context.
End Context.

(** ** Path resolution that can fail

    [Path.resolve], which the methods call on a path that is not
    absolute before any [try] block, raises for some paths: a
    [RuntimeError] for a loop of symbolic links (before Python 3.13)
    and a [ValueError] for a path with a null character.
    - [is_absolute p] is [Path(p).is_absolute()];
    - [resolve p] is [str((workspace_dir / p).resolve())], or the
      exception that the resolution raises. *)
Class PathResolution : Type := {
  is_absolute : pystr -> bool;
  resolve : pystr -> exc pystr;
}.

Module Resolution.
Section Resolution.
Context `{UnicodeDB} `{FileSystem} `{PathResolution}.
Import Context.

(** The statements of [get_symbol_context] before its [try] block:
    [abs_path = Path(file_path)] and, when the path is not absolute,
    [abs_path = (self.workspace_dir / file_path).resolve()].  For an
    absolute path nothing is resolved and [abspath] is [str(Path(p))]. *)
Definition resolved (file_path : pystr) : exc pystr :=
  if is_absolute file_path then Return (abspath file_path)
  else resolve file_path.

(** [get_symbol_context(self, file_path, line)], the statements before
    the [try] block included: the [except Exception] clause covers the
    body of the [try] block only, and an exception of the resolution
    reaches the caller. *)
Definition get_symbol_context (file_path : pystr) (line : Z) : exc result :=
  abs_path ← resolved file_path;
  Return (match get_symbol_context_try abs_path line with
          | Return r => r
          | Raise e => mk abs_path line [py "Error: " ++ e]
          end).

End Resolution.
End Resolution.

(** ** The language servers seen from the service *)

(** One element of the result of a definition or reference request:
    a [Location] (key [uri]), a [LocationLink] (key [targetUri]), a
    dictionary with neither key, or a value on which the subscripts of
    [_process_locations] raise.  Lines and characters are the unsigned
    integers of the protocol. *)
Inductive location : Type :=
| Location (uri : pystr) (line character : N)
| LocationLink (targetUri : pystr) (line character : N)
| Unrecognised
| Malformed.

(** The value of [response['result']]: nothing ([None]), one location,
    or a list of them. *)
Inductive locations : Type :=
| Nothing
| Single (l : location)
| Several (ls : list location).

(** One element of the result of a workspace-symbol request;
    [si_kind] is [None] when the key [kind] is absent. *)
Record symbol_information : Type := {
  si_name : pystr;
  si_kind : option Z;
  si_uri : pystr;
  si_line : N;
}.

(** The workspace index and the answers of the language servers.  The
    answers are functions of the request: the model describes one
    snapshot of the workspace.
    - [file_index] is [LspService.file_index], in iteration order;
    - [can_start ext] tells whether [LanguageServer(...).start()]
      returns [True] for the extension with the process running, that
      is, after a handshake during which the pipe held ([Lifecycle]
      below has the handshake and the case of a broken pipe);
    - [find_definition], [find_references] and [find_workspace_symbol]
      are the methods of [LanguageServer] of these names, the last one
      for the connection of the given extension; they may raise. *)
Class Workspace : Type := {
  file_index : list (pystr * list pystr);
  can_start : pystr -> bool;
  find_definition : pystr -> Z -> Z -> exc locations;
  find_references : pystr -> Z -> Z -> bool -> exc locations;
  find_workspace_symbol : pystr -> pystr -> exc (list symbol_information);
}.

(** ** The service: class [LspService] *)

Module Service.
Section Service.
Context `{UnicodeDB} `{FileSystem} `{Workspace}.

(** A request sent to a server, as recorded in the history. *)
Inductive asked : Type :=
| AskDefinition (file_path : pystr) (line character : Z)
| AskReferences (file_path : pystr) (line character : Z)
| AskSymbol (ext query : pystr).

(** The state of the service and of its servers.  A [LanguageServer]
    object is named by its serial number.
    - [servers] is [self.servers];
    - [open_documents] is [self.open_documents];
    - [live] holds the connections whose process is running;
    - [started] counts the [LanguageServer] objects created so far;
    - [announced] is the history of document-opened notifications:
      connection and absolute path of the document, oldest first;
    - [requests] is the history of requests, oldest first. *)
Record state : Type := mk {
  servers : gmap pystr nat;
  open_documents : gset pystr;
  live : gset nat;
  started : nat;
  announced : list (nat * pystr);
  requests : list asked;
}.

Definition initial : state := mk ∅ ∅ ∅ 0 [] [].

(** [server.is_running()] for the server registered for an extension. *)
Definition registered (s : state) (file_ext : pystr) : option nat :=
  match servers s !! file_ext with
  | Some c => if bool_decide (c ∈ live s) then Some c else None
  | None => None
  end.

(** [get_server_for_file(self, file_path)].  A server whose [start()]
    returns [True] is entered as running (see [can_start]); a process
    that exits later is the event [crash]. *)
Definition get_server_for_file (file_path : pystr) (s : state) : option nat * state :=
  let file_ext := suffix file_path in
  match registered s file_ext with
  | Some c => (Some c, s)
  | None =>
      let c := started s in
      if can_start file_ext then
        (Some c, mk (<[file_ext := c]> (servers s)) (open_documents s)
                    ({[c]} ∪ live s) (S c) (announced s) (requests s))
      else
        (None, mk (servers s) (open_documents s) (live s) (S c)
                  (announced s) (requests s))
  end.

(** [LanguageServer.open_document(self, file_path)] on connection [c]:
    [False] when the file cannot be read, otherwise the notification is
    sent (by [_send_notification], which does nothing on a connection
    that is not running) and the result is [True]. *)
Definition server_open_document (c : nat) (abs_path : pystr) (s : state) : bool * state :=
  match readlines abs_path with
  | Raise _ => (false, s)
  | Return _ =>
      if bool_decide (c ∈ live s) then
        (true, mk (servers s) (open_documents s) (live s) (started s)
                  (announced s ++ [(c, abs_path)]) (requests s))
      else (true, s)
  end.

(** The key of a document in [open_documents]. *)
Definition document_uri (abs_path : pystr) : pystr := py "file://" ++ abs_path.

(** [LspService.open_document(self, file_path)]. *)
Definition open_document (file_path : pystr) (s : state) : bool * state :=
  let abs_path := abspath file_path in
  let '(server, s1) := get_server_for_file abs_path s in
  match server with
  | None => (false, s1)
  | Some c =>
      let uri := document_uri abs_path in
      if bool_decide (uri ∈ open_documents s1) then (true, s1)
      else
        let '(result, s2) := server_open_document c abs_path s1 in
        if result then
          (true, mk (servers s2) ({[uri]} ∪ open_documents s2) (live s2)
                    (started s2) (announced s2) (requests s2))
        else (false, s2)
  end.

(** [LspService.shutdown(self)]: every registered server is shut down;
    neither [servers] nor [open_documents] is touched. *)
Definition shutdown (s : state) : state :=
  mk (servers s) (open_documents s) (live s ∖ map_img (servers s))
     (started s) (announced s) (requests s).

(** The process of connection [c] dies. *)
Definition crash (c : nat) (s : state) : state :=
  mk (servers s) (open_documents s) (live s ∖ {[c]})
     (started s) (announced s) (requests s).

Definition record_request (a : asked) (s : state) : state :=
  mk (servers s) (open_documents s) (live s) (started s) (announced s)
     (requests s ++ [a]).

(** *** Invariants of the state *)

(** The servers in the dictionary were numbered before the next
    serial number. *)
Definition numbered (s : state) : Prop :=
  forall file_ext c, servers s !! file_ext = Some c -> (c < started s)%nat.

(** The history of announcements has no document twice, and the key of
    every announced document is in [open_documents]. *)
Definition recorded (s : state) : Prop :=
  NoDup (snd <$> announced s) /\
  forall c abs_path, (c, abs_path) ∈ announced s ->
    document_uri abs_path ∈ open_documents s.

(** *** Results *)

(** One element of the list [results] of [_process_locations]. *)
Record entry : Type := {
  symbol : pystr;
  file : pystr;
  line : Z;
  column : Z;
  context : list pystr;
}.

(** The dictionary literal of [_process_locations]. *)
Definition entry_json (e : entry) : json :=
  JDict [(py "symbol", JStr (symbol e)); (py "file", JStr (file e));
         (py "line", JInt (line e)); (py "column", JInt (column e));
         (py "context", JList (map JStr (context e)))].

(** One element of the list [results] of [_process_workspace_symbols]. *)
Record symbol_entry : Type := {
  name : pystr;
  kind : pystr;
  symbol_file : pystr;
  symbol_line : Z;
}.

(** The dictionary literal of [_process_workspace_symbols]. *)
Definition symbol_entry_json (e : symbol_entry) : json :=
  JDict [(py "name", JStr (name e)); (py "kind", JStr (kind e));
         (py "file", JStr (symbol_file e)); (py "line", JInt (symbol_line e))].

(** The two shapes of a returned dictionary. *)
Definition results_json (l : list json) : json := JDict [(py "results", JList l)].
Definition error_json (message : pystr) : json := JDict [(py "error", JStr message)].

(** The message [f"{before}'{symbol_name}'"]. *)
Definition quoted (before symbol_name : pystr) : pystr :=
  before ++ py "'" ++ symbol_name ++ py "'".

(** [uri.replace('file://', '')]; [skip] counts the characters of an
    occurrence that remain to be dropped. *)
Fixpoint remove_scheme_from (skip : nat) (s : pystr) : pystr :=
  match s with
  | [] => []
  | c :: r =>
      match skip with
      | S k => remove_scheme_from k r
      | O => if startswith (py "file://") s then remove_scheme_from 6 r
             else c :: remove_scheme_from 0 r
      end
  end.

Definition remove_scheme (uri : pystr) : pystr := remove_scheme_from 0 uri.

(** The body of the loop of [_process_locations] for a location with
    [uri] and start position [(line0, character0)]. *)
Definition locate (symbol_name uri : pystr) (line0 character0 : N) : entry :=
  let target_file := unquote (remove_scheme uri) in
  let line := Z.of_N line0 + 1 in
  let character := Z.of_N character0 + 1 in
  let context := Context.get_symbol_context target_file line in
  let rel_path := match relpath target_file with
                  | Return p => p
                  | Raise _ => target_file
                  end in
  {| symbol := symbol_name; file := rel_path; line := line;
     column := character; context := Context.context context |}.

Fixpoint process_each (symbol_name : pystr) (ls : list location) (results : list entry)
    : exc (list entry) :=
  match ls with
  | [] => Return results
  | Location uri l c :: r =>
      process_each symbol_name r (results ++ [locate symbol_name uri l c])
  | LocationLink uri l c :: r =>
      process_each symbol_name r (results ++ [locate symbol_name uri l c])
  | Unrecognised :: r => process_each symbol_name r results
  | Malformed :: _ => Raise (py "KeyError")
  end.

(** What [_process_locations] returns: the list under the key
    [results], or the message under the key [error]. *)
Inductive outcome : Type :=
| Results (l : list entry)
| Error (message : pystr).

Definition outcome_json (o : outcome) : json :=
  match o with
  | Results l => results_json (map entry_json l)
  | Error m => error_json m
  end.

(** [if not locations]. *)
Definition falsy (locs : locations) : bool :=
  match locs with
  | Nothing | Several [] => true
  | _ => false
  end.

(** [_process_locations(self, locations, symbol_name)]. *)
Definition _process_locations (locs : locations) (symbol_name : pystr) : exc outcome :=
  if falsy locs then Return (Error (quoted (py "No locations found for ") symbol_name))
  else
    let ls := match locs with
              | Several ls => ls
              | Single l => [l]
              | Nothing => []
              end in
    results ← process_each symbol_name ls [];
    Return (Results results).

(** [_symbol_kind_to_string(self, kind)]. *)
Definition _symbol_kind_to_string (kind : Z) : pystr :=
  let kinds : list (Z * string) :=
    [(1, "file"); (2, "module"); (3, "namespace"); (4, "package"); (5, "class");
     (6, "method"); (7, "property"); (8, "field"); (9, "constructor");
     (10, "enum"); (11, "interface"); (12, "function"); (13, "variable");
     (14, "constant"); (15, "string"); (16, "number"); (17, "boolean");
     (18, "array"); (19, "object"); (20, "key"); (21, "null");
     (22, "enum member"); (23, "struct"); (24, "event"); (25, "operator");
     (26, "type parameter")]%string in
  match List.find (fun kv => bool_decide (fst kv = kind)) kinds with
  | Some kv => py (snd kv)
  | None => py "symbol"
  end.

(** [_process_workspace_symbols(self, symbols)]; the [ValueError] of
    [os.path.relpath] is not caught here. *)
Fixpoint _process_workspace_symbols (symbols : list symbol_information)
    : exc (list symbol_entry) :=
  match symbols with
  | [] => Return []
  | sym :: rest =>
      rel_path ← relpath (remove_scheme (si_uri sym));
      let e := {| name := si_name sym;
                  kind := _symbol_kind_to_string (default 0 (si_kind sym));
                  symbol_file := rel_path;
                  symbol_line := Z.of_N (si_line sym) + 1 |} in
      results ← _process_workspace_symbols rest;
      Return (e :: results)
  end.

(** The loop of [LspService.find_symbol] over [self.file_index.items()].
    An exception of the request or of [_process_workspace_symbols]
    leaves the loop. *)
Fixpoint find_symbol_loop (symbol_name : pystr) (index : list (pystr * list pystr))
    (results : list symbol_entry) (s : state) : exc (list symbol_entry) * state :=
  match index with
  | [] => (Return results, s)
  | (_, []) :: rest => find_symbol_loop symbol_name rest results s
  | (_, first :: _) :: rest =>
      let '(server, s1) := get_server_for_file first s in
      match server with
      | None => find_symbol_loop symbol_name rest results s1
      | Some _ =>
          let s2 := record_request (AskSymbol (suffix first) symbol_name) s1 in
          match find_workspace_symbol (suffix first) symbol_name with
          | Raise e => (Raise e, s2)
          | Return [] => find_symbol_loop symbol_name rest results s2
          | Return symbols =>
              match _process_workspace_symbols symbols with
              | Raise e => (Raise e, s2)
              | Return more => find_symbol_loop symbol_name rest (results ++ more) s2
              end
          end
      end
  end.

(** [LspService.find_symbol(self, symbol_name)]. *)
Definition find_symbol (symbol_name : pystr) (s : state) : exc json * state :=
  match find_symbol_loop symbol_name file_index [] s with
  | (Return [], s') =>
      (Return (error_json (quoted (py "No symbols found for ") symbol_name)), s')
  | (Return results, s') => (Return (results_json (map symbol_entry_json results)), s')
  | (Raise e, s') => (Raise e, s')
  end.

End Service.
End Service.

(** ** The workspace-wide queries: class [CodeBrowserAPI]

    Each operation is modelled up to the dictionary it passes to
    [json.dumps]. *)

Module CodeBrowserAPI.
Section CodeBrowserAPI.
Context `{UnicodeDB} `{FileSystem} `{Workspace}.
Import Service.

(** The tuple [(loc['file'], loc['line'], loc['column'])]. *)
Definition loc_key (e : entry) : pystr * Z * Z := (file e, line e, column e).

(** The two nested loops [for file_ext, files in file_index.items():
    for file_path in files:] around a body that updates an accumulator
    and the state of the service. *)
Definition for_each_file {A} (body : pystr -> A -> state -> A * state)
    (acc : A) (s : state) : A * state :=
  fold_left
    (fun st ext_files =>
       fold_left (fun st file_path => body file_path (fst st) (snd st))
                 (snd ext_files) st)
    file_index (acc, s).

(** The end of a [try] block, from the request to the subscript
    [["results"]], which raises [KeyError] on an error dictionary:
    the processed locations of one file, or the exception that the
    [except] clause will catch.  [reply] is the request method. *)
Definition processed (reply : pystr -> Z -> Z -> exc locations)
    (symbol_name file_path : pystr) (line character : Z) : exc (list entry) :=
  found ← reply file_path line character;
  if falsy found then Return []
  else
    o ← _process_locations found symbol_name;
    match o with
    | Results l => Return l
    | Error _ => Raise (py "KeyError")
    end.

(** The statements of a [try] block up to the loop over the processed
    locations; [ask] names the request in the history. *)
Definition locations_in (ask : pystr -> Z -> Z -> asked)
    (reply : pystr -> Z -> Z -> exc locations)
    (symbol_name file_path : pystr) (s : state) : exc (list entry) * state :=
  let '(server, s1) := get_server_for_file file_path s in
  match server with
  | None => (Return [], s1)
  | Some _ =>
      let '(_, s2) := open_document file_path s1 in
      match Locator.find_symbol_position file_path symbol_name with
      | None => (Return [], s2)
      | Some (line, character) =>
          (processed reply symbol_name file_path line character,
           record_request (ask file_path line character) s2)
      end
  end.

Definition definitions_in : pystr -> pystr -> state -> exc (list entry) * state :=
  locations_in AskDefinition find_definition.

(** The reference request is sent with [include_declaration=True]. *)
Definition references_in : pystr -> pystr -> state -> exc (list entry) * state :=
  locations_in AskReferences (fun p l c => find_references p l c true).

(** The loop body of [goto_definition]: keep a location whose key has
    not been seen. *)
Definition keep_unseen (acc : gset (pystr * Z * Z) * list entry) (def_loc : entry)
    : gset (pystr * Z * Z) * list entry :=
  if bool_decide (loc_key def_loc ∈ fst acc) then acc
  else ({[loc_key def_loc]} ∪ fst acc, snd acc ++ [def_loc]).

(** The loop body of the second pass of [goto_references]: keep a
    location that is neither a definition nor seen. *)
Definition keep_reference (definition_locations : gset (pystr * Z * Z))
    (acc : gset (pystr * Z * Z) * list entry) (ref : entry)
    : gset (pystr * Z * Z) * list entry :=
  if bool_decide (loc_key ref ∈ definition_locations) then acc
  else if bool_decide (loc_key ref ∈ fst acc) then acc
  else ({[loc_key ref]} ∪ fst acc, snd acc ++ [ref]).

(** The [try] statement: an exception leaves the accumulator as it is. *)
Definition attempt {A} (found : exc (list entry) * state) (update : A -> entry -> A)
    (acc : A) : A * state :=
  match found with
  | (Return l, s) => (fold_left update l acc, s)
  | (Raise _, s) => (acc, s)
  end.

(** [goto_definition(self, symbol_name)], up to the list [results]. *)
Definition definitions (symbol_name : pystr) (s : state) : list entry * state :=
  let '((seen_locations, results), s') :=
    for_each_file
      (fun file_path acc s => attempt (definitions_in symbol_name file_path s) keep_unseen acc)
      (∅, []) s in
  (results, s').

(** [goto_definition(self, symbol_name)]. *)
Definition goto_definition (symbol_name : pystr) (s : state) : json * state :=
  let '(results, s') := definitions symbol_name s in
  (match results with
   | [] => error_json (quoted (py "No definition found for ") symbol_name)
   | _ => results_json (map entry_json results)
   end, s').

(** The first pass of [goto_references]: the keys of all definitions. *)
Definition definition_pass (symbol_name : pystr) (s : state)
    : gset (pystr * Z * Z) * state :=
  for_each_file
    (fun file_path acc s =>
       attempt (definitions_in symbol_name file_path s)
               (fun acc def_loc => {[loc_key def_loc]} ∪ acc) acc)
    ∅ s.

(** The second pass of [goto_references]. *)
Definition reference_pass (symbol_name : pystr)
    (definition_locations : gset (pystr * Z * Z)) (s : state)
    : (gset (pystr * Z * Z) * list entry) * state :=
  for_each_file
    (fun file_path acc s =>
       attempt (references_in symbol_name file_path s)
               (keep_reference definition_locations) acc)
    (∅, []) s.

(** [goto_references(self, symbol_name)], up to the list [results]. *)
Definition references (symbol_name : pystr) (s : state) : list entry * state :=
  let '(definition_locations, s1) := definition_pass symbol_name s in
  let '((seen_locations, results), s2) :=
    reference_pass symbol_name definition_locations s1 in
  (results, s2).

(** [goto_references(self, symbol_name)]. *)
Definition goto_references (symbol_name : pystr) (s : state) : json * state :=
  let '(results, s') := references symbol_name s in
  (match results with
   | [] => error_json (quoted (py "No references found for ") symbol_name)
   | _ => results_json (map entry_json results)
   end, s').

(** [find_symbol(self, symbol_name)]. *)
Definition find_symbol (symbol_name : pystr) (s : state) : exc json * state :=
  Service.find_symbol symbol_name s.

(** The dictionary [get_symbol_context] returns. *)
Definition context_json (r : Context.result) : json :=
  JDict [(py "file", JStr (Context.file r)); (py "line", JInt (Context.line r));
         (py "context", JList (map JStr (Context.context r)))].

(** [get_symbol_context(self, file_path, line)]. *)
Definition get_symbol_context (file_path : pystr) (line : Z) : json :=
  context_json (Context.get_symbol_context file_path line).

(** [shutdown(self)]. *)
Definition shutdown (s : state) : state := Service.shutdown s.

(** *** The shape of what the operations return *)




(** *** Runs of the service *)

(** What happens to a service during its life: the operations of the
    interface, and the death of the process of a connection. *)
Inductive command : Type :=
| OpenDocument (file_path : pystr)
| GotoDefinition (symbol_name : pystr)
| GotoReferences (symbol_name : pystr)
| FindSymbol (symbol_name : pystr)
| Shutdown
| ProcessDies (c : nat).

Definition step (s : state) (cmd : command) : state :=
  match cmd with
  | OpenDocument file_path => snd (open_document file_path s)
  | GotoDefinition symbol_name => snd (goto_definition symbol_name s)
  | GotoReferences symbol_name => snd (goto_references symbol_name s)
  | FindSymbol symbol_name => snd (find_symbol symbol_name s)
  | Shutdown => shutdown s
  | ProcessDies c => crash c s
  end.

(** The state of a service created by [LspService(workspace_dir)] after
    the commands. *)
Definition run (cmds : list command) : state := fold_left step cmds initial.

(** *** The scan of the file index *)

(** The files in the order of the two nested loops. *)
Definition all_files : list pystr := concat (map snd file_index).

(** Whether [get_server_for_file] finds or starts a server for the
    extension. *)
Definition usable (s : state) (file_ext : pystr) : bool :=
  bool_decide (is_Some (registered s file_ext)) || can_start file_ext.

(** What an operation of the service may do to the state: the invariants
    survive and no document leaves [open_documents]. *)
Definition keeps (s s' : state) : Prop :=
  (numbered s -> numbered s') /\
  (recorded s -> recorded s') /\
  open_documents s ⊆ open_documents s'.

(** What an operation does during a scan: the same extensions keep
    having a server, and the history of requests only grows, by requests
    of one kind. *)
Definition settled (kind : asked -> Prop) (s s' : state) : Prop :=
  numbered s ->
  numbered s' /\
  (forall file_ext, usable s' file_ext = usable s file_ext) /\
  exists more, requests s' = requests s ++ more /\ Forall kind more.

(** The processed locations that the scan meets in one file: none
    without a server, without a position for the symbol, or after an
    exception. *)
Definition met_in (reply : pystr -> Z -> Z -> exc locations) (s : state)
    (symbol_name file_path : pystr) : list entry :=
  if usable s (suffix file_path) then
    match Locator.find_symbol_position file_path symbol_name with
    | Some (line, character) =>
        match processed reply symbol_name file_path line character with
        | Return l => l
        | Raise _ => []
        end
    | None => []
    end
  else [].

(** The processed locations in the order in which a scan of the file
    index, started in state [s], meets them. *)
Definition encountered (reply : pystr -> Z -> Z -> exc locations) (s : state)
    (symbol_name : pystr) : list entry :=
  flat_map (met_in reply s symbol_name) all_files.

End CodeBrowserAPI.
End CodeBrowserAPI.

(** ** The queries on one file: [LspService.goto_definition] and
    [LspService.goto_references] *)

Module PerFile.
Section PerFile.
Context `{UnicodeDB} `{FileSystem} `{Workspace}.
Import Service.

(** The common body of the two methods; [ask] and [reply] are the
    request, [nothing] the beginning of the message for an empty
    answer.  The server, the position and the request use the resolved
    path, [open_document] and the message about the symbol the path as
    given.  An exception of the request or of [_process_locations] is
    not caught. *)
Definition query (ask : pystr -> Z -> Z -> asked)
    (reply : pystr -> Z -> Z -> exc locations) (nothing : pystr)
    (file_path symbol_name : pystr) (s : state) : exc json * state :=
  let abs_path := abspath file_path in
  let '(server, s1) := get_server_for_file abs_path s in
  match server with
  | None =>
      (Return (error_json (py "No language server available for " ++ abs_path)), s1)
  | Some _ =>
      let '(_, s2) := open_document file_path s1 in
      match Locator.find_symbol_position abs_path symbol_name with
      | None =>
          (Return (error_json (py "Symbol '" ++ symbol_name ++ py "' not found in "
                               ++ file_path)), s2)
      | Some (line, character) =>
          let s3 := record_request (ask abs_path line character) s2 in
          match reply abs_path line character with
          | Raise e => (Raise e, s3)
          | Return found =>
              if falsy found then (Return (error_json (quoted nothing symbol_name)), s3)
              else
                match _process_locations found symbol_name with
                | Return o => (Return (outcome_json o), s3)
                | Raise e => (Raise e, s3)
                end
          end
      end
  end.

(** [goto_definition(self, file_path, symbol_name)]. *)
Definition goto_definition : pystr -> pystr -> state -> exc json * state :=
  query AskDefinition find_definition (py "No definition found for ").

(** [goto_references(self, file_path, symbol_name)]; the request is
    sent with the default [include_declaration=False]. *)
Definition goto_references : pystr -> pystr -> state -> exc json * state :=
  query AskReferences (fun p l c => find_references p l c false)
        (py "No references found for ").

End PerFile.
End PerFile.

(** ** Life cycle of a connection: [start], [initialize], [shutdown] *)

Module Lifecycle.
Import LanguageServer.

(** A [LanguageServer] object with the fields of the handshake.
    [has_process] is [self.process is not None]; [running (conn s)] is
    [is_running()], which is false as well when the process has exited.
    During one call the process does not exit on its own: within a call
    [is_running()] changes only when a write finds the pipe broken. *)
Record t : Type := mk {
  conn : LanguageServer.t;
  has_process : bool;
  capabilities : option json;
  is_initialized : bool;
}.

(** The object that [__init__] builds. *)
Definition new : t := mk (LanguageServer.mk false [] 0 []) false None false.

(** [self.process is not None] after a write: [_send_message] sets
    [self.process] to [None] when it finds the pipe broken. *)
Definition process_after (before after : LanguageServer.t) (p : bool) : bool :=
  if running before && negb (running after) then false else p.

(** [self._send_request(method, params)] on the whole object.  The only
    exception that leaves [_send_request] is one of the write, raised
    after [self.request_id += 1] and before anything is written. *)
Definition send_request (pipe_ok : bool) (arrivals : list (list json))
    (method : pystr) (params : json) (self : t) : exc (option json) * t :=
  match _send_request pipe_ok arrivals method params (conn self) with
  | Return (response, c) =>
      (Return response,
       mk c (process_after (conn self) c (has_process self))
          (capabilities self) (is_initialized self))
  | Raise e =>
      (Raise e,
       mk (LanguageServer.mk (running (conn self)) (stdin (conn self))
             (request_id (conn self) + 1) (response_queue (conn self)))
          (has_process self) (capabilities self) (is_initialized self))
  end.

(** [self._send_notification(method, params)] on the whole object. *)
Definition send_notification (pipe_ok : bool) (method : pystr) (params : json)
    (self : t) : exc unit * t :=
  match _send_notification pipe_ok method params (conn self) with
  | Return c =>
      (Return tt,
       mk c (process_after (conn self) c (has_process self))
          (capabilities self) (is_initialized self))
  | Raise e => (Raise e, self)
  end.

(** Truth value of a parsed message. *)
Definition truthy (j : json) : bool :=
  match j with
  | JNull => false
  | JBool b => b
  | JInt z => negb (z =? 0)
  | JStr s => match s with [] => false | _ => true end
  | JList l => match l with [] => false | _ => true end
  | JDict kvs => match kvs with [] => false | _ => true end
  end.

(** [k in j] for a string [k]: a key of a dictionary, an element of a
    list, a substring of a string; [TypeError] otherwise. *)
Definition member (k : pystr) (j : json) : exc bool :=
  match j with
  | JDict kvs => Return (match assoc k kvs with Some _ => true | None => false end)
  | JList l =>
      Return (existsb (fun x => match x with
                                | JStr s => bool_decide (s = k)
                                | _ => false
                                end) l)
  | JStr s => Return (contains k s)
  | _ => Raise (py "TypeError")
  end.

(** [j[k]] for a string [k]. *)
Definition getitem (j : json) (k : pystr) : exc json :=
  match j with
  | JDict kvs =>
      match assoc k kvs with
      | Some v => Return v
      | None => Raise (py "KeyError")
      end
  | _ => Raise (py "TypeError")
  end.

Section Handshake.

(** [os.getpid()], [str(self.workspace_dir)] and
    [urllib.parse.quote(str(self.workspace_dir), safe='/:')]. *)
Context (pid : Z) (workspace_dir encoded_root_uri : pystr).

Definition dynamic : json := JDict [(py "dynamicRegistration", JBool true)].

(** The parameters of the [initialize] request. *)
Definition initialize_params : json :=
  JDict [(py "processId", JInt pid);
         (py "rootPath", JStr workspace_dir);
         (py "rootUri", JStr (py "file://" ++ encoded_root_uri));
         (py "capabilities",
          JDict [(py "textDocument",
                  JDict [(py "definition", dynamic);
                         (py "references", dynamic);
                         (py "synchronization", dynamic);
                         (py "completion", dynamic)]);
                 (py "workspace", JDict [(py "symbol", dynamic)])])].

(** [initialize(self)]: what it returns or raises, and the object
    afterwards.  [pipe_request] and [pipe_notification] tell whether the
    pipe holds at the two writes. *)
Definition initialize (pipe_request pipe_notification : bool)
    (arrivals : list (list json)) (self : t) : exc bool * t :=
  match send_request pipe_request arrivals (py "initialize") initialize_params self with
  | (Raise e, s) => (Raise e, s)
  | (Return None, s) => (Return false, s)
  | (Return (Some response), s) =>
      if negb (truthy response) then (Return false, s)
      else
        match member (py "result") response with
        | Raise e => (Raise e, s)
        | Return false => (Return false, s)
        | Return true =>
            match (result ← getitem response (py "result");
                   getitem result (py "capabilities")) with
            | Raise e => (Raise e, s)
            | Return caps =>
                let s1 := mk (conn s) (has_process s) (Some caps) (is_initialized s) in
                match send_notification pipe_notification (py "initialized")
                        (JDict []) s1 with
                | (Raise e, s2) => (Raise e, s2)
                | (Return _, s2) =>
                    (Return true,
                     mk (conn s2) (has_process s2) (capabilities s2) true)
                end
            end
        end
  end.

(** [start(self)].  [spawned] is the outcome of building the command
    and of [subprocess.Popen]: [None] when it raises, otherwise whether
    the new process is still running when the handshake begins.  The
    bytes written are counted from the start of the new process. *)
Definition start (spawned : option bool) (pipe_request pipe_notification : bool)
    (arrivals : list (list json)) (self : t) : bool * t :=
  if has_process self && running (conn self) then (true, self)
  else
    match spawned with
    | None => (false, self)
    | Some alive =>
        let self1 :=
          mk (LanguageServer.mk alive [] (request_id (conn self))
                (response_queue (conn self)))
             true (capabilities self) (is_initialized self) in
        match initialize pipe_request pipe_notification arrivals self1 with
        | (Return true, s) => (true, s)
        | (_, s) => (false, s)
        end
    end.

End Handshake.

(** [shutdown(self)].  When a write has found the pipe broken,
    [self.process] is [None] and [self.process.poll()] raises; the
    [except] clause logs it and the two assignments are skipped. *)
Definition shutdown (pipe_request pipe_notification : bool)
    (arrivals : list (list json)) (self : t) : t :=
  if negb (has_process self) then self
  else
    match send_request pipe_request arrivals (py "shutdown") JNull self with
    | (Raise _, s) => s
    | (Return _, s) =>
        match send_notification pipe_notification (py "exit") JNull s with
        | (Raise _, s1) => s1
        | (Return _, s1) =>
            if negb (has_process s1) then s1
            else
              mk (LanguageServer.mk false (stdin (conn s1)) (request_id (conn s1))
                    (response_queue (conn s1)))
                 false (capabilities s1) false
        end
    end.

(** The bytes of one message on the wire. *)
Definition frame (message : json) : list N :=
  py "Content-Length: " ++ str_of_int (len (dumps message)) ++ CRLF ++ CRLF
    ++ dumps message.

End Lifecycle.

(** ** The definition heuristic: [CodeBrowserAPI._is_definition] *)

Module Classifier.
Section Classifier.
Context `{UnicodeDB}.

(** [s.split(':', 1)[1]]: what follows the first colon, and
    [IndexError] when there is none. *)
Fixpoint after_colon (s : pystr) : exc pystr :=
  match s with
  | [] => Raise (py "list index out of range")
  | c :: r => if (c =? 58)%N then Return r else after_colon r
  end.

(** The test on the text of a marked line. *)
Definition defines (line : pystr) : bool :=
  startswith (py "def ") line || startswith (py "class ") line ||
  contains (py "=") line ||
  startswith (py "import ") line || startswith (py "from ") line.

(** The loop over [location['context']]. *)
Fixpoint marked_defines (ctx : list pystr) : exc bool :=
  match ctx with
  | [] => Return false
  | ctx_line :: rest =>
      if startswith [8594%N] ctx_line then
        tail ← after_colon ctx_line;
        if defines (strip tail) then Return true else marked_defines rest
      else marked_defines rest
  end.

(** [_is_definition(self, location)] for an entry of a result list. *)
Definition _is_definition (location : Service.entry) : exc bool :=
  match Service.context location with
  | [] => Return false
  | ctx => marked_defines ctx
  end.

End Classifier.
End Classifier.

(** ** A small workspace

    Concrete inputs on which the model is run. *)

Module Sample.

(** A character database without letters or spaces outside ASCII. *)
Definition plain : UnicodeDB :=
  {| uni_isalnum := fun _ => false; uni_isspace := fun _ => false |}.

(** A line of text with its line end. *)
Definition ln (s : string) : pystr := py s ++ [10%N].

Definition spaces (n : nat) : pystr := repeat 32%N n.

(** [short.py]: a function whose name is a letter of the keyword. *)
Definition short_py : list pystr :=
  [ln "def f():"; ln "    return 1"; ln "x = f()"].

(** [tabbed.py]: a body indented with spaces that ends with a line
    indented with one tab. *)
Definition tabbed_py : list pystr :=
  [ln "def f(x):";
   spaces 12 ++ ln "if x:";
   spaces 16 ++ ln "x = 1";
   [9%N] ++ ln "return x";
   ln "y = f(0)"].

(** [spaced.py]: a blank line and a comment between the declaration and
    the body. *)
Definition spaced_py : list pystr :=
  [ln "class A:";
   ln "";
   ln "    # the only field";
   ln "    n = 0";
   ln "a = A()"].

Definition files : list (pystr * list pystr) :=
  [(py "/w/short.py", short_py); (py "/w/tabbed.py", tabbed_py);
   (py "/w/spaced.py", spaced_py)].

Fixpoint content (p : pystr) (fs : list (pystr * list pystr)) : exc (list pystr) :=
  match fs with
  | [] => Raise (py "[Errno 2] No such file or directory")
  | (q, lines) :: r => if bool_decide (q = p) then Return lines else content p r
  end.

(** A file system with these files; all paths are absolute and every
    file is a Python file. *)
Definition fs : FileSystem :=
  {| abspath := fun p => p;
     readlines := fun p => content p files;
     relpath := fun p => Return (drop 3 p);
     suffix := fun _ => py ".py";
     unquote := fun p => p |}.

(** One server, for Python files.  Asked for the definition of the
    symbol at a position it points to the first line of [short.py];
    asked for the references it lists that line and the call on the
    third line; asked for symbols it names the function. *)
Definition workspace : Workspace :=
  {| file_index := [(py ".py", [py "/w/short.py"; py "/w/tabbed.py"]); (py ".c", [])];
     can_start := fun ext => bool_decide (ext = py ".py");
     find_definition := fun _ _ _ =>
       Return (Single (Location (py "file:///w/short.py") 0 4));
     find_references := fun _ _ _ _ =>
       Return (Several [Location (py "file:///w/short.py") 0 4;
                        Location (py "file:///w/short.py") 2 4]);
     find_workspace_symbol := fun _ _ =>
       Return [{| si_name := py "f"; si_kind := Some 12;
                  si_uri := py "file:///w/short.py"; si_line := 0%N |}] |}.

(** A notification of the server and the response to request 1. *)
Definition log_message : json :=
  LanguageServer.notification (py "window/logMessage")
    (JDict [(py "type", JInt 3); (py "message", JStr (py "ready"))]).

Definition response_1 : json :=
  JDict [(py "jsonrpc", JStr (py "2.0")); (py "id", JInt 1);
         (py "result", JDict [(py "capabilities", JDict [])])].

(** A connection that has just been started. *)
Definition fresh : LanguageServer.t := LanguageServer.mk true [] 0 [].

End Sample.

(** ** More inputs *)

Module MoreSamples.

(** [tail.py]: a declaration followed by a blank line and a comment
    only. *)
Definition tail_py : list pystr :=
  [Sample.ln "x = 1"; Sample.ln "def f(): pass"; Sample.ln ""; Sample.ln "# end"].

(** A file system with this file alone. *)
Definition fs : FileSystem :=
  {| abspath := fun p => p;
     readlines := fun p => Sample.content p [(py "/w/tail.py", tail_py)];
     relpath := fun p => Return (drop 3 p);
     suffix := fun _ => py ".py";
     unquote := fun p => p |}.

(** [mixed.py]: between the declaration and the body, a comment
    indented with three spaces and a tab. *)
Definition mixed_py : list pystr :=
  [Sample.ln "def f():"; Sample.spaces 3 ++ [9%N] ++ Sample.ln "# c";
   Sample.ln "    x = 1"; Sample.ln "y = 2"].

(** A file system with [mixed.py] and with [a], a symbolic link that
    points to itself: opening the link fails. *)
Definition links : FileSystem :=
  {| abspath := fun p => p;
     readlines := fun p =>
       if bool_decide (p = py "/w/a")
       then Raise (py "[Errno 40] Too many levels of symbolic links: '/w/a'")
       else Sample.content p [(py "/w/mixed.py", mixed_py)];
     relpath := fun p => Return (drop 3 p);
     suffix := fun _ => py ".py";
     unquote := fun p => p |}.

(** Path resolution in the workspace [/w]: a path is absolute when it
    begins with a slash, and resolving the link [a] fails. *)
Definition resolution : PathResolution :=
  {| is_absolute := fun p => startswith (py "/") p;
     resolve := fun p =>
       if bool_decide (p = py "a") then Raise (py "Symlink loop from '/w/a'")
       else Return (py "/w/" ++ p) |}.

End MoreSamples.

(** * Properties *)

(** ** Framing of outbound messages *)

Section Framing.
Import LanguageServer.

Local Ltac ascii_literal := repeat constructor; unfold is_ascii; lia.

Lemma ascii_app (s t : pystr) :
  Forall is_ascii s -> Forall is_ascii t -> Forall is_ascii (s ++ t).
Proof. intros. apply Forall_app; auto. Qed.

Lemma uint_digits_ascii (d : Decimal.uint) :
  Forall is_ascii (py (NilEmpty.string_of_uint d)).
Proof.
  induction d; cbn [NilEmpty.string_of_uint py list_ascii_of_string map];
    try constructor; auto; unfold is_ascii; cbn; lia.
Qed.

Lemma str_of_int_ascii (z : Z) : Forall is_ascii (str_of_int z).
Proof.
  unfold str_of_int, NilZero.string_of_int.
  destruct (Z.to_int z) as [d | d].
  - unfold NilZero.string_of_uint. destruct d; try apply uint_digits_ascii.
    ascii_literal.
  - cbn [py list_ascii_of_string map]. constructor.
    + unfold is_ascii; cbn; lia.
    + unfold NilZero.string_of_uint. destruct d; try apply uint_digits_ascii.
      ascii_literal.
Qed.

Lemma hex_digit_ascii (d : N) : (d < 16)%N -> is_ascii (hex_digit d).
Proof.
  unfold hex_digit, is_ascii. intros. destruct (N.ltb_spec d 10); lia.
Qed.

Lemma hex4_ascii (n : N) : Forall is_ascii (hex4 n).
Proof.
  unfold hex4.
  repeat constructor; apply hex_digit_ascii; apply N.mod_lt; lia.
Qed.

Lemma escape_char_ascii (c : N) : Forall is_ascii (escape_char c).
Proof.
  unfold escape_char.
  repeat match goal with
         | |- context [if ?b then _ else _] => destruct b
         end;
    repeat first [apply hex4_ascii | apply ascii_app]; ascii_literal.
Qed.

Lemma encode_basestring_ascii_ascii (s : pystr) :
  Forall is_ascii (encode_basestring_ascii s).
Proof.
  unfold encode_basestring_ascii.
  apply ascii_app; [ascii_literal|]. apply ascii_app; [|ascii_literal].
  induction s as [|c s IH]; cbn [flat_map]; [constructor|].
  apply ascii_app; [|exact IH].
  destruct (needs_escape c) eqn:E; [apply escape_char_ascii|].
  constructor; [|constructor].
  unfold needs_escape in E. unfold is_ascii.
  apply orb_false_elim in E as [E E4]. apply N.ltb_ge in E4. lia.
Qed.

(** With [ensure_ascii=True], the text [json.dumps] returns has ASCII
    characters only. *)
Lemma dumps_ascii (j : json) : Forall is_ascii (dumps j).
Proof.
  induction j using json_induction; cbn [dumps].
  - ascii_literal.
  - destruct b; ascii_literal.
  - apply str_of_int_ascii.
  - apply encode_basestring_ascii_ascii.
  - apply ascii_app; [ascii_literal|]. apply ascii_app; [|ascii_literal].
    induction H as [|x r Hx Hr IH]; [constructor|].
    destruct r; [exact Hx|].
    apply ascii_app; [exact Hx|]. apply ascii_app; [ascii_literal|exact IH].
  - apply ascii_app; [ascii_literal|]. apply ascii_app; [|ascii_literal].
    induction H as [|[k v] r Hx Hr IH]; [constructor|].
    destruct r.
    + apply ascii_app; [apply encode_basestring_ascii_ascii|].
      apply ascii_app; [ascii_literal|exact Hx].
    + apply ascii_app; [apply encode_basestring_ascii_ascii|].
      apply ascii_app; [ascii_literal|].
      apply ascii_app; [exact Hx|].
      apply ascii_app; [ascii_literal|exact IH].
Qed.

(** ASCII text is its own UTF-8 encoding. *)
Lemma utf8_encode_ascii (s : pystr) : Forall is_ascii s -> utf8_encode s = Some s.
Proof.
  induction 1 as [|c s Hc Hs IH]; [reflexivity|].
  cbn [utf8_encode]. rewrite IH. unfold utf8_char.
  unfold is_ascii in Hc. apply N.ltb_lt in Hc. rewrite Hc. reflexivity.
Qed.

(** C1. Whatever the message and the state of the connection,
    [_send_message] does not raise, and on a running connection with a
    working pipe the bytes it appends to the standard input of the
    server are the header [Content-Length: n], two line ends, and the
    body, where the body is the UTF-8 encoding of the JSON text and [n]
    is the number of bytes of the body.  The JSON text never has a
    character outside ASCII (they are escaped), so the character count
    the code puts in the header is the byte count. *)
Theorem content_length_is_byte_length (message : json) (self : t) :
  exists body : list N,
    utf8_encode (dumps message) = Some body /\
    Forall is_ascii (dumps message) /\
    _send_message true message self =
      Return (if running self
              then mk true
                      (stdin self ++
                       (py "Content-Length: " ++ str_of_int (len body) ++ CRLF ++ CRLF) ++
                       body)
                      (request_id self) (response_queue self)
              else self).
Proof.
  pose proof (dumps_ascii message) as Hascii.
  exists (dumps message). split; [|split]; auto using utf8_encode_ascii.
  unfold _send_message. destruct (running self) eqn:Hrun; cbn [negb]; [|reflexivity].
  rewrite (utf8_encode_ascii (dumps message)) by assumption.
  rewrite utf8_encode_ascii; [reflexivity|].
  apply ascii_app; [ascii_literal|].
  apply ascii_app; [apply str_of_int_ascii|ascii_literal].
Qed.

(** The text of a message with the letter e-acute (code point 233) is
    eight ASCII characters, the letter being escaped: the header says 8
    and eight bytes follow. *)
Example content_length_of_escaped_text :
  _send_message true (JStr [233%N]) Sample.fresh =
  Return (mk true
             (py "Content-Length: 8" ++ CRLF ++ CRLF ++ [34%N] ++ py "\u00e9" ++ [34%N])
             0 []).
Proof. reflexivity. Qed.

(** Decimal rendering of integers, with the sign. *)
Example str_of_int_samples :
  str_of_int 0 = py "0" /\ str_of_int 105 = py "105" /\ str_of_int (-12) = py "-12".
Proof. repeat split. Qed.

End Framing.

(** ** Correlation of requests and responses *)

Section Correlation.
Import LanguageServer.

(** A pass that finds no match puts every message back, in order. *)
Lemma drain_missed (rid : Z) (queue responses queue' : list json) :
  drain rid queue responses = (Missed, queue') -> queue' = responses ++ queue.
Proof.
  revert responses. induction queue as [|r q IH]; intros responses; cbn [drain].
  - intros [= <-]. by rewrite app_nil_r.
  - destruct (test_id rid r); try discriminate.
    intros Hq. apply IH in Hq. by rewrite Hq, <- app_assoc.
Qed.

(** A pass that finds the match after other messages leaves only what
    was behind the match: the messages taken out before it are gone. *)
Lemma drain_found (rid : Z) (before after responses : list json) (r : json) :
  Forall (fun m => test_id rid m = IdOther) before ->
  test_id rid r = IdMatch ->
  drain rid (before ++ r :: after) responses = (Found r, after).
Proof.
  intros Hbefore Hr. revert responses.
  induction Hbefore as [|m before Hm _ IH]; intros responses; cbn [drain app].
  - by rewrite Hr.
  - rewrite Hm. apply IH.
Qed.

(** C2. The buffer holds a notification of the server followed by the
    response to request 1 when the first request polls it.  The request
    returns the response and leaves the buffer empty: the notification,
    which does not match the pending request, has been taken out and is
    not put back. *)
Theorem send_request_drops_buffered_message :
  test_id 1 Sample.log_message = IdOther /\
  exists self' : t,
    _send_request true [[Sample.log_message; Sample.response_1]]
                  (py "initialize") JNull Sample.fresh
      = Return (Some Sample.response_1, self') /\
    response_queue self' = [].
Proof.
  split; [reflexivity|].
  eexists. split; [vm_compute; reflexivity|]. reflexivity.
Qed.

End Correlation.

(** ** Symbol position *)

Section LocatorFacts.
Context `{UnicodeDB}.

(** The line of the position is the first line that matches one of the
    three patterns, and no position is found exactly when no line
    matches. *)
Lemma scan_finds_first_matching_line (symbol_name : pystr) (lines : list pystr)
    (line_num : Z) :
  match Locator.scan symbol_name lines line_num with
  | Some (l, _) =>
      exists before line after,
        lines = before ++ line :: after /\ l = line_num + len before /\
        Forall (fun t => Locator.matches symbol_name t = false) before /\
        Locator.matches symbol_name line = true
  | None => Forall (fun t => Locator.matches symbol_name t = false) lines
  end.
Proof.
  revert line_num.
  induction lines as [|line lines IH]; intros line_num; cbn [Locator.scan]; [constructor|].
  assert (Locator.matches symbol_name line = true ->
          exists before line' after,
            line :: lines = before ++ line' :: after /\
            line_num = line_num + len before /\
            Forall (fun t => Locator.matches symbol_name t = false) before /\
            Locator.matches symbol_name line' = true) as Hhere.
  { intros Hm. exists [], line, lines. unfold len. cbn.
    split; [done|]. split; [lia|]. split; [constructor|done]. }
  unfold Locator.matches at 1 in Hhere.
  destruct (bool_decide (is_Some (re_search (declaration_at (py "def") symbol_name) line)))
    eqn:E1; [by apply Hhere|].
  destruct (bool_decide (is_Some (re_search (declaration_at (py "class") symbol_name) line)))
    eqn:E2; [by apply Hhere|].
  destruct (re_search (word_at symbol_name) line) as [start|] eqn:E3.
  { apply Hhere. reflexivity. }
  assert (Locator.matches symbol_name line = false) as Hline.
  { unfold Locator.matches. rewrite E1, E2, E3. reflexivity. }
  specialize (IH (line_num + 1)).
  destruct (Locator.scan symbol_name lines (line_num + 1)) as [[l c]|].
  - destruct IH as (before & line' & after & -> & -> & Hbefore & Hm).
    exists (line :: before), line', after. unfold len. cbn [length].
    split; [done|]. split; [lia|]. split; [by constructor|done].
  - by constructor.
Qed.

(** C7. In a file whose first line is [def f():], the position found for
    the symbol [f] is line 0, column 2: the letter [f] of the keyword
    [def].  The symbol as a whole word stands at column 4, and column 2
    is not the start of a whole-word occurrence. *)
Theorem symbol_position_inside_keyword :
  @Locator.find_symbol_position _ Sample.fs (py "/w/short.py") (py "f") = Some (0, 2) /\
  re_search (word_at (py "f")) (Sample.ln "def f():") = Some 4 /\
  word_at (py "f") (Some 101%N) (drop 2 (Sample.ln "def f():")) = false.
Proof. repeat split; vm_compute; reflexivity. Qed.

End LocatorFacts.

(** ** Source context *)

Section ContextFacts.
Context `{UnicodeDB} `{FileSystem}.
Import Context.

Local Ltac exc_unfold := unfold mbind, mret, exc_bind, exc_ret in *.

(** An index within the bounds of the list is read without exception. *)
Lemma subscript_in_range {A} (l : list A) (i : Z) :
  0 <= i < len l -> exists x, subscript l i = Return x /\ l !! Z.to_nat i = Some x.
Proof.
  intros [Hlo Hhi]. unfold subscript, len in *.
  assert ((i <? 0) = false) as -> by (apply Z.ltb_ge; lia).
  cbv zeta. assert ((i <? 0) = false) as -> by (apply Z.ltb_ge; lia).
  destruct (l !! Z.to_nat i) as [x|] eqn:E.
  - exists x. split; reflexivity.
  - apply lookup_ge_None in E. lia.
Qed.

(** A loop whose body never raises does not raise. *)
Lemma mapM_returns {A B} (f : A -> exc B) (l : list A) :
  Forall (fun a => exists b, f a = Return b) l -> exists bs, mapM f l = Return bs.
Proof.
  induction 1 as [|a l [b Hb] _ [bs IH]]; cbn [mapM]; exc_unfold; [eauto|].
  rewrite Hb, IH. eauto.
Qed.

Lemma window_returns (lines : list pystr) (line_index : Z) :
  exists ctx, window lines line_index = Return ctx.
Proof.
  unfold window. apply mapM_returns. apply Forall_forall. intros i Hi.
  apply elem_of_seqZ in Hi.
  destruct (subscript_in_range lines i) as (text & Htext & _); [lia|].
  exc_unfold. rewrite Htext. eauto.
Qed.

(** The body of the [try] block raises only when the file cannot be
    read: no subscript leaves the bounds of [lines]. *)
Lemma get_symbol_context_try_raises (abs_path : pystr) (line : Z) (e : pystr) :
  get_symbol_context_try abs_path line = Raise e -> readlines abs_path = Raise e.
Proof.
  unfold get_symbol_context_try. exc_unfold.
  destruct (readlines abs_path) as [lines|e']; [|congruence].
  destruct (Z.ltb_spec (line - 1) 0); cbn [orb]; [discriminate|].
  destruct (Z.leb_spec (len lines) (line - 1)); [discriminate|].
  destruct (subscript_in_range lines (line - 1)) as (decl & -> & _); [lia|].
  destruct (looks_like_declaration decl); [discriminate|].
  destruct (window_returns lines (line - 1)) as [ctx ->]. discriminate.
Qed.

(** From the [try] block on, for the resolved path: when the file is
    read and the line number is below 1 or above the number of lines,
    the result is the structured value whose context is the single line
    [Line n is out of range]; when the file cannot be read, the context
    is the single line [Error: msg] with the message of the exception;
    and the only exception the [except] clause ever has to catch is the
    failure to read the file. *)
Theorem context_diagnostics (file_path : pystr) (line : Z) :
  (forall lines, readlines (abspath file_path) = Return lines ->
     line < 1 \/ len lines < line ->
     get_symbol_context file_path line =
       mk (abspath file_path) line
          [py "Line " ++ str_of_int line ++ py " is out of range"]) /\
  (forall e, readlines (abspath file_path) = Raise e ->
     get_symbol_context file_path line =
       mk (abspath file_path) line [py "Error: " ++ e]) /\
  (forall e, get_symbol_context_try (abspath file_path) line = Raise e ->
     readlines (abspath file_path) = Raise e).
Proof.
  split; [|split].
  - intros lines Hread Hrange. unfold get_symbol_context, get_symbol_context_try.
    exc_unfold. rewrite Hread.
    destruct (Z.ltb_spec (line - 1) 0); cbn [orb]; [reflexivity|].
    destruct (Z.leb_spec (len lines) (line - 1)); [reflexivity|lia].
  - intros e Hread. unfold get_symbol_context, get_symbol_context_try.
    exc_unfold. by rewrite Hread.
  - apply get_symbol_context_try_raises.
Qed.


(** *** The declaration branch *)

Lemma lstrip_nil (t : pystr) : lstrip t = [] <-> Forall (fun c => isspace c = true) t.
Proof.
  induction t as [|c r IH]; cbn [lstrip]; [split; auto|].
  destruct (isspace c) eqn:E.
  - rewrite IH. split; [by constructor|by inversion 1].
  - split; [discriminate|]. inversion 1; congruence.
Qed.

(** A line of white space only is blank for both loops. *)
Lemma strip_blank (t : pystr) : lstrip t = [] -> strip t = [].
Proof.
  intros Ht. apply lstrip_nil in Ht. unfold strip, rstrip.
  assert (lstrip (rev t) = []) as -> by (by apply lstrip_nil, List.Forall_rev).
  reflexivity.
Qed.

Lemma blank_stays (n : Z) (t : pystr) : lstrip t = [] -> leaves_body n t = false.
Proof.
  intros Ht. unfold leaves_body. rewrite (strip_blank t Ht).
  by rewrite bool_decide_eq_true_2.
Qed.

Lemma indented_stays (n : Z) (t : pystr) :
  startswith (repeat 32%N (Z.to_nat n)) t = true -> leaves_body n t = false.
Proof.
  intros Ht. unfold leaves_body. rewrite Ht. cbn [negb].
  by rewrite andb_false_r.
Qed.

Lemma tabbed_stays (n : Z) (t : pystr) :
  startswith [9%N] t = true -> leaves_body n t = false.
Proof.
  intros Ht. unfold leaves_body. rewrite Ht. cbn [negb].
  by rewrite andb_false_r.
Qed.

Lemma plain_lines_app (i : Z) (l1 l2 : list pystr) :
  plain_lines i (l1 ++ l2) = plain_lines i l1 ++ plain_lines (i + len l1) l2.
Proof.
  revert i. induction l1 as [|t l1 IH]; intros i; cbn [plain_lines app].
  - unfold len; cbn. by rewrite Z.add_0_r.
  - rewrite IH. do 3 f_equal. unfold len. cbn [length]. lia.
Qed.

(** The second loop appends the lines that stay in the body ... *)
Lemma collect_kept (n i : Z) (kept rest acc : list pystr) :
  Forall (fun t => leaves_body n t = false) kept ->
  collect n i (kept ++ rest) acc =
  collect n (i + len kept) rest (acc ++ plain_lines i kept).
Proof.
  intros Hkept. revert i acc.
  induction Hkept as [|t kept Ht _ IH]; intros i acc; cbn [collect app plain_lines].
  - unfold len; cbn. by rewrite Z.add_0_r, app_nil_r.
  - rewrite Ht, IH. unfold len. cbn [length]. rewrite <- app_assoc.
    f_equal. lia.
Qed.

(** ... and stops at the first line that leaves it, or at the end of the
    file. *)
Lemma collect_stop (n i : Z) (rest acc : list pystr) :
  match rest with
  | [] => True
  | t :: _ => leaves_body n t = true
  end ->
  collect n i rest acc = acc.
Proof. destruct rest as [|t r]; cbn [collect]; [done|]. by intros ->. Qed.

(** The first loop appends the skipped lines and stops at the first
    line that is neither blank nor a comment. *)
Lemma discover_skipped (decl : pystr) (i : Z) (between after acc : list pystr)
    (first : pystr) :
  looks_like_declaration decl = true ->
  Forall (fun t => skipped t = true) between ->
  skipped first = false ->
  discover decl i (between ++ first :: after) acc =
  (acc ++ plain_lines i between, Some (indentation first)).
Proof.
  intros Hdecl Hbetween Hfirst. revert i acc.
  induction Hbetween as [|t between Ht _ IH]; intros i acc;
    cbn [discover app plain_lines].
  - rewrite Hfirst, app_nil_r. unfold looks_like_declaration in Hdecl.
    destruct (contains (py "def ") decl); [reflexivity|].
    cbn [orb] in Hdecl. by rewrite Hdecl.
  - rewrite Ht, IH, <- app_assoc. reflexivity.
Qed.

(** On a declaration line the context is the expansion of the lines that
    follow it. *)
Lemma context_of_declaration (file_path : pystr) (before after : list pystr)
    (decl : pystr) :
  readlines (abspath file_path) = Return (before ++ decl :: after) ->
  looks_like_declaration decl = true ->
  context (get_symbol_context file_path (len before + 1)) =
  match discover decl (len before + 1) after [marked_line (len before) decl] with
  | (func_lines, None) => func_lines
  | (func_lines, Some n) => collect n (len before + 1) after func_lines
  end.
Proof.
  intros Hread Hdecl. unfold get_symbol_context, get_symbol_context_try.
  exc_unfold. rewrite Hread.
  replace (len before + 1 - 1) with (len before) by lia.
  assert (0 <= len before < len (before ++ decl :: after)) as Hrange.
  { unfold len. rewrite length_app. cbn [length]. lia. }
  destruct (Z.ltb_spec (len before) 0); [lia|]. cbn [orb].
  destruct (Z.leb_spec (len (before ++ decl :: after)) (len before)); [lia|].
  destruct (subscript_in_range _ _ Hrange) as (x & -> & Hx).
  unfold len in Hx. rewrite Nat2Z.id, list_lookup_middle in Hx by done.
  injection Hx as <-. rewrite Hdecl. cbn [context]. unfold expand.
  replace (Z.to_nat (len before + 1)) with (S (length before)) by (unfold len; lia).
  replace (drop (S (length before)) (before ++ decl :: after)) with after.
  2: { change (decl :: after) with ([decl] ++ after). rewrite app_assoc.
       rewrite drop_app_length'; [done|]. rewrite length_app. cbn. lia. }
  destruct (discover decl (len before + 1) after [marked_line (len before) decl])
    as [func_lines [n|]]; reflexivity.
Qed.

(** C10 (amended). Let the declaration be followed by lines that are
    blank, or are comments that begin with at least as many spaces as
    the indentation [n] of the first body line or with a tab, and then
    by the first body line.  The context is the declaration, the
    renderings of these lines (appended by the first loop), the same
    renderings once more (appended by the second loop, which restarts
    after the declaration), and then what the second loop collects from
    the first body line on: each of these lines appears twice. *)
Theorem skipped_lines_appear_twice (file_path : pystr)
    (before between after : list pystr) (decl first : pystr) :
  readlines (abspath file_path) = Return (before ++ decl :: between ++ first :: after) ->
  looks_like_declaration decl = true ->
  skipped first = false ->
  Forall (fun t => skipped t = true /\
                   (lstrip t = [] \/
                    startswith (repeat 32%N (Z.to_nat (indentation first))) t = true \/
                    startswith [9%N] t = true))
         between ->
  context (get_symbol_context file_path (len before + 1)) =
    [marked_line (len before) decl]
    ++ plain_lines (len before + 1) between
    ++ plain_lines (len before + 1) between
    ++ collect (indentation first) (len before + 1 + len between) (first :: after) [].
Proof.
  intros Hread Hdecl Hfirst Hbetween.
  rewrite (context_of_declaration _ _ _ _ Hread Hdecl).
  rewrite discover_skipped; [|done|by eapply Forall_impl; [exact Hbetween|intros ? []]|done].
  rewrite collect_kept.
  2: { eapply Forall_impl; [exact Hbetween|]. intros t [_ [Ht|[Ht|Ht]]];
       [by apply blank_stays|by apply indented_stays|by apply tabbed_stays]. }
  set (acc := ([marked_line _ _] ++ _) ++ _).
  assert (forall n i rest l, collect n i rest l = l ++ collect n i rest []) as Hacc.
  { intros n i rest. revert i. induction rest as [|t r IH]; intros i l; cbn [collect].
    - by rewrite app_nil_r.
    - destruct (leaves_body n t); [by rewrite app_nil_r|].
      rewrite IH, (IH _ ([] ++ _)), <- app_assoc. reflexivity. }
  rewrite Hacc. subst acc. by rewrite <- !app_assoc.
Qed.

(** C8 (amended). Let the line after the declaration be the first body
    line, neither blank nor a comment, and [n] its indentation.  Split
    the lines after the declaration at the first line that leaves the
    body, that is, the first line that is not blank, does not begin
    with [n] spaces and does not begin with a tab ([rest] is empty when
    there is none).  The context is the declaration followed by the
    lines before that point, so its last line is the line immediately
    before the first line that leaves the body, or the last line of the
    file. *)
Theorem block_ends_before_first_line_leaving (file_path : pystr)
    (before kept rest : list pystr) (decl first : pystr) :
  readlines (abspath file_path) = Return (before ++ decl :: kept ++ rest) ->
  looks_like_declaration decl = true ->
  head (kept ++ rest) = Some first ->
  skipped first = false ->
  Forall (fun t => leaves_body (indentation first) t = false) kept ->
  match rest with
  | [] => True
  | t :: _ => leaves_body (indentation first) t = true
  end ->
  context (get_symbol_context file_path (len before + 1)) =
    marked_line (len before) decl :: plain_lines (len before + 1) kept /\
  last (context (get_symbol_context file_path (len before + 1))) =
    Some (match last kept with
          | Some t => plain_line (len before + len kept) t
          | None => marked_line (len before) decl
          end).
Proof.
  intros Hread Hdecl Hhead Hfirst Hkept Hrest.
  assert (context (get_symbol_context file_path (len before + 1)) =
          marked_line (len before) decl :: plain_lines (len before + 1) kept) as Hctx.
  { rewrite (context_of_declaration _ _ _ _ Hread Hdecl).
    destruct (kept ++ rest) as [|first' after] eqn:Hsplit; [discriminate|].
    injection Hhead as ->.
    rewrite (discover_skipped decl _ [] after _ first Hdecl); [|constructor|done].
    cbn [app plain_lines]. rewrite <- Hsplit.
    rewrite collect_kept by done. by rewrite collect_stop. }
  split; [exact Hctx|]. rewrite Hctx.
  destruct kept as [|t kept _] using rev_ind; [reflexivity|].
  rewrite plain_lines_app. cbn [plain_lines].
  rewrite app_comm_cons, !last_snoc. do 2 f_equal.
  unfold len. rewrite length_app. cbn [length]. lia.
Qed.

End ContextFacts.

(** Line 5 of a file of three lines, and a file that does not exist. *)
Lemma context_diagnostics_witness :
  Context.context
    (@Context.get_symbol_context Sample.plain Sample.fs (py "/w/short.py") 5)
    = [py "Line 5 is out of range"] /\
  Context.context
    (@Context.get_symbol_context Sample.plain Sample.fs (py "/w/missing.py") 1)
    = [py "Error: [Errno 2] No such file or directory"].
Proof.
  destruct (@context_diagnostics Sample.plain Sample.fs (py "/w/short.py") 5)
    as (Hrange & _ & _).
  destruct (@context_diagnostics Sample.plain Sample.fs (py "/w/missing.py") 1)
    as (_ & Hread & _).
  split.
  - rewrite (Hrange Sample.short_py); [reflexivity|reflexivity|right; vm_compute; reflexivity].
  - rewrite (Hread (py "[Errno 2] No such file or directory")); reflexivity.
Defined.

(** In [tabbed.py] the body is indented with 12 and 16 spaces and is
    followed by a line indented with one tab and a line without
    indentation.  The indentations 12, 16, 1, 0 rise and then fall, and
    the first line shallower than the first body line is the line with
    the tab; but the block does not end before that line: the line with
    the tab is its last line.  So the statement of C8 about the first
    line with strictly shallower indentation does not hold. *)
Lemma tab_indented_line_stays_in_block :
  ~ (forall (db : UnicodeDB) (fs : FileSystem) (file_path : pystr)
       (before body rest : list pystr) (decl first : pystr),
       readlines (abspath file_path) = Return (before ++ decl :: body ++ rest) ->
       Context.looks_like_declaration decl = true ->
       Forall (fun t => Context.skipped t = false) (body ++ rest) ->
       Context.rises_then_falls (Context.indentation <$> (body ++ rest)) ->
       head body = Some first ->
       Forall (fun t => Context.indentation first <= Context.indentation t) body ->
       match rest with
       | [] => True
       | t :: _ => Context.indentation t < Context.indentation first
       end ->
       last (Context.context (Context.get_symbol_context file_path (len before + 1))) =
       last (Context.plain_lines (len before + 1) body)).
Proof.
  intros Hclaim.
  specialize (Hclaim Sample.plain Sample.fs (py "/w/tabbed.py") []
                [Sample.spaces 12 ++ Sample.ln "if x:"; Sample.spaces 16 ++ Sample.ln "x = 1"]
                [[9%N] ++ Sample.ln "return x"; Sample.ln "y = f(0)"]
                (Sample.ln "def f(x):") (Sample.spaces 12 ++ Sample.ln "if x:")).
  assert (last (Context.context
                  (@Context.get_symbol_context Sample.plain Sample.fs (py "/w/tabbed.py")
                     (len (@nil pystr) + 1))) =
          last (@Context.plain_lines Sample.plain (len (@nil pystr) + 1)
                  [Sample.spaces 12 ++ Sample.ln "if x:";
                   Sample.spaces 16 ++ Sample.ln "x = 1"])) as Heq.
  { apply Hclaim.
    - reflexivity.
    - reflexivity.
    - repeat constructor.
    - exists [12; 16], [1; 0]. split; [reflexivity|].
      split; repeat constructor; lia.
    - reflexivity.
    - repeat constructor; vm_compute; discriminate.
    - vm_compute. reflexivity. }
  vm_compute in Heq. discriminate Heq.
Qed.

(** The block of [tabbed.py] ends with the line indented with a tab,
    the line before the first one that leaves the body. *)
Lemma block_ends_before_first_line_leaving_witness :
  last (Context.context
          (@Context.get_symbol_context Sample.plain Sample.fs (py "/w/tabbed.py") 1)) =
  Some (@Context.plain_line Sample.plain 3 ([9%N] ++ Sample.ln "return x")).
Proof.
  apply (@block_ends_before_first_line_leaving Sample.plain Sample.fs
           (py "/w/tabbed.py") []
           [Sample.spaces 12 ++ Sample.ln "if x:"; Sample.spaces 16 ++ Sample.ln "x = 1";
            [9%N] ++ Sample.ln "return x"]
           [Sample.ln "y = f(0)"]
           (Sample.ln "def f(x):") (Sample.spaces 12 ++ Sample.ln "if x:")).
  - reflexivity.
  - reflexivity.
  - reflexivity.
  - reflexivity.
  - repeat constructor.
  - reflexivity.
Defined.

(** In [spaced.py] the blank line and the comment after [class A:] are
    rendered twice. *)
Lemma skipped_lines_appear_twice_witness :
  Context.context
    (@Context.get_symbol_context Sample.plain Sample.fs (py "/w/spaced.py") 1) =
  [Context.arrow ++ py "1: class A:"] ++
  [py "  2: "; py "  3:     # the only field"] ++
  [py "  2: "; py "  3:     # the only field"] ++
  [py "  4:     n = 0"].
Proof.
  etransitivity.
  - apply (@skipped_lines_appear_twice Sample.plain Sample.fs (py "/w/spaced.py") []
             [Sample.ln ""; Sample.ln "    # the only field"] [Sample.ln "a = A()"]
             (Sample.ln "class A:") (Sample.ln "    n = 0")).
    + reflexivity.
    + reflexivity.
    + reflexivity.
    + constructor; [split; [reflexivity|left; reflexivity]|].
      constructor; [split; [reflexivity|right; left; reflexivity]|constructor].
  - vm_compute. reflexivity.
Defined.

(** In [mixed.py] the comment between the declaration and the body is
    indented with three spaces and a tab: its indentation is 4, that of
    the first body line, but it begins neither with four spaces nor
    with a tab.  The first loop renders it, the second loop stops at
    it, and it appears once in the context.  So the statement of C10
    about every comment indented at least as deep as the first body
    line does not hold. *)
Lemma mixed_indentation_comment_appears_once :
  ~ (forall (db : UnicodeDB) (fs : FileSystem) (file_path : pystr)
       (before between after : list pystr) (decl first : pystr),
       readlines (abspath file_path) =
         Return (before ++ decl :: between ++ first :: after) ->
       Context.looks_like_declaration decl = true ->
       Context.skipped first = false ->
       Forall (fun t => Context.skipped t = true /\
                        (lstrip t = [] \/
                         Context.indentation first <= Context.indentation t))
              between ->
       forall (j : nat) (t : pystr), between !! j = Some t ->
         length (filter (fun x => x = Context.plain_line (len before + 1 + Z.of_nat j) t)
                   (Context.context
                      (Context.get_symbol_context file_path (len before + 1))))
         = 2%nat).
Proof.
  intros Hclaim.
  specialize (Hclaim Sample.plain MoreSamples.links (py "/w/mixed.py") []
                [Sample.spaces 3 ++ [9%N] ++ Sample.ln "# c"] [Sample.ln "y = 2"]
                (Sample.ln "def f():") (Sample.ln "    x = 1")).
  assert (length
            (filter (fun x => x = @Context.plain_line Sample.plain
                                    (len (@nil pystr) + 1 + Z.of_nat 0)
                                    (Sample.spaces 3 ++ [9%N] ++ Sample.ln "# c"))
               (Context.context
                  (@Context.get_symbol_context Sample.plain MoreSamples.links
                     (py "/w/mixed.py") (len (@nil pystr) + 1)))) = 2%nat) as Htwice.
  { apply Hclaim.
    - reflexivity.
    - reflexivity.
    - reflexivity.
    - constructor; [|constructor]. split; [reflexivity|right].
      vm_compute. discriminate.
    - reflexivity. }
  vm_compute in Htwice. discriminate Htwice.
Qed.

(** ** The path resolution before the [try] block *)

Section ResolutionFacts.
Context `{UnicodeDB} `{FileSystem} `{PathResolution}.

(** An exception of the resolution of a path that is not absolute is
    raised by the method. *)
Lemma unresolved_path_raises (file_path : pystr) (line : Z) (e : pystr) :
  is_absolute file_path = false -> resolve file_path = Raise e ->
  Resolution.get_symbol_context file_path line = Raise e.
Proof.
  intros Habs Hres. unfold Resolution.get_symbol_context, Resolution.resolved.
  rewrite Habs, Hres. reflexivity.
Qed.

(** When the resolution returns, the method returns what the [try]
    block and its [except] clause make of the resolved path. *)
Lemma resolved_path_returns (file_path : pystr) (line : Z) :
  Resolution.resolved file_path = Return (abspath file_path) ->
  Resolution.get_symbol_context file_path line =
  Return (Context.get_symbol_context file_path line).
Proof.
  intros Hres. unfold Resolution.get_symbol_context. rewrite Hres. reflexivity.
Qed.

End ResolutionFacts.

(** C9. In a workspace in which [a] is a symbolic link that points to
    itself, [get_symbol_context] for the relative path [a] returns no
    diagnostic: the [RuntimeError] of [resolve], raised before the
    [try] block, reaches the caller.  For the same file given by its
    absolute path nothing is resolved, the failure is that of [open]
    inside the [try] block, and the result is the one-line diagnostic. *)
Theorem symlink_loop_reaches_caller :
  @Resolution.get_symbol_context Sample.plain MoreSamples.links
     MoreSamples.resolution (py "a") 1
  = Raise (py "Symlink loop from '/w/a'") /\
  @Resolution.get_symbol_context Sample.plain MoreSamples.links
     MoreSamples.resolution (py "/w/a") 1
  = Return (Context.mk (py "/w/a") 1
              [py "Error: [Errno 40] Too many levels of symbolic links: '/w/a'"]).
Proof. split; vm_compute; reflexivity. Qed.

(** ** The service and its servers *)

Section ServiceFacts.
Context `{UnicodeDB} `{FileSystem} `{Workspace}.
Import Service CodeBrowserAPI.

Local Ltac exc_unfold := unfold mbind, mret, exc_bind, exc_ret in *.

Lemma keeps_refl (s : state) : keeps s s.
Proof. split; [|split]; done. Qed.

Lemma keeps_trans (s1 s2 s3 : state) : keeps s1 s2 -> keeps s2 s3 -> keeps s1 s3.
Proof.
  intros (? & ? & ?) (? & ? & ?). split; [|split]; [auto..|set_solver].
Qed.

Lemma settled_refl (kind : asked -> Prop) (s : state) : settled kind s s.
Proof.
  intros Hs. split; [done|]. split; [done|]. exists []. by rewrite app_nil_r.
Qed.

Lemma settled_trans (kind : asked -> Prop) (s1 s2 s3 : state) :
  settled kind s1 s2 -> settled kind s2 s3 -> settled kind s1 s3.
Proof.
  intros H12 H23 Hs1. destruct (H12 Hs1) as (Hs2 & Hu2 & m2 & Hr2 & Hk2).
  destruct (H23 Hs2) as (Hs3 & Hu3 & m3 & Hr3 & Hk3).
  split; [done|]. split; [by intros e; rewrite Hu3, Hu2|].
  exists (m2 ++ m3). rewrite Hr3, Hr2, app_assoc. split; [done|by apply Forall_app].
Qed.

(** *** [get_server_for_file] *)

Lemma get_server_for_file_found (file_path : pystr) (s : state) :
  is_Some (fst (get_server_for_file file_path s)) <-> usable s (suffix file_path) = true.
Proof.
  unfold get_server_for_file, usable.
  destruct (registered s (suffix file_path)) as [c|] eqn:E; cbn.
  - split; eauto.
  - destruct (can_start (suffix file_path)); cbn; split; eauto;
      try discriminate; by intros [? ?].
Qed.

Lemma get_server_for_file_keeps (file_path : pystr) (s : state) :
  keeps s (snd (get_server_for_file file_path s)).
Proof.
  unfold get_server_for_file.
  destruct (registered s (suffix file_path)) as [c|]; [apply keeps_refl|].
  destruct (can_start (suffix file_path)); cbn; (split; [|split; [done|done]]).
  - intros Hs e c. cbn. rewrite lookup_insert. case_decide.
    + intros [= <-]. lia.
    + intros Hc. apply Hs in Hc. lia.
  - intros Hs e c. cbn. intros Hc. apply Hs in Hc. lia.
Qed.

Lemma get_server_for_file_settled (kind : asked -> Prop) (file_path : pystr) (s : state) :
  settled kind s (snd (get_server_for_file file_path s)).
Proof.
  intros Hs. split; [by apply get_server_for_file_keeps|].
  split; [|unfold get_server_for_file;
           destruct (registered s (suffix file_path)); [|destruct (can_start _)];
           exists []; by rewrite app_nil_r].
  intros e. unfold get_server_for_file.
  destruct (registered s (suffix file_path)) as [c|] eqn:E; [done|].
  destruct (can_start (suffix file_path)) eqn:Hstart; [|done].
  unfold usable, registered in *. cbn.
  rewrite lookup_insert. case_decide as He.
  - subst e. by rewrite Hstart, !orb_true_r.
  - destruct (servers s !! e) as [c'|] eqn:Hc'; [|done].
    apply Hs in Hc'.
    assert (c' ∈ ({[started s]} ∪ live s : gset nat) <-> c' ∈ live s) as Hiff
      by (rewrite elem_of_union, elem_of_singleton; intuition lia).
    by rewrite (bool_decide_ext _ _ Hiff).
Qed.

Lemma get_server_for_file_same (file_path : pystr) (s : state) :
  let s' := snd (get_server_for_file file_path s) in
  announced s' = announced s /\ open_documents s' = open_documents s /\
  requests s' = requests s.
Proof.
  unfold get_server_for_file.
  destruct (registered s (suffix file_path)); [done|].
  by destruct (can_start (suffix file_path)).
Qed.

(** *** [open_document], [shutdown] and the death of a process *)

#[local] Arguments document_uri : simpl never.
#[local] Arguments py : simpl never.

Lemma document_uri_inj (p q : pystr) : document_uri p = document_uri q -> p = q.
Proof. unfold document_uri. apply app_inv_head. Qed.

Lemma server_open_document_spec (c : nat) (abs_path : pystr) (s : state) :
  let r := server_open_document c abs_path s in
  servers (snd r) = servers s /\ open_documents (snd r) = open_documents s /\
  live (snd r) = live s /\ started (snd r) = started s /\
  requests (snd r) = requests s /\
  (announced (snd r) = announced s \/
   fst r = true /\ announced (snd r) = announced s ++ [(c, abs_path)]).
Proof.
  unfold server_open_document.
  destruct (readlines abs_path); [|by repeat split; auto].
  case_bool_decide; cbn; repeat split; auto.
Qed.

Lemma open_document_keeps (file_path : pystr) (s : state) :
  keeps s (snd (open_document file_path s)).
Proof.
  unfold open_document.
  pose proof (get_server_for_file_keeps (abspath file_path) s) as Hget.
  destruct (get_server_for_file (abspath file_path) s) as [[c|] s1]; [|exact Hget].
  cbn [snd] in Hget. case_bool_decide as Hopen; [exact Hget|].
  pose proof (server_open_document_spec c (abspath file_path) s1)
    as (Hsrv & Hdocs & Hlive & Hstarted & _ & Hann).
  destruct (server_open_document c (abspath file_path) s1) as [result s2].
  cbn [fst snd] in *. eapply keeps_trans; [exact Hget|].
  assert (numbered s1 -> numbered s2) as Hnum.
  { intros Hs e c' Hc'. rewrite Hsrv in Hc'. apply Hs in Hc'. lia. }
  destruct result; cbn [snd].
  - split; [exact Hnum|]. split; [|cbn; rewrite Hdocs; apply union_subseteq_r].
    intros [Hnd Hin]. unfold recorded. cbn.
    destruct Hann as [Hann|[_ Hann]]; rewrite Hann, Hdocs.
    + split; [done|]. intros c' p Hp. apply Hin in Hp. by apply elem_of_union_r.
    + split.
      * rewrite fmap_app. apply NoDup_app. split; [done|]. split; [|apply NoDup_singleton].
        intros p Hp Hp'. cbn in Hp'. apply list_elem_of_singleton in Hp' as ->.
        apply list_elem_of_fmap in Hp as ([c' p] & Heq & Hp). cbn in Heq. subst p.
        apply Hin in Hp. done.
      * intros c' p [Hp|Hp%list_elem_of_singleton]%elem_of_app.
        -- apply Hin in Hp. by apply elem_of_union_r.
        -- injection Hp as -> ->. by apply elem_of_union_l, elem_of_singleton.
  - split; [exact Hnum|]. split; [|rewrite Hdocs; done].
    intros [Hnd Hin]. destruct Hann as [Hann|[? _]]; [|done].
    unfold recorded. by rewrite Hann, Hdocs.
Qed.

Lemma open_document_settled (kind : asked -> Prop) (file_path : pystr) (s : state) :
  settled kind s (snd (open_document file_path s)).
Proof.
  unfold open_document.
  pose proof (get_server_for_file_settled kind (abspath file_path) s) as Hget.
  destruct (get_server_for_file (abspath file_path) s) as [[c|] s1]; [|exact Hget].
  cbn [snd] in Hget. case_bool_decide as Hopen; [exact Hget|].
  pose proof (server_open_document_spec c (abspath file_path) s1)
    as (Hsrv & Hdocs & Hlive & Hstarted & Hreq & _).
  destruct (server_open_document c (abspath file_path) s1) as [result s2].
  cbn [fst snd] in *. eapply settled_trans; [exact Hget|].
  assert (settled kind s1 s2) as H12.
  { intros Hs. split; [|split].
    - intros e c' Hc'. rewrite Hsrv in Hc'. apply Hs in Hc'. lia.
    - intros e. unfold usable, registered. by rewrite Hsrv, Hlive.
    - exists []. by rewrite app_nil_r. }
  destruct result; [|exact H12].
  eapply settled_trans; [exact H12|]. intros Hs.
  split; [exact Hs|]. split; [done|]. exists []. by rewrite app_nil_r.
Qed.

Lemma shutdown_keeps (s : state) : keeps s (Service.shutdown s).
Proof. split; [|split]; done. Qed.

Lemma crash_keeps (c : nat) (s : state) : keeps s (crash c s).
Proof. split; [|split]; done. Qed.

Lemma record_request_keeps (a : asked) (s : state) : keeps s (record_request a s).
Proof. split; [|split]; done. Qed.

Lemma record_request_settled (kind : asked -> Prop) (a : asked) (s : state) :
  kind a -> settled kind s (record_request a s).
Proof.
  intros Ha Hs. split; [done|]. split; [done|].
  exists [a]. split; [done|]. by constructor.
Qed.

(** *** One file of a scan *)

Lemma met_in_usable (reply : pystr -> Z -> Z -> exc locations) (s s' : state)
    (symbol_name file_path : pystr) :
  (forall file_ext, usable s' file_ext = usable s file_ext) ->
  met_in reply s' symbol_name file_path = met_in reply s symbol_name file_path.
Proof. intros Hu. unfold met_in. by rewrite Hu. Qed.

(** The [try] block of one file keeps the invariants, settles the
    servers, sends requests of its kind only, and yields the locations
    that [met_in] describes. *)
Lemma locations_in_spec (ask : pystr -> Z -> Z -> asked)
    (reply : pystr -> Z -> Z -> exc locations) (kind : asked -> Prop)
    (symbol_name file_path : pystr) (s : state) :
  (forall p l c, kind (ask p l c)) ->
  let r := locations_in ask reply symbol_name file_path s in
  keeps s (snd r) /\ settled kind s (snd r) /\
  match fst r with
  | Return l => l
  | Raise _ => []
  end = met_in reply s symbol_name file_path.
Proof.
  intros Hkind. unfold locations_in, met_in.
  pose proof (get_server_for_file_keeps file_path s) as Hk1.
  pose proof (get_server_for_file_settled kind file_path s) as Hs1.
  pose proof (get_server_for_file_found file_path s) as Hfound.
  destruct (get_server_for_file file_path s) as [[c|] s1]; cbn [fst snd] in *.
  - assert (usable s (suffix file_path) = true) as -> by (apply Hfound; eauto).
    pose proof (open_document_keeps file_path s1) as Hk2.
    pose proof (open_document_settled kind file_path s1) as Hs2.
    destruct (open_document file_path s1) as [opened s2]; cbn [fst snd] in *.
    destruct (Locator.find_symbol_position file_path symbol_name) as [[l ch]|];
      cbn [fst snd].
    + split; [|split; [|done]].
      * eauto using keeps_trans, record_request_keeps.
      * eauto using settled_trans, record_request_settled.
    + split; [|split; [|done]]; eauto using keeps_trans, settled_trans.
  - destruct (usable s (suffix file_path)) eqn:E.
    + destruct (proj2 Hfound eq_refl) as [? [=]].
    + split; [done|]. split; done.
Qed.

(** *** The whole scan *)

Lemma scan_files (ask : pystr -> Z -> Z -> asked)
    (reply : pystr -> Z -> Z -> exc locations) (kind : asked -> Prop)
    {A} (update : A -> entry -> A) (symbol_name : pystr)
    (files : list pystr) (acc : A) (s : state) :
  (forall p l c, kind (ask p l c)) ->
  let r := fold_left
             (fun st file_path =>
                attempt (locations_in ask reply symbol_name file_path (snd st))
                        update (fst st))
             files (acc, s) in
  keeps s (snd r) /\ settled kind s (snd r) /\
  (numbered s ->
   fst r = fold_left update (flat_map (met_in reply s symbol_name) files) acc).
Proof.
  intros Hkind. revert acc s.
  induction files as [|f files IH]; intros acc s; cbn [fold_left flat_map fst snd].
  - split; [apply keeps_refl|]. split; [apply settled_refl|done].
  - pose proof (locations_in_spec ask reply kind symbol_name f s Hkind)
      as (Hk & Hs & Hmet).
    destruct (locations_in ask reply symbol_name f s) as [found s1].
    cbn [fst snd] in *.
    assert (attempt (found, s1) update acc =
            (fold_left update (met_in reply s symbol_name f) acc, s1)) as ->.
    { unfold attempt. rewrite <- Hmet. by destruct found. }
    destruct (IH (fold_left update (met_in reply s symbol_name f) acc) s1)
      as (Hk' & Hs' & Hacc).
    split; [eauto using keeps_trans|]. split; [eauto using settled_trans|].
    intros Hnum. destruct (Hs Hnum) as (Hnum1 & Hu & _).
    rewrite (Hacc Hnum1), fold_left_app. f_equal.
    apply flat_map_ext. intros. by apply met_in_usable.
Qed.

Lemma for_each_file_flat {A} (body : pystr -> A -> state -> A * state)
    (acc : A) (s : state) :
  for_each_file body acc s =
  fold_left (fun st file_path => body file_path (fst st) (snd st)) all_files (acc, s).
Proof.
  unfold for_each_file, all_files. generalize (acc, s) as st.
  induction file_index as [|[e files] index IH]; intros st; cbn; [done|].
  by rewrite fold_left_app, IH.
Qed.

(** A scan of the index folds the loop body over the locations it
    meets, in the order of [encountered]. *)
Lemma scan_index (ask : pystr -> Z -> Z -> asked)
    (reply : pystr -> Z -> Z -> exc locations) (kind : asked -> Prop)
    {A} (update : A -> entry -> A) (symbol_name : pystr) (acc : A) (s : state) :
  (forall p l c, kind (ask p l c)) ->
  let r := for_each_file
             (fun file_path acc s =>
                attempt (locations_in ask reply symbol_name file_path s) update acc)
             acc s in
  keeps s (snd r) /\ settled kind s (snd r) /\
  (numbered s -> fst r = fold_left update (encountered reply s symbol_name) acc).
Proof.
  intros Hkind. rewrite for_each_file_flat.
  apply (scan_files ask reply kind update symbol_name all_files acc s Hkind).
Qed.

(** *** The loop bodies *)

Lemma keep_unseen_reference (acc : gset (pystr * Z * Z) * list entry) (e : entry) :
  keep_unseen acc e = keep_reference ∅ acc e.
Proof.
  unfold keep_unseen, keep_reference.
  by rewrite (bool_decide_eq_false_2 (loc_key e ∈ (∅ : gset _))) by set_solver.
Qed.

Lemma fold_keep_unseen (stream : list entry)
    (acc : gset (pystr * Z * Z) * list entry) :
  fold_left keep_unseen stream acc = fold_left (keep_reference ∅) stream acc.
Proof.
  revert acc. induction stream as [|x stream IH]; intros acc; cbn [fold_left]; [done|].
  by rewrite keep_unseen_reference, IH.
Qed.

(** Folding the body of the reference loop over a list of locations
    appends, in order and once per key, the locations that are neither
    definitions nor seen; the first location of each such key is the one
    appended. *)
Lemma keep_reference_fold (definition_locations : gset (pystr * Z * Z))
    (stream : list entry) (seen : gset (pystr * Z * Z)) (results : list entry) :
  exists new,
    snd (fold_left (keep_reference definition_locations) stream (seen, results))
      = results ++ new /\
    new `sublist_of` stream /\
    NoDup (loc_key <$> new) /\
    (forall e, e ∈ new -> (loc_key e ∉ definition_locations) /\ (loc_key e ∉ seen)) /\
    (forall pre e post, stream = pre ++ e :: post ->
       loc_key e ∉ definition_locations -> loc_key e ∉ seen ->
       loc_key e ∉ loc_key <$> pre -> e ∈ new).
Proof.
  revert seen results.
  induction stream as [|x stream IH]; intros seen results; cbn [fold_left].
  - exists []. rewrite app_nil_r. split; [done|]. split; [done|].
    split; [constructor|]. split; [by intros ? ?%elem_of_nil|].
    by intros [|] ? ? ?.
  - assert (forall new,
              new `sublist_of` stream ->
              (forall pre e post, stream = pre ++ e :: post ->
                 loc_key e ∉ definition_locations -> loc_key e ∉ seen ->
                 loc_key e ∉ loc_key <$> pre -> e ∈ new) ->
              loc_key x ∈ definition_locations \/ loc_key x ∈ seen ->
              new `sublist_of` x :: stream /\
              (forall pre e post, x :: stream = pre ++ e :: post ->
                 loc_key e ∉ definition_locations -> loc_key e ∉ seen ->
                 loc_key e ∉ loc_key <$> pre -> e ∈ new)) as Hskip.
    { intros new Hsub Hfirst Hx. split; [by apply sublist_cons|].
      intros [|y pre] e post Heq Hd Hs Hpre; injection Heq as -> ->.
      - destruct Hx; contradiction.
      - eapply Hfirst; [reflexivity|assumption|assumption|].
        intros Hin. apply Hpre. rewrite fmap_cons. by apply list_elem_of_further. }
    unfold keep_reference at 2. cbn [fst snd].
    case_bool_decide as Hdef.
    { destruct (IH seen results) as (new & Hnew & Hsub & Hnd & Hin & Hfirst).
      exists new. destruct (Hskip new Hsub Hfirst) as [? ?]; auto. }
    case_bool_decide as Hseen.
    { destruct (IH seen results) as (new & Hnew & Hsub & Hnd & Hin & Hfirst).
      exists new. destruct (Hskip new Hsub Hfirst) as [? ?]; auto. }
    destruct (IH ({[loc_key x]} ∪ seen) (results ++ [x]))
      as (new & Hnew & Hsub & Hnd & Hin & Hfirst).
    exists (x :: new). rewrite Hnew, <- app_assoc.
    split; [done|]. split; [by apply sublist_skip|].
    split; [|split].
    + rewrite fmap_cons. apply NoDup_cons. split; [|done].
      intros (e & He & Hel)%list_elem_of_fmap. apply Hin in Hel as [_ Hel].
      apply Hel. rewrite He. apply elem_of_union_l, elem_of_singleton. reflexivity.
    + intros e [->|He]%elem_of_cons; [done|]. apply Hin in He as [? He].
      split; [assumption|]. intros ?. apply He. by apply elem_of_union_r.
    + intros [|y pre] e post Heq Hd Hs Hpre; injection Heq as -> ->.
      * apply list_elem_of_here.
      * apply list_elem_of_further. eapply Hfirst; [reflexivity|assumption| |].
        -- intros [Hk%elem_of_singleton|?]%elem_of_union; [|contradiction].
           apply Hpre. rewrite fmap_cons, Hk. apply list_elem_of_here.
        -- intros ?. apply Hpre. rewrite fmap_cons. by apply list_elem_of_further.
Qed.

(** The first pass of [goto_references] collects the keys of the
    locations it meets. *)
Lemma definition_keys_fold (stream : list entry) (acc : gset (pystr * Z * Z))
    (k : pystr * Z * Z) :
  k ∈ fold_left (fun acc def_loc => {[loc_key def_loc]} ∪ acc) stream acc <->
  k ∈ acc \/ k ∈ loc_key <$> stream.
Proof.
  revert acc. induction stream as [|x stream IH]; intros acc; cbn [fold_left].
  - rewrite fmap_nil, elem_of_nil. tauto.
  - rewrite IH, fmap_cons, elem_of_union, elem_of_singleton, elem_of_cons. tauto.
Qed.

Lemma encountered_usable (reply : pystr -> Z -> Z -> exc locations) (s s' : state)
    (symbol_name : pystr) :
  (forall file_ext, usable s' file_ext = usable s file_ext) ->
  encountered reply s' symbol_name = encountered reply s symbol_name.
Proof.
  intros Hu. unfold encountered. apply flat_map_ext. intros. by apply met_in_usable.
Qed.

(** *** The two queries *)

Lemma definitions_spec (symbol_name : pystr) (s : state) :
  let r := definitions symbol_name s in
  keeps s (snd r) /\
  settled (fun a => exists p l c, a = AskDefinition p l c) s (snd r) /\
  (numbered s ->
   fst r = snd (fold_left keep_unseen
                  (encountered find_definition s symbol_name) (∅, []))).
Proof.
  unfold definitions, definitions_in.
  pose proof (scan_index AskDefinition find_definition
                (fun a => exists p l c, a = AskDefinition p l c)
                keep_unseen symbol_name
                ((∅ : gset (pystr * Z * Z)), ([] : list entry)) s) as Hscan.
  cbn zeta in Hscan.
  destruct (for_each_file _ _ s) as [[seen results] s'].
  destruct Hscan as (Hk & Hs & Hacc); [eauto|]. cbn [fst snd] in *.
  split; [done|]. split; [done|]. intros Hnum. by rewrite <- (Hacc Hnum).
Qed.

Lemma references_spec (symbol_name : pystr) (s : state) :
  let r := references symbol_name s in
  keeps s (snd r) /\
  (numbered s ->
   (exists definition_locations : gset (pystr * Z * Z),
      (forall k, k ∈ definition_locations <->
                 k ∈ loc_key <$> encountered find_definition s symbol_name) /\
      fst r = snd (fold_left (keep_reference definition_locations)
                     (encountered (fun p l c => find_references p l c true) s symbol_name)
                     (∅, []))) /\
   exists asked_definitions asked_references,
     requests (snd r) = requests s ++ asked_definitions ++ asked_references /\
     Forall (fun a => exists p l c, a = AskDefinition p l c) asked_definitions /\
     Forall (fun a => exists p l c, a = AskReferences p l c) asked_references).
Proof.
  unfold references, definition_pass, reference_pass, definitions_in, references_in.
  pose proof (scan_index AskDefinition find_definition
                (fun a => exists p l c, a = AskDefinition p l c)
                (fun acc def_loc => {[loc_key def_loc]} ∪ acc) symbol_name
                (∅ : gset (pystr * Z * Z)) s)
    as Hscan1.
  cbn zeta in Hscan1.
  destruct (for_each_file _ ∅ s) as [definition_locations s1].
  destruct Hscan1 as (Hk1 & Hs1 & Hacc1); [eauto|]. cbn [fst snd] in *.
  pose proof (scan_index AskReferences (fun p l c => find_references p l c true)
                (fun a => exists p l c, a = AskReferences p l c)
                (keep_reference definition_locations) symbol_name
                ((∅ : gset (pystr * Z * Z)), ([] : list entry)) s1)
    as Hscan2.
  cbn zeta in Hscan2.
  destruct (for_each_file _ (∅, []) s1) as [[seen results] s2].
  destruct Hscan2 as (Hk2 & Hs2 & Hacc2); [eauto|]. cbn [fst snd] in *.
  split; [eauto using keeps_trans|].
  intros Hnum. destruct (Hs1 Hnum) as (Hnum1 & Hu1 & asked1 & Hreq1 & Hkind1).
  destruct (Hs2 Hnum1) as (_ & _ & asked2 & Hreq2 & Hkind2).
  split.
  - exists definition_locations. split.
    + intros k. rewrite (Hacc1 Hnum), definition_keys_fold, elem_of_empty. tauto.
    + rewrite <- (encountered_usable _ s s1) by done. by rewrite <- (Hacc2 Hnum1).
  - exists asked1, asked2. by rewrite Hreq2, Hreq1, app_assoc.
Qed.

(** *** Runs *)

Lemma find_symbol_loop_keeps (symbol_name : pystr) (index : list (pystr * list pystr))
    (results : list symbol_entry) (s : state) :
  keeps s (snd (find_symbol_loop symbol_name index results s)).
Proof.
  revert results s.
  induction index as [|[e [|first files]] index IH]; intros results s;
    cbn [find_symbol_loop]; [apply keeps_refl|apply IH|].
  pose proof (get_server_for_file_keeps first s) as Hget.
  destruct (get_server_for_file first s) as [[c|] s1]; cbn [snd] in Hget;
    [|eauto using keeps_trans].
  pose proof (record_request_keeps (AskSymbol (suffix first) symbol_name) s1) as Hrec.
  destruct (find_workspace_symbol (suffix first) symbol_name) as [[|sym symbols]|];
    [eauto using keeps_trans| |eauto using keeps_trans].
  destruct (_process_workspace_symbols (sym :: symbols));
    cbn [snd]; eauto using keeps_trans.
Qed.

Lemma step_keeps (s : state) (cmd : command) : keeps s (step s cmd).
Proof.
  destruct cmd as [p|sym|sym|sym| |c]; cbn [step].
  - apply open_document_keeps.
  - unfold goto_definition.
    pose proof (definitions_spec sym s) as (Hk & _).
    by destruct (definitions sym s).
  - unfold goto_references.
    pose proof (references_spec sym s) as (Hk & _).
    by destruct (references sym s).
  - unfold find_symbol, Service.find_symbol.
    pose proof (find_symbol_loop_keeps sym file_index [] s) as Hk.
    by destruct (find_symbol_loop sym file_index [] s) as [[[|? ?]|] ?].
  - apply shutdown_keeps.
  - apply crash_keeps.
Qed.

Lemma run_keeps (cmds : list command) : keeps initial (run cmds).
Proof.
  unfold run. generalize initial as s.
  induction cmds as [|cmd cmds IH]; intros s; cbn [fold_left]; [apply keeps_refl|].
  eapply keeps_trans; [apply step_keeps|apply IH].
Qed.

Lemma initial_numbered : numbered initial.
Proof. intros e c. cbn. by rewrite lookup_empty. Qed.

Lemma initial_recorded : recorded initial.
Proof. split; cbn; [constructor|]. by intros ? ? ?%elem_of_nil. Qed.

Lemma run_numbered (cmds : list command) : numbered (run cmds).
Proof. apply run_keeps, initial_numbered. Qed.

Lemma run_recorded (cmds : list command) : recorded (run cmds).
Proof. apply run_keeps, initial_recorded. Qed.

(** C6 (amended). In every state a service can reach, no document
    occurs twice in the history of document-opened notifications, over
    all connections, so each document is announced at most once per
    connection; every announced document is in [open_documents]; and no
    command, neither [shutdown] nor the death of a connection, removes
    anything from [open_documents].  A document announced to a
    connection is therefore never announced to the connection that
    replaces it. *)
Theorem documents_announced_once (cmds : list command) :
  NoDup (snd <$> announced (run cmds)) /\
  (forall c abs_path, (c, abs_path) ∈ announced (run cmds) ->
     document_uri abs_path ∈ open_documents (run cmds)) /\
  (forall cmd, open_documents (run cmds) ⊆ open_documents (step (run cmds) cmd)).
Proof.
  destruct (run_recorded cmds) as [Hnd Hin].
  split; [done|]. split; [done|]. intros cmd. apply step_keeps.
Qed.

(** *** Deduplication and exclusion *)

(** The list of the definition query is a subsequence, without a
    repeated key, of the locations the scan meets. *)
Lemma definitions_unique_subsequence (cmds : list command) (symbol_name : pystr) :
  NoDup (loc_key <$> fst (definitions symbol_name (run cmds))) /\
  fst (definitions symbol_name (run cmds))
    `sublist_of` encountered find_definition (run cmds) symbol_name.
Proof.
  destruct (definitions_spec symbol_name (run cmds)) as (_ & _ & Hdefs).
  rewrite (Hdefs (run_numbered cmds)).
  rewrite fold_keep_unseen.
  destruct (keep_reference_fold ∅ (encountered find_definition (run cmds) symbol_name)
              ∅ []) as (new & -> & Hsub & Hnd & _ & _).
  by cbn [app].
Qed.


(** C3. In every state a service can reach, no entry of the reference
    query has the (file, line, column) of an entry of the definition
    query run in the same state; and the requests the reference query
    sends are definition requests followed by reference requests: the
    pass that builds the exclusion set is complete before the first
    reference is asked for. *)
Theorem references_exclude_definitions (cmds : list command) (symbol_name : pystr) :
  (forall r d,
     r ∈ fst (references symbol_name (run cmds)) ->
     d ∈ fst (definitions symbol_name (run cmds)) ->
     loc_key r <> loc_key d) /\
  exists asked_definitions asked_references,
    requests (snd (references symbol_name (run cmds))) =
      requests (run cmds) ++ asked_definitions ++ asked_references /\
    Forall (fun a => exists p l c, a = AskDefinition p l c) asked_definitions /\
    Forall (fun a => exists p l c, a = AskReferences p l c) asked_references.
Proof.
  pose proof (run_numbered cmds) as Hnum.
  destruct (references_spec symbol_name (run cmds)) as (_ & Hrefs).
  destruct (Hrefs Hnum) as ((defs & Hdefs & Hfold) & Hasked).
  split; [|exact Hasked].
  intros r d Hr Hd Hkey.
  destruct (definitions_unique_subsequence cmds symbol_name) as (_ & Hsub).
  rewrite Hfold in Hr.
  destruct (keep_reference_fold defs
              (encountered (fun p l c => find_references p l c true)
                           (run cmds) symbol_name)
              ∅ []) as (new & Hnew & _ & _ & Hin & _).
  rewrite Hnew in Hr. cbn [app] in Hr. apply Hin in Hr as [Hr _].
  apply Hr, Hdefs. rewrite Hkey. apply list_elem_of_fmap_2.
  eapply elem_of_sublist; [exact Hd|exact Hsub].
Qed.

(** *** The shape of the results *)










End ServiceFacts.


(** On the sample workspace: after a document is opened and the service
    is shut down, the key of the document is still in [open_documents];
    and when the process of the first connection dies and the document
    is opened again, a second connection serves its extension but the
    only announcement in the history is the one to the first
    connection.  So the set of announced documents is not cleared when a
    connection terminates and the replacement is not told. *)
Lemma replacement_connection_not_told :
  ~ (forall (db : UnicodeDB) (fs : FileSystem) (ws : Workspace)
       (cmds : list CodeBrowserAPI.command),
       Service.open_documents
         (CodeBrowserAPI.step (CodeBrowserAPI.run cmds) CodeBrowserAPI.Shutdown) = ∅) /\
  ~ (forall (db : UnicodeDB) (fs : FileSystem) (ws : Workspace)
       (cmds : list CodeBrowserAPI.command) (file_path : pystr) (c : nat),
       fst (Service.open_document file_path (CodeBrowserAPI.run cmds)) = true ->
       Service.registered
         (CodeBrowserAPI.run (cmds ++ [CodeBrowserAPI.OpenDocument file_path]))
         (suffix (abspath file_path)) = Some c ->
       (c, abspath file_path) ∈
         Service.announced
           (CodeBrowserAPI.run (cmds ++ [CodeBrowserAPI.OpenDocument file_path]))).
Proof.
  split; intros Hclaim.
  - specialize (Hclaim Sample.plain Sample.fs Sample.workspace
                  [CodeBrowserAPI.OpenDocument (py "/w/short.py")]).
    assert (Service.document_uri (py "/w/short.py") ∈
            Service.open_documents
              (@CodeBrowserAPI.step Sample.plain Sample.fs Sample.workspace
                 (@CodeBrowserAPI.run Sample.plain Sample.fs Sample.workspace
                    [CodeBrowserAPI.OpenDocument (py "/w/short.py")])
                 CodeBrowserAPI.Shutdown)) as Hin
      by (apply (bool_decide_unpack _); vm_compute; exact I).
    rewrite Hclaim in Hin. by apply not_elem_of_empty in Hin.
  - specialize (Hclaim Sample.plain Sample.fs Sample.workspace
                  [CodeBrowserAPI.OpenDocument (py "/w/short.py");
                   CodeBrowserAPI.ProcessDies 0]
                  (py "/w/short.py") 1%nat).
    assert ((1%nat, py "/w/short.py") ∈ [(0%nat, py "/w/short.py")]) as Hin.
    { apply Hclaim; vm_compute; reflexivity. }
    apply list_elem_of_singleton in Hin. discriminate Hin.
Qed.

(** * Further properties of the code *)

(** ** Requests and their responses *)

Section CorrelationFacts.
Import LanguageServer.

Local Ltac exc_unfold := unfold mbind, mret, exc_bind, exc_ret in *.

(** Writing a message never raises, and touches neither the request
    counter nor the inbound buffer. *)
Lemma send_message_returns (pipe_ok : bool) (message : json) (self : t) :
  exists self', _send_message pipe_ok message self = Return self' /\
    request_id self' = request_id self /\
    response_queue self' = response_queue self.
Proof.
  unfold _send_message. destruct (running self); cbn [negb]; [|by eexists].
  rewrite (utf8_encode_ascii (dumps message)) by apply dumps_ascii.
  rewrite utf8_encode_ascii.
  - destruct pipe_ok; by eexists.
  - apply Forall_app; split; [repeat constructor; unfold is_ascii; lia|].
    apply Forall_app; split; [apply str_of_int_ascii|].
    repeat constructor; unfold is_ascii; lia.
Qed.

Lemma drain_found_matches (rid : Z) (queue responses queue' : list json) (r : json) :
  drain rid queue responses = (Found r, queue') -> test_id rid r = IdMatch.
Proof.
  revert responses. induction queue as [|m q IH]; intros responses; cbn [drain];
    [discriminate|].
  destruct (test_id rid m) eqn:E; [by intros [= <- _]|apply IH|discriminate].
Qed.

Lemma poll_found_matches (rid : Z) (arrivals : list (list json))
    (queue queue' : list json) (r : json) :
  poll rid arrivals queue = (Some r, queue') -> test_id rid r = IdMatch.
Proof.
  revert queue. induction arrivals as [|a arrivals IH]; intros queue; cbn [poll];
    [discriminate|].
  destruct (drain rid (queue ++ a) []) as [[m| |] q] eqn:E.
  - intros [= <- _]. by eapply drain_found_matches.
  - apply IH.
  - discriminate.
Qed.

Lemma drain_all_other (rid : Z) (queue responses : list json) :
  Forall (fun m => test_id rid m = IdOther) queue ->
  drain rid queue responses = (Missed, responses ++ queue).
Proof.
  intros Hq. revert responses.
  induction Hq as [|m q Hm _ IH]; intros responses; cbn [drain].
  - by rewrite app_nil_r.
  - by rewrite Hm, IH, <- app_assoc.
Qed.

Lemma poll_all_other (rid : Z) (arrivals : list (list json)) (queue : list json) :
  Forall (fun m => test_id rid m = IdOther) (queue ++ concat arrivals) ->
  poll rid arrivals queue = (None, queue ++ concat arrivals).
Proof.
  revert queue. induction arrivals as [|a arrivals IH]; intros queue Hall;
    cbn [poll concat].
  - by rewrite app_nil_r.
  - cbn [concat] in Hall. rewrite app_assoc in Hall.
    rewrite drain_all_other by (by apply Forall_app in Hall as [? _]).
    cbn [app]. rewrite IH by done. by rewrite app_assoc.
Qed.

(** A response that [_send_request] returns answers this request: it
    is a dictionary whose [id] equals the identifier the request was
    sent with, which is the counter of the connection plus one. *)
Theorem response_answers_request (pipe_ok : bool) (arrivals : list (list json))
    (method : pystr) (params : json) (self self' : t) (response : json) :
  _send_request pipe_ok arrivals method params self = Return (Some response, self') ->
  request_id self' = request_id self + 1 /\
  match get "id" response with
  | Some (JInt z) => z = request_id self'
  | Some (JBool b) => (if b then 1 else 0) = request_id self'
  | _ => False
  end.
Proof.
  unfold _send_request. destruct (running self); cbn [negb]; [|discriminate].
  destruct (send_message_returns pipe_ok
              (request (request_id self + 1) method params)
              (mk true (stdin self) (request_id self + 1) (response_queue self)))
    as (self2 & Hsend & Hid & Hq).
  cbn [request_id response_queue] in *. exc_unfold. rewrite Hsend.
  destruct (poll (request_id self2) arrivals (response_queue self2))
    as [found queue] eqn:Hpoll.
  intros [= -> <-]. cbn [request_id]. split; [done|].
  apply poll_found_matches in Hpoll. rewrite Hid in *.
  unfold test_id in Hpoll. unfold get.
  destruct response as [|b|z|s|l|kvs]; try discriminate.
  - by destruct (contains (py "id") s).
  - by destruct (existsb _ l).
  - destruct (assoc (py "id") kvs) as [[|b|z|s|l|kvs']|]; try discriminate.
    + by case_decide.
    + by case_decide.
Qed.

(** When the test of the identifier is false, without raising, on
    every message that is in the buffer or arrives during the wait (a
    dictionary without [id] or with another one, a list or a string
    that does not contain [id]), the request times out with [None] and
    no message is lost or duplicated: the buffer afterwards holds the
    old and the arrived messages, each as often as before.  Their order
    is left open. *)
Theorem timeout_keeps_buffer (pipe_ok : bool) (arrivals : list (list json))
    (method : pystr) (params : json) (self : t) :
  running self = true ->
  Forall (fun m => test_id (request_id self + 1) m = IdOther)
         (response_queue self ++ concat arrivals) ->
  exists self',
    _send_request pipe_ok arrivals method params self = Return (None, self') /\
    request_id self' = request_id self + 1 /\
    response_queue self' ≡ₚ response_queue self ++ concat arrivals.
Proof.
  intros Hrun Hall. unfold _send_request. rewrite Hrun. cbn [negb].
  destruct (send_message_returns pipe_ok
              (request (request_id self + 1) method params)
              (mk true (stdin self) (request_id self + 1) (response_queue self)))
    as (self2 & Hsend & Hid & Hq).
  cbn [request_id response_queue] in *. exc_unfold. rewrite Hsend.
  rewrite Hid, Hq, poll_all_other by done.
  eexists. split; [reflexivity|]. by cbn.
Qed.

End CorrelationFacts.

(** The first request of a fresh connection, answered at once. *)
Lemma response_answers_request_witness :
  exists self',
    LanguageServer._send_request true [[Sample.response_1]] (py "initialize") JNull
      Sample.fresh = Return (Some Sample.response_1, self') /\
    LanguageServer.request_id self' = LanguageServer.request_id Sample.fresh + 1 /\
    match get "id" Sample.response_1 with
    | Some (JInt z) => z = LanguageServer.request_id self'
    | Some (JBool b) => (if b then 1 else 0) = LanguageServer.request_id self'
    | _ => False
    end.
Proof.
  eexists. split; [vm_compute; reflexivity|].
  apply (response_answers_request true [[Sample.response_1]] (py "initialize") JNull
           Sample.fresh).
  vm_compute. reflexivity.
Defined.

(** A fresh connection that only receives a notification. *)
Lemma timeout_keeps_buffer_witness :
  exists self',
    LanguageServer._send_request true [[Sample.log_message]; []] (py "initialize") JNull
      Sample.fresh = Return (None, self') /\
    LanguageServer.request_id self' = 1 /\
    LanguageServer.response_queue self' ≡ₚ [Sample.log_message].
Proof.
  apply (timeout_keeps_buffer true [[Sample.log_message]; []] (py "initialize") JNull
           Sample.fresh).
  - reflexivity.
  - repeat constructor.
Defined.

(** ** The position found for a symbol *)

Section LocatorOccurrence.
Context `{UnicodeDB} `{FileSystem}.

Lemma startswith_take (sub s : pystr) :
  startswith sub s = true <-> take (length sub) s = sub.
Proof. unfold startswith. apply bool_decide_eq_true. Qed.

Lemma contains_drop (sub s : pystr) (k : nat) :
  contains sub (drop k s) = true -> contains sub s = true.
Proof.
  revert s. induction k as [|k IH]; intros s; [by rewrite drop_0|].
  destruct s as [|c s]; [done|]. cbn [drop]. intros Hk%IH.
  cbn [contains]. by destruct (startswith sub (c :: s)).
Qed.

Lemma startswith_contains (sub s : pystr) :
  startswith sub s = true -> contains sub s = true.
Proof. intros Hs. destruct s; cbn [contains]; by rewrite Hs. Qed.

(** [find] returns the first offset at which the text occurs. *)
Lemma find_from_occurrence (sub s : pystr) (i : Z) :
  contains sub s = true ->
  exists k : nat,
    find_from sub s i = i + Z.of_nat k /\ (k <= length s)%nat /\
    startswith sub (drop k s) = true /\
    forall j : nat, (j < k)%nat -> startswith sub (drop j s) = false.
Proof.
  revert i. induction s as [|c s IH]; intros i; cbn [contains find_from].
  - destruct (startswith sub []) eqn:E; [|discriminate].
    intros _. exists 0%nat. rewrite Z.add_0_r. cbn. repeat split; [lia|done|lia].
  - destruct (startswith sub (c :: s)) eqn:E.
    + intros _. exists 0%nat. rewrite Z.add_0_r. cbn. repeat split; [lia|done|lia].
    + intros Hs. destruct (IH (i + 1) Hs) as (k & -> & Hk & Hat & Hmin).
      exists (S k). cbn [drop length]. repeat split; [lia|lia|done|].
      intros [|j] Hj; [done|]. cbn [drop]. apply Hmin. lia.
Qed.

(** A match is reported at an offset of the line where the matcher
    holds. *)
Lemma search_from_offset (m : option N -> pystr -> bool) (prev : option N)
    (rest : pystr) (i j : Z) :
  search_from m prev rest i = Some j ->
  exists (k : nat) (prev' : option N),
    j = i + Z.of_nat k /\ (k <= length rest)%nat /\ m prev' (drop k rest) = true.
Proof.
  revert prev i. induction rest as [|c rest IH]; intros prev i; cbn [search_from].
  - destruct (m prev []) eqn:E; [|discriminate].
    intros [= <-]. exists 0%nat, prev. rewrite Z.add_0_r. by cbn.
  - destruct (m prev (c :: rest)) eqn:E.
    + intros [= <-]. exists 0%nat, prev. rewrite Z.add_0_r. cbn. split; [done|].
      split; [lia|done].
    + intros (k & prev' & -> & Hk & Hm)%IH. exists (S k), prev'. cbn [drop length].
      split; [lia|]. split; [lia|done].
Qed.

Lemma spaces_then_symbol_contains (sym rest : pystr) :
  spaces_then_symbol sym rest = true -> contains sym rest = true.
Proof.
  induction rest as [|c rest IH]; cbn [spaces_then_symbol]; [discriminate|].
  intros [_ [Hm|Hm]%orb_true_iff]%andb_true_iff.
  - unfold symbol_then_boundary in Hm. apply andb_true_iff in Hm as [Hs _].
    apply (contains_drop sym (c :: rest) 1). by apply startswith_contains.
  - apply (contains_drop sym (c :: rest) 1). by apply IH.
Qed.

Lemma declaration_contains (keyword sym line : pystr) (start : Z) :
  re_search (declaration_at keyword sym) line = Some start ->
  contains sym line = true.
Proof.
  intros (k & prev & _ & _ & Hm)%search_from_offset.
  unfold declaration_at in Hm. apply andb_true_iff in Hm as [_ Hm].
  apply spaces_then_symbol_contains, contains_drop, contains_drop in Hm. done.
Qed.

(** Whatever pattern chose the line, the column is an offset of that
    line at which the text of the symbol stands: the position never
    lies outside the line and the column is never the [-1] of a failed
    [find]. *)
Theorem position_is_an_occurrence (file_path symbol_name : pystr)
    (lines : list pystr) (l c : Z) :
  readlines (abspath file_path) = Return lines ->
  Locator.find_symbol_position file_path symbol_name = Some (l, c) ->
  exists line,
    0 <= l /\ lines !! Z.to_nat l = Some line /\
    0 <= c <= len line /\
    take (length symbol_name) (drop (Z.to_nat c) line) = symbol_name.
Proof.
  intros Hread. unfold Locator.find_symbol_position. rewrite Hread.
  assert (forall i0 l c,
            Locator.scan symbol_name lines i0 = Some (l, c) ->
            exists line, i0 <= l /\ lines !! Z.to_nat (l - i0) = Some line /\
              0 <= c <= len line /\
              take (length symbol_name) (drop (Z.to_nat c) line) = symbol_name) as Hscan.
  { clear. induction lines as [|line lines IH]; intros i0 l c; cbn [Locator.scan];
      [discriminate|].
    assert (contains symbol_name line = true ->
              exists line', i0 <= i0 /\ (line :: lines) !! Z.to_nat (i0 - i0) = Some line' /\
                0 <= find symbol_name line <= len line' /\
                take (length symbol_name)
                     (drop (Z.to_nat (find symbol_name line)) line') = symbol_name)
      as Hfind.
    { intros Hc. exists line. rewrite Z.sub_diag. cbn. split; [lia|]. split; [done|].
      unfold find. destruct (find_from_occurrence _ _ 0 Hc) as (k & -> & Hk & Hat & _).
      unfold len. rewrite Z.add_0_l, Nat2Z.id. split; [lia|].
      by apply startswith_take. }
    case_bool_decide as E1.
    { destruct E1 as [start E1]. intros [= <- <-].
      apply Hfind. by eapply declaration_contains. }
    case_bool_decide as E2.
    { destruct E2 as [start E2]. intros [= <- <-].
      apply Hfind. by eapply declaration_contains. }
    destruct (re_search (word_at symbol_name) line) as [start|] eqn:E3.
    - intros [= <- <-]. exists line. rewrite Z.sub_diag. cbn. split; [lia|]. split; [done|].
      apply search_from_offset in E3 as (k & prev & -> & Hk & Hm).
      unfold word_at, symbol_then_boundary in Hm.
      apply andb_true_iff in Hm as [_ [Hm _]%andb_true_iff].
      unfold len. rewrite Z.add_0_l, Nat2Z.id. split; [lia|]. by apply startswith_take.
    - intros (line' & Hl & Hlook & Hc & Hat)%IH. exists line'.
      split; [lia|]. split; [|done].
      replace (Z.to_nat (l - i0)) with (S (Z.to_nat (l - (i0 + 1)))) by lia. done. }
  intros Hs. destruct (Hscan 0 l c Hs) as (line & Hl & Hlook & Hc & Hat).
  exists line. rewrite Z.sub_0_r in Hlook. done.
Qed.

End LocatorOccurrence.

(** The position found for [f] in [short.py]. *)
Lemma position_is_an_occurrence_witness :
  exists line,
    0 <= 0 /\ Sample.short_py !! Z.to_nat 0 = Some line /\
    0 <= 2 <= len line /\
    take (length (py "f")) (drop (Z.to_nat 2) line) = py "f".
Proof.
  apply (@position_is_an_occurrence Sample.plain Sample.fs (py "/w/short.py") (py "f")
           Sample.short_py 0 2).
  - reflexivity.
  - vm_compute. reflexivity.
Defined.

(** ** Servers and documents of the service *)

Section ServiceMore.
Context `{UnicodeDB} `{FileSystem} `{Workspace}.
Import Service CodeBrowserAPI.

Local Ltac exc_unfold := unfold mbind, mret, exc_bind, exc_ret in *.

(** [open_document] answers [True] exactly when a server can be had for
    the file and the document either was announced before or can be
    read.  After [True] the key of the document is in [open_documents];
    after [False] neither [open_documents] nor the history of
    announcements has changed, so a later call tries again. *)
Theorem open_document_result (file_path : pystr) (s : state) :
  (fst (open_document file_path s) = true <->
   usable s (suffix (abspath file_path)) = true /\
   (document_uri (abspath file_path) ∈ open_documents s \/
    exists lines, readlines (abspath file_path) = Return lines)) /\
  (fst (open_document file_path s) = true ->
   document_uri (abspath file_path) ∈ open_documents (snd (open_document file_path s))) /\
  (fst (open_document file_path s) = false ->
   open_documents (snd (open_document file_path s)) = open_documents s /\
   announced (snd (open_document file_path s)) = announced s).
Proof.
  unfold open_document.
  pose proof (get_server_for_file_found (abspath file_path) s) as Hfound.
  pose proof (get_server_for_file_same (abspath file_path) s) as (Hann & Hdocs & _).
  destruct (get_server_for_file (abspath file_path) s) as [[c|] s1];
    cbn [fst snd] in *.
  - assert (usable s (suffix (abspath file_path)) = true) as Hu by (apply Hfound; eauto).
    rewrite <- Hdocs. case_bool_decide as Hopen; cbn [fst snd].
    { split; [|done]. split; [auto|done]. }
    unfold server_open_document.
    destruct (readlines (abspath file_path)) as [lines|e] eqn:Hread; cbn [fst snd].
    + assert (fst (if bool_decide (c ∈ live s1)
                   then (true, mk (servers s1) (open_documents s1) (live s1)
                                  (started s1)
                                  (announced s1 ++ [(c, abspath file_path)])
                                  (requests s1))
                   else (true, s1)) = true) as Htrue by (by case_bool_decide).
      destruct (if bool_decide (c ∈ live s1) then _ else _) as [result s2].
      cbn [fst] in Htrue. subst result. cbn [fst snd].
      split; [split; eauto|]. split; [|done].
      intros _. by apply elem_of_union_l, elem_of_singleton.
    + split; [|split; [done|by rewrite Hann]].
      split; [done|]. intros [_ [?|[lines [=]]]]. done.
  - split; [|split; [done|by rewrite Hann, Hdocs]].
    split; [done|]. intros [Hu _]. apply Hfound in Hu as [? [=]].
Qed.

(** The symbol query sends at most one request per extension group of
    the index, to the server of the extension of the first file of the
    group, in the order of the index, and none for a group without
    files. *)
Theorem find_symbol_asks_once_per_group (symbol_name : pystr) (s : state) :
  exists sent,
    requests (snd (find_symbol symbol_name s)) = requests s ++ sent /\
    sent `sublist_of`
      omap (fun ext_files =>
              match snd ext_files with
              | first :: _ => Some (AskSymbol (suffix first) symbol_name)
              | [] => None
              end) file_index.
Proof.
  assert (forall index results s,
            exists sent,
              requests (snd (find_symbol_loop symbol_name index results s))
                = requests s ++ sent /\
              sent `sublist_of`
                omap (fun ext_files =>
                        match snd ext_files with
                        | first :: _ => Some (AskSymbol (suffix first) symbol_name)
                        | [] => None
                        end) index) as Hloop.
  { clear s. induction index as [|[e [|first files]] index IH]; intros results s;
      cbn [find_symbol_loop omap list_omap snd fst].
    - exists []. by rewrite app_nil_r.
    - apply IH.
    - pose proof (get_server_for_file_same first s) as (_ & _ & Hreq).
      destruct (get_server_for_file first s) as [[c|] s1]; cbn [snd] in Hreq.
      + assert (forall results',
                  exists sent,
                    requests (snd (find_symbol_loop symbol_name index results'
                                     (record_request (AskSymbol (suffix first) symbol_name) s1)))
                      = requests s ++ sent /\
                    sent `sublist_of`
                      AskSymbol (suffix first) symbol_name ::
                      omap (fun ext_files =>
                              match snd ext_files with
                              | f :: _ => Some (AskSymbol (suffix f) symbol_name)
                              | [] => None
                              end) index) as Hnext.
        { intros results'.
          destruct (IH results' (record_request (AskSymbol (suffix first) symbol_name) s1))
            as (sent & -> & Hsub).
          exists (AskSymbol (suffix first) symbol_name :: sent). cbn [requests record_request].
          rewrite Hreq, <- app_assoc. split; [done|]. by apply sublist_skip. }
        assert (exists sent,
                  requests (record_request (AskSymbol (suffix first) symbol_name) s1)
                    = requests s ++ sent /\
                  sent `sublist_of`
                    AskSymbol (suffix first) symbol_name ::
                    omap (fun ext_files =>
                            match snd ext_files with
                            | f :: _ => Some (AskSymbol (suffix f) symbol_name)
                            | [] => None
                            end) index) as Hstop.
        { exists [AskSymbol (suffix first) symbol_name]. cbn [requests record_request].
          rewrite Hreq. split; [done|]. apply sublist_skip, sublist_nil_l. }
        destruct (find_workspace_symbol (suffix first) symbol_name)
          as [[|sym symbols]|]; [apply Hnext| |exact Hstop].
        destruct (_process_workspace_symbols (sym :: symbols)); [apply Hnext|exact Hstop].
      + destruct (IH results s1) as (sent & -> & Hsub).
        exists sent. rewrite Hreq. split; [done|]. by apply sublist_cons. }
  unfold find_symbol, Service.find_symbol.
  destruct (Hloop file_index [] s) as (sent & Hreq & Hsub).
  exists sent. split; [|done].
  by destruct (find_symbol_loop symbol_name file_index [] s) as [[[|? ?]|] ?].
Qed.

End ServiceMore.

(** ** What the workspace-wide queries return *)

Section AggregatorMore.
Context `{UnicodeDB} `{FileSystem} `{Workspace}.
Import Service CodeBrowserAPI.

Local Ltac exc_unfold := unfold mbind, mret, exc_bind, exc_ret in *.

Lemma results_not_error (l : list json) (message : pystr) :
  results_json l <> error_json message.
Proof. intros Heq. vm_compute in Heq. discriminate Heq. Qed.

(** The first location of a list that has a given key. *)
Lemma first_with_key (l : list entry) (e : entry) :
  e ∈ l ->
  exists pre e' post,
    l = pre ++ e' :: post /\ loc_key e' = loc_key e /\
    loc_key e' ∉ (loc_key <$> pre).
Proof.
  induction l as [|x l IH]; [by intros ?%elem_of_nil|].
  destruct (decide (loc_key x = loc_key e)) as [Hx|Hx].
  - intros _. exists [], x, l. split; [done|]. split; [done|]. apply not_elem_of_nil.
  - intros [->|He]%elem_of_cons; [done|].
    destruct (IH He) as (pre & e' & post & -> & Hk & Hpre).
    exists (x :: pre), e', post. split; [done|]. split; [done|].
    rewrite fmap_cons. intros [Heq|?]%elem_of_cons; [|done]. congruence.
Qed.

(** Every key that the reference loop meets and that is not a
    definition key is the key of a result. *)
Lemma keep_reference_covers (definition_locations : gset (pystr * Z * Z))
    (stream : list entry) (e : entry) :
  e ∈ stream -> loc_key e ∉ definition_locations ->
  loc_key e ∈ (loc_key <$>
    snd (fold_left (keep_reference definition_locations) stream (∅, []))).
Proof.
  intros He Hdef.
  destruct (keep_reference_fold definition_locations stream ∅ [])
    as (new & -> & _ & _ & _ & Hfirst).
  destruct (first_with_key stream e He) as (pre & e' & post & Heq & Hk & Hpre).
  cbn [app]. rewrite <- Hk. apply list_elem_of_fmap_2.
  eapply Hfirst; [exact Heq| |apply not_elem_of_empty|done]. by rewrite Hk.
Qed.

Lemma keep_reference_nothing (definition_locations : gset (pystr * Z * Z))
    (stream : list entry) :
  snd (fold_left (keep_reference definition_locations) stream (∅, [])) = [] <->
  Forall (fun e => loc_key e ∈ definition_locations) stream.
Proof.
  split.
  - intros Hnil. apply Forall_forall. intros e He.
    destruct (decide (loc_key e ∈ definition_locations)) as [|Hdef]; [done|].
    pose proof (keep_reference_covers definition_locations stream e He Hdef) as Hin.
    rewrite Hnil in Hin. by apply elem_of_nil in Hin.
  - intros Hall.
    destruct (keep_reference_fold definition_locations stream ∅ [])
      as (new & -> & Hsub & _ & Hin & _).
    cbn [app]. destruct new as [|x new]; [done|].
    destruct (Hin x (list_elem_of_here _ _)) as [Hx _].
    rewrite Forall_forall in Hall. exfalso. apply Hx, Hall.
    eapply elem_of_sublist; [apply list_elem_of_here|exact Hsub].
Qed.

(** In every state a service can reach, the definition query answers
    with the error [No definition found for 'S'] exactly when the scan
    of the index met no location at all, and the reference query with
    [No references found for 'S'] exactly when every location it met has
    the key of a definition. *)
Theorem not_found_exactly_when_nothing_is_left (cmds : list command)
    (symbol_name : pystr) :
  (fst (goto_definition symbol_name (run cmds))
     = error_json (quoted (py "No definition found for ") symbol_name) <->
   encountered find_definition (run cmds) symbol_name = []) /\
  (fst (goto_references symbol_name (run cmds))
     = error_json (quoted (py "No references found for ") symbol_name) <->
   Forall (fun e => loc_key e ∈
                      (loc_key <$> encountered find_definition (run cmds) symbol_name))
          (encountered (fun p l c => find_references p l c true)
                       (run cmds) symbol_name)).
Proof.
  pose proof (run_numbered cmds) as Hnum. split.
  - unfold goto_definition.
    destruct (definitions_spec symbol_name (run cmds)) as (_ & _ & Hdefs).
    specialize (Hdefs Hnum). rewrite fold_keep_unseen in Hdefs.
    destruct (definitions symbol_name (run cmds)) as [results s']. cbn [fst] in *.
    transitivity (results = []).
    + destruct results; [done|]. split; [|done]. by intros ?%results_not_error.
    + rewrite Hdefs, keep_reference_nothing. split.
      * intros Hall. destruct (encountered _ _ _) as [|x l]; [done|].
        apply Forall_cons in Hall as [Hx _]. by apply elem_of_empty in Hx.
      * intros ->. constructor.
  - unfold goto_references.
    destruct (references_spec symbol_name (run cmds)) as (_ & Hrefs).
    destruct (Hrefs Hnum) as ((defs & Hdefs & Hfold) & _).
    destruct (references symbol_name (run cmds)) as [results s']. cbn [fst] in *.
    transitivity (results = []).
    + destruct results; [done|]. split; [|done]. by intros ?%results_not_error.
    + rewrite Hfold, keep_reference_nothing. apply Forall_iff. intros e. apply Hdefs.
Qed.

(** *** Repeating a query *)

Lemma settled_any (kind : asked -> Prop) (s s' : state) :
  settled kind s s' -> settled (fun _ => True) s s'.
Proof.
  intros Hs Hnum. destruct (Hs Hnum) as (? & ? & more & ? & _).
  split; [done|]. split; [done|]. exists more. split; [done|].
  apply Forall_forall. done.
Qed.

Lemma find_symbol_loop_settled (symbol_name : pystr) (index : list (pystr * list pystr))
    (results : list symbol_entry) (s : state) :
  settled (fun _ => True) s (snd (find_symbol_loop symbol_name index results s)).
Proof.
  revert results s.
  induction index as [|[e [|first files]] index IH]; intros results s;
    cbn [find_symbol_loop]; [apply settled_refl|apply IH|].
  pose proof (get_server_for_file_settled (fun _ => True) first s) as Hget.
  destruct (get_server_for_file first s) as [[c|] s1]; cbn [snd] in Hget;
    [|eauto using settled_trans].
  pose proof (record_request_settled (fun _ => True)
                (AskSymbol (suffix first) symbol_name) s1 I) as Hrec.
  destruct (find_workspace_symbol (suffix first) symbol_name) as [[|sym symbols]|];
    [eauto using settled_trans| |eauto using settled_trans].
  destruct (_process_workspace_symbols (sym :: symbols));
    cbn [snd]; eauto using settled_trans.
Qed.

Lemma references_settled (symbol_name : pystr) (s : state) :
  settled (fun _ => True) s (snd (references symbol_name s)).
Proof.
  unfold references, definition_pass, reference_pass, definitions_in, references_in.
  pose proof (scan_index AskDefinition find_definition (fun _ => True)
                (fun acc def_loc => {[loc_key def_loc]} ∪ acc) symbol_name
                (∅ : gset (pystr * Z * Z)) s)
    as Hscan1.
  cbn zeta in Hscan1.
  destruct (for_each_file _ ∅ s) as [definition_locations s1].
  destruct Hscan1 as (_ & Hs1 & _); [done|]. cbn [fst snd] in *.
  pose proof (scan_index AskReferences (fun p l c => find_references p l c true)
                (fun _ => True)
                (keep_reference definition_locations) symbol_name
                ((∅ : gset (pystr * Z * Z)), ([] : list entry)) s1)
    as Hscan2.
  cbn zeta in Hscan2.
  destruct (for_each_file _ (∅, []) s1) as [[seen results] s2].
  destruct Hscan2 as (_ & Hs2 & _); [done|]. cbn [fst snd] in *.
  eauto using settled_trans.
Qed.

Lemma step_settled (s : state) (cmd : command) :
  cmd <> Shutdown -> (forall c, cmd <> ProcessDies c) ->
  settled (fun _ => True) s (step s cmd).
Proof.
  intros Hshut Hdies. destruct cmd as [p|sym|sym|sym| |c]; cbn [step].
  - apply open_document_settled.
  - unfold goto_definition.
    pose proof (definitions_spec sym s) as (_ & Hs & _).
    destruct (definitions sym s). by eapply settled_any.
  - unfold goto_references.
    pose proof (references_settled sym s) as Hs.
    by destruct (references sym s).
  - unfold find_symbol, Service.find_symbol.
    pose proof (find_symbol_loop_settled sym file_index [] s) as Hs.
    by destruct (find_symbol_loop sym file_index [] s) as [[[|? ?]|] ?].
  - done.
  - by destruct (Hdies c).
Qed.

(** The results of both queries depend on the state of the service
    only through the extensions that have a server. *)
Lemma results_depend_on_servers (symbol_name : pystr) (s s' : state) :
  numbered s -> numbered s' ->
  (forall file_ext, usable s' file_ext = usable s file_ext) ->
  fst (definitions symbol_name s') = fst (definitions symbol_name s) /\
  fst (references symbol_name s') = fst (references symbol_name s).
Proof.
  intros Hnum Hnum' Hu. split.
  - destruct (definitions_spec symbol_name s) as (_ & _ & Hdefs).
    destruct (definitions_spec symbol_name s') as (_ & _ & Hdefs').
    by rewrite (Hdefs Hnum), (Hdefs' Hnum'), (encountered_usable _ s s').
  - destruct (references_spec symbol_name s) as (_ & Hrefs).
    destruct (Hrefs Hnum) as ((defs & Hdefs & ->) & _).
    destruct (references_spec symbol_name s') as (_ & Hrefs').
    destruct (Hrefs' Hnum') as ((defs' & Hdefs' & ->) & _).
    rewrite (encountered_usable _ s s') by done.
    rewrite (encountered_usable _ s s') in Hdefs' by done.
    assert (defs' = defs) as ->; [|done].
    apply set_eq. intros k. by rewrite Hdefs, Hdefs'.
Qed.

(** In every state a service can reach, opening a document or running
    any query leaves the results of the definition query and of the
    reference query as they were: a query run again on the unchanged
    workspace returns the same list, in the same order. *)
Theorem queries_are_repeatable (cmds : list command) (cmd : command)
    (symbol_name : pystr) :
  cmd <> Shutdown -> (forall c, cmd <> ProcessDies c) ->
  fst (definitions symbol_name (step (run cmds) cmd))
    = fst (definitions symbol_name (run cmds)) /\
  fst (references symbol_name (step (run cmds) cmd))
    = fst (references symbol_name (run cmds)).
Proof.
  intros Hshut Hdies. pose proof (run_numbered cmds) as Hnum.
  destruct (step_settled (run cmds) cmd Hshut Hdies Hnum) as (Hnum' & Hu & _).
  by apply results_depend_on_servers.
Qed.

(** *** One file and the whole workspace *)

(** In every state a service can reach, what the definition query on
    one file of the index (given by its absolute path) returns is an
    error dictionary or a list of entries, and the key of each of these
    entries is the key of an entry of the workspace-wide definition
    query. *)
Theorem workspace_query_covers_file_query (cmds : list command)
    (file_path symbol_name : pystr) (out : json) :
  file_path ∈ all_files -> abspath file_path = file_path ->
  fst (PerFile.goto_definition file_path symbol_name (run cmds)) = Return out ->
  (exists message, out = error_json message) \/
  exists l, out = results_json (map entry_json l) /\
    Forall (fun e => loc_key e ∈
                       (loc_key <$> fst (definitions symbol_name (run cmds)))) l.
Proof.
  intros Hfile Habs. pose proof (run_numbered cmds) as Hnum.
  unfold PerFile.goto_definition, PerFile.query. rewrite Habs.
  pose proof (get_server_for_file_found file_path (run cmds)) as Hfound.
  destruct (get_server_for_file file_path (run cmds)) as [[c|] s1]; cbn [fst] in Hfound;
    [|intros [= <-]; left; by eexists].
  assert (usable (run cmds) (suffix file_path) = true) as Hu by (apply Hfound; eauto).
  destruct (open_document file_path s1) as [opened s2].
  destruct (Locator.find_symbol_position file_path symbol_name) as [[l ch]|] eqn:Hpos;
    [|intros [= <-]; left; by eexists].
  cbn zeta.
  destruct (find_definition file_path l ch) as [found|] eqn:Hreply; [|discriminate].
  destruct (falsy found) eqn:Hfalsy; [intros [= <-]; left; by eexists|].
  destruct (_process_locations found symbol_name) as [[es|m]|] eqn:Hproc;
    cbn [fst]; [|intros [= <-]; left; by eexists|discriminate].
  intros [= <-]. right. exists es. split; [done|].
  assert (met_in find_definition (run cmds) symbol_name file_path = es) as Hmet.
  { unfold met_in, processed. exc_unfold. by rewrite Hu, Hpos, Hreply, Hfalsy, Hproc. }
  destruct (definitions_spec symbol_name (run cmds)) as (_ & _ & Hdefs).
  rewrite (Hdefs Hnum), fold_keep_unseen. apply Forall_forall. intros e He.
  apply keep_reference_covers; [|apply not_elem_of_empty].
  unfold encountered. apply list_elem_of_In, in_flat_map.
  exists file_path. split; apply list_elem_of_In; [done|by rewrite Hmet].
Qed.

End AggregatorMore.

(** The definition query leaves the results of both queries of the
    sample workspace as they are. *)
Lemma queries_are_repeatable_witness :
  fst (@CodeBrowserAPI.definitions Sample.plain Sample.fs Sample.workspace (py "f")
         (@CodeBrowserAPI.step Sample.plain Sample.fs Sample.workspace
            (@CodeBrowserAPI.run Sample.plain Sample.fs Sample.workspace [])
            (CodeBrowserAPI.GotoDefinition (py "f"))))
    = fst (@CodeBrowserAPI.definitions Sample.plain Sample.fs Sample.workspace (py "f")
             (@CodeBrowserAPI.run Sample.plain Sample.fs Sample.workspace [])) /\
  fst (@CodeBrowserAPI.references Sample.plain Sample.fs Sample.workspace (py "f")
         (@CodeBrowserAPI.step Sample.plain Sample.fs Sample.workspace
            (@CodeBrowserAPI.run Sample.plain Sample.fs Sample.workspace [])
            (CodeBrowserAPI.GotoDefinition (py "f"))))
    = fst (@CodeBrowserAPI.references Sample.plain Sample.fs Sample.workspace (py "f")
             (@CodeBrowserAPI.run Sample.plain Sample.fs Sample.workspace [])).
Proof.
  apply (@queries_are_repeatable Sample.plain Sample.fs Sample.workspace []
           (CodeBrowserAPI.GotoDefinition (py "f")) (py "f")).
  - discriminate.
  - discriminate.
Defined.

(** The definition query on [short.py] alone and on the whole sample
    workspace. *)
Lemma workspace_query_covers_file_query_witness :
  exists out,
    fst (@PerFile.goto_definition Sample.plain Sample.fs Sample.workspace
           (py "/w/short.py") (py "f")
           (@CodeBrowserAPI.run Sample.plain Sample.fs Sample.workspace [])) = Return out /\
    ((exists message, out = Service.error_json message) \/
     exists l, out = Service.results_json (map Service.entry_json l) /\
       Forall (fun e => CodeBrowserAPI.loc_key e ∈
                 (CodeBrowserAPI.loc_key <$>
                    fst (@CodeBrowserAPI.definitions Sample.plain Sample.fs Sample.workspace
                           (py "f")
                           (@CodeBrowserAPI.run Sample.plain Sample.fs Sample.workspace []))))
              l).
Proof.
  eexists. split; [vm_compute; reflexivity|].
  apply (@workspace_query_covers_file_query Sample.plain Sample.fs Sample.workspace []
           (py "/w/short.py") (py "f")).
  - apply (bool_decide_unpack _). vm_compute. exact I.
  - reflexivity.
  - vm_compute. reflexivity.
Defined.

(** ** Processing what the servers report *)

Section ResultsMore.
Context `{UnicodeDB} `{FileSystem} `{Workspace}.
Import Service.

Local Ltac exc_unfold := unfold mbind, mret, exc_bind, exc_ret in *.

Lemma process_each_recognised (symbol_name : pystr) (ls : list location)
    (results : list entry) :
  Forall (fun l => l <> Malformed) ls ->
  process_each symbol_name ls results =
  Return (results ++
          omap (fun l => match l with
                         | Location uri a b | LocationLink uri a b =>
                             Some (locate symbol_name uri a b)
                         | _ => None
                         end) ls).
Proof.
  intros Hls. revert results.
  induction Hls as [|l ls Hl _ IH]; intros results; cbn [process_each omap list_omap].
  - by rewrite app_nil_r.
  - destruct l; [| | |done]; rewrite IH; cbn; by rewrite <- ?app_assoc.
Qed.

Lemma process_each_malformed (symbol_name : pystr) (ls : list location)
    (results : list entry) :
  Malformed ∈ ls -> exists e, process_each symbol_name ls results = Raise e.
Proof.
  revert results. induction ls as [|l ls IH]; intros results; [by intros ?%elem_of_nil|].
  intros Hin. destruct l; cbn [process_each]; [| | |by eexists];
    apply elem_of_cons in Hin as [|Hin]; try done; by apply IH.
Qed.

(** [_process_locations] treats a [Location] and a [LocationLink]
    alike, skips the elements that are neither, and returns the entries
    in the order of the answer; one element that cannot be read makes
    the whole call raise, whatever was processed before it. *)
Theorem process_locations_in_order (symbol_name : pystr) (ls : list location) :
  (Forall (fun l => l <> Malformed) ls -> ls <> [] ->
   _process_locations (Several ls) symbol_name =
   Return (Results
             (omap (fun l => match l with
                             | Location uri a b | LocationLink uri a b =>
                                 Some (locate symbol_name uri a b)
                             | _ => None
                             end) ls))) /\
  (Malformed ∈ ls ->
   exists e, _process_locations (Several ls) symbol_name = Raise e).
Proof.
  split.
  - intros Hls Hne. unfold _process_locations.
    destruct ls as [|l ls]; [done|]. cbn [falsy]. exc_unfold.
    by rewrite process_each_recognised.
  - intros Hin. unfold _process_locations.
    destruct ls as [|l ls]; [by apply elem_of_nil in Hin|]. cbn [falsy]. exc_unfold.
    destruct (process_each_malformed symbol_name (l :: ls) [] Hin) as [e ->]. by eexists.
Qed.

Lemma remove_scheme_absent (p : pystr) :
  contains (py "file://") p = false -> remove_scheme_from 0 p = p.
Proof.
  induction p as [|c p IH]; [done|]. cbn [contains remove_scheme_from].
  destruct (startswith (py "file://") (c :: p)); [discriminate|].
  intros Hp. by rewrite IH.
Qed.

(** The scheme that the service puts before a path to name a document
    is taken off again by [replace('file://', '')], provided the path
    itself does not contain the text [file://] (every occurrence would
    be removed). *)
Theorem scheme_is_stripped (abs_path : pystr) :
  contains (py "file://") abs_path = false ->
  remove_scheme (document_uri abs_path) = abs_path.
Proof.
  intros Hp. unfold remove_scheme, document_uri.
  change (remove_scheme_from 0 (py "file://" ++ abs_path))
    with (remove_scheme_from 0 abs_path).
  by apply remove_scheme_absent.
Qed.

(** The name of a symbol kind is [symbol] exactly for the codes outside
    1 to 26, among them the 0 that stands for a missing kind, and two
    different codes from 1 to 26 have different names. *)
Theorem symbol_kind_names (k1 k2 : Z) :
  (_symbol_kind_to_string k1 = py "symbol" <-> ~ 1 <= k1 <= 26) /\
  (1 <= k1 <= 26 -> 1 <= k2 <= 26 ->
   _symbol_kind_to_string k1 = _symbol_kind_to_string k2 -> k1 = k2).
Proof.
  assert (forall k, ~ 1 <= k <= 26 -> _symbol_kind_to_string k = py "symbol") as Hout.
  { intros k Hk. unfold _symbol_kind_to_string. cbn [List.find fst snd].
    repeat (rewrite bool_decide_eq_false_2 by lia). reflexivity. }
  assert (forall k, 1 <= k <= 26 ->
            exists n : nat, k = Z.of_nat n /\ (1 <= n <= 26)%nat) as Hnat.
  { intros k Hk. exists (Z.to_nat k). lia. }
  assert (forallb
            (fun i =>
               negb (bool_decide (_symbol_kind_to_string (Z.of_nat i) = py "symbol")) &&
               forallb (fun j =>
                          implb (bool_decide (_symbol_kind_to_string (Z.of_nat i) =
                                              _symbol_kind_to_string (Z.of_nat j)))
                                (bool_decide (i = j)))
                       (seq 1 26))
            (seq 1 26) = true) as Htable by (vm_compute; reflexivity).
  rewrite List.forallb_forall in Htable.
  assert (forall n : nat, (1 <= n <= 26)%nat -> In n (seq 1 26)) as Hseq
    by (intros n Hn; apply List.in_seq; lia).
  split.
  - split; [|apply Hout]. intros Hname Hin.
    destruct (Hnat k1 Hin) as (n & -> & Hn).
    specialize (Htable n (Hseq n Hn)). apply andb_true_iff in Htable as [Hsym _].
    by rewrite bool_decide_eq_true_2 in Hsym.
  - intros Hk1 Hk2 Heq.
    destruct (Hnat k1 Hk1) as (n1 & -> & Hn1). destruct (Hnat k2 Hk2) as (n2 & -> & Hn2).
    specialize (Htable n1 (Hseq n1 Hn1)). apply andb_true_iff in Htable as [_ Hinj].
    rewrite List.forallb_forall in Hinj. specialize (Hinj n2 (Hseq n2 Hn2)).
    rewrite bool_decide_eq_true_2 in Hinj by done. cbn in Hinj.
    apply bool_decide_eq_true in Hinj. by subst.
Qed.

End ResultsMore.

(** The key that names [short.py] among the open documents. *)
Lemma scheme_is_stripped_witness :
  Service.remove_scheme (Service.document_uri (py "/w/short.py")) = py "/w/short.py".
Proof.
  apply (scheme_is_stripped (py "/w/short.py")). reflexivity.
Defined.

(** ** The two kinds of context *)

Section ContextMore.
Context `{UnicodeDB} `{FileSystem}.
Import Context.

Local Ltac exc_unfold := unfold mbind, mret, exc_bind, exc_ret in *.

Lemma discover_only_skipped (decl : pystr) (i : Z) (rest acc : list pystr) :
  Forall (fun t => skipped t = true) rest ->
  discover decl i rest acc = (acc ++ plain_lines i rest, None).
Proof.
  intros Hrest. revert i acc.
  induction Hrest as [|t rest Ht _ IH]; intros i acc; cbn [discover plain_lines].
  - by rewrite app_nil_r.
  - by rewrite Ht, IH, <- app_assoc.
Qed.

(** When only blank lines and comments follow a declaration up to the
    end of the file, no indentation of a body is found and the context
    is the declaration followed by each of these lines once. *)
Theorem declaration_without_body (file_path : pystr) (before after : list pystr)
    (decl : pystr) :
  readlines (abspath file_path) = Return (before ++ decl :: after) ->
  looks_like_declaration decl = true ->
  Forall (fun t => skipped t = true) after ->
  context (get_symbol_context file_path (len before + 1)) =
    marked_line (len before) decl :: plain_lines (len before + 1) after.
Proof.
  intros Hread Hdecl Hafter.
  rewrite (context_of_declaration _ _ _ _ Hread Hdecl).
  by rewrite discover_only_skipped.
Qed.

(** The loop of the window over a stretch [mid] of the file. *)
Lemma window_loop (g : Z -> pystr -> pystr) (pre mid post : list pystr) :
  mapM (fun i => text ← subscript (pre ++ mid ++ post) i; Return (g i text))
       (seqZ (len pre) (len mid))
  = Return (zip_with g (seqZ (len pre) (len mid)) mid).
Proof.
  revert pre. induction mid as [|t mid IH]; intros pre; [done|].
  assert (len (t :: mid) = Z.succ (len mid)) as -> by (unfold len; cbn [length]; lia).
  rewrite seqZ_cons by (unfold len; lia). rewrite Z.pred_succ.
  cbn [mapM zip_with].
  specialize (IH (pre ++ [t])).
  assert (len (pre ++ [t]) = Z.succ (len pre)) as Hlen
    by (unfold len; rewrite length_app; cbn [length]; lia).
  rewrite Hlen, <- app_assoc in IH. cbn [app] in IH.
  change ((t :: mid) ++ post) with (t :: mid ++ post).
  rewrite IH.
  destruct (subscript_in_range (pre ++ t :: mid ++ post) (len pre)) as (x & Hsub & Hx).
  { unfold len. rewrite !length_app. cbn [length]. lia. }
  unfold len in Hx. rewrite Nat2Z.id in Hx.
  rewrite list_lookup_middle in Hx by done. injection Hx as <-.
  exc_unfold. by rewrite Hsub.
Qed.

Lemma zip_plain (idx a : Z) (l : list pystr) :
  idx < a \/ a + len l <= idx ->
  zip_with (fun i text => if bool_decide (i = idx) then marked_line i text
                          else plain_line i text)
           (seqZ a (len l)) l
  = plain_lines a l.
Proof.
  revert a. induction l as [|t l IH]; intros a Hidx; [done|].
  assert (len (t :: l) = Z.succ (len l)) as Hlen by (unfold len; cbn [length]; lia).
  rewrite Hlen in *. rewrite seqZ_cons by (unfold len; lia). rewrite Z.pred_succ.
  cbn [zip_with plain_lines]. rewrite bool_decide_eq_false_2 by (unfold len in *; lia).
  f_equal. apply IH. unfold len in *. lia.
Qed.

(** For a line that does not look like a declaration, the context is
    the window around it: the lines before it, five of them or all
    there are, the target line, which alone bears the mark, and the
    lines after it, five of them or all there are; each with its line
    number, eleven lines at most. *)
Theorem window_around_target (file_path : pystr)
    (far_before before after far_after : list pystr) (target : pystr) :
  readlines (abspath file_path) =
    Return (far_before ++ before ++ target :: after ++ far_after) ->
  looks_like_declaration target = false ->
  (far_before = [] /\ (length before <= 5)%nat \/ length before = 5%nat) ->
  (far_after = [] /\ (length after <= 5)%nat \/ length after = 5%nat) ->
  context (get_symbol_context file_path (len far_before + len before + 1)) =
    plain_lines (len far_before) before ++
    [marked_line (len far_before + len before) target] ++
    plain_lines (len far_before + len before + 1) after.
Proof.
  intros Hread Htarget Hbefore Hafter.
  set (lines := far_before ++ before ++ target :: after ++ far_after) in *.
  set (idx := len far_before + len before).
  assert (len lines = len far_before + len before + 1 + len after + len far_after) as Hlen.
  { unfold lines, len. rewrite !length_app. cbn [length]. rewrite length_app. lia. }
  assert (lines !! Z.to_nat idx = Some target) as Hlook.
  { unfold lines, idx, len. rewrite app_assoc.
    replace (Z.to_nat _) with (length (far_before ++ before))
      by (rewrite length_app; lia).
    by apply list_lookup_middle. }
  unfold get_symbol_context, get_symbol_context_try. exc_unfold. rewrite Hread.
  replace (idx + 1 - 1) with idx by lia.
  destruct (Z.ltb_spec idx 0); [unfold idx, len in *; lia|]. cbn [orb].
  destruct (Z.leb_spec (len lines) idx); [unfold idx, len in *; lia|].
  destruct (subscript_in_range lines idx) as (x & -> & Hx); [lia|].
  rewrite Hlook in Hx. injection Hx as <-. rewrite Htarget.
  unfold window.
  assert (Z.max 0 (idx - 5) = len far_before) as ->.
  { unfold idx, len in *. destruct Hbefore as [[-> ?]|?]; cbn [length]; lia. }
  assert (Z.min (len lines) (idx + 6) - len far_before
          = len (before ++ target :: after)) as ->.
  { rewrite Hlen. unfold idx, len in *. rewrite length_app. cbn [length].
    destruct Hafter as [[-> ?]|?]; cbn [length]; lia. }
  unfold lines.
  replace (far_before ++ before ++ target :: after ++ far_after)
    with (far_before ++ (before ++ target :: after) ++ far_after)
    by (by rewrite <- !app_assoc).
  rewrite (window_loop
             (fun i text => if bool_decide (i = idx) then marked_line i text
                            else plain_line i text)).
  cbn [context]. f_equal.
  assert (len (before ++ target :: after) = len before + Z.succ (len after)) as ->
    by (unfold len; rewrite length_app; cbn [length]; lia).
  rewrite seqZ_app by (unfold len; lia).
  rewrite zip_with_app by (rewrite length_seqZ; unfold len; lia).
  rewrite zip_plain by (unfold idx, len; lia).
  rewrite seqZ_cons by (unfold len; lia). rewrite Z.pred_succ. cbn [zip_with].
  rewrite bool_decide_eq_true_2 by done.
  replace (Z.succ (len far_before + len before)) with (idx + 1) by (unfold idx; lia).
  rewrite zip_plain by (unfold len; lia). done.
Qed.

End ContextMore.

(** The last line of [spaced.py]: four lines before it and none after. *)
Lemma window_around_target_witness :
  Context.context
    (@Context.get_symbol_context Sample.plain Sample.fs (py "/w/spaced.py") 5) =
  [py "  1: class A:"; py "  2: "; py "  3:     # the only field"; py "  4:     n = 0"] ++
  [Context.arrow ++ py "5: a = A()"] ++ [].
Proof.
  etransitivity.
  - apply (@window_around_target Sample.plain Sample.fs (py "/w/spaced.py") []
             [Sample.ln "class A:"; Sample.ln ""; Sample.ln "    # the only field";
              Sample.ln "    n = 0"]
             [] [] (Sample.ln "a = A()")).
    + reflexivity.
    + reflexivity.
    + left. split; [reflexivity|cbn; lia].
    + left. split; [reflexivity|cbn; lia].
  - vm_compute. reflexivity.
Defined.

(** The function at the end of [tail.py]. *)
Lemma declaration_without_body_witness :
  Context.context
    (@Context.get_symbol_context Sample.plain MoreSamples.fs (py "/w/tail.py") 2) =
  [Context.arrow ++ py "2: def f(): pass"; py "  3: "; py "  4: # end"].
Proof.
  etransitivity.
  - apply (@declaration_without_body Sample.plain MoreSamples.fs (py "/w/tail.py")
             [Sample.ln "x = 1"] [Sample.ln ""; Sample.ln "# end"]
             (Sample.ln "def f(): pass")).
    + reflexivity.
    + reflexivity.
    + repeat constructor.
  - vm_compute. reflexivity.
Defined.

(** ** The life cycle of a connection *)

Section LifecycleFacts.
Import LanguageServer Lifecycle.

Local Ltac exc_unfold := unfold mbind, mret, exc_bind, exc_ret in *.

#[local] Arguments py : simpl never.
#[local] Arguments frame : simpl never.
#[local] Arguments dumps : simpl never.

(** What a write leaves on a running connection. *)
Lemma send_message_frame (pipe_ok : bool) (message : json) (self : LanguageServer.t) :
  running self = true ->
  _send_message pipe_ok message self =
  Return (LanguageServer.mk pipe_ok
            (stdin self ++ (if pipe_ok then frame message else []))
            (request_id self) (response_queue self)).
Proof.
  intros Hrun. unfold _send_message. rewrite Hrun. cbn [negb].
  rewrite (utf8_encode_ascii (dumps message)) by apply dumps_ascii.
  rewrite utf8_encode_ascii.
  - destruct pipe_ok.
    + rewrite ?Hrun. unfold frame. by rewrite <- !app_assoc.
    + by rewrite app_nil_r.
  - apply Forall_app; split; [repeat constructor; unfold is_ascii; lia|].
    apply Forall_app; split; [apply str_of_int_ascii|].
    repeat constructor; unfold is_ascii; lia.
Qed.

Lemma drain_found_in (rid : Z) (queue responses queue' : list json) (r : json) :
  drain rid queue responses = (Found r, queue') -> r ∈ queue.
Proof.
  revert responses. induction queue as [|m q IH]; intros responses; cbn [drain];
    [discriminate|].
  destruct (test_id rid m).
  - intros [= <- _]. apply list_elem_of_here.
  - intros Hd. apply list_elem_of_further. by eapply IH.
  - discriminate.
Qed.

Lemma poll_found_in (rid : Z) (arrivals : list (list json))
    (queue queue' : list json) (r : json) :
  poll rid arrivals queue = (Some r, queue') -> r ∈ queue ++ concat arrivals.
Proof.
  revert queue. induction arrivals as [|a arrivals IH]; intros queue;
    cbn [poll concat]; [discriminate|].
  destruct (drain rid (queue ++ a) []) as [[found| |] q] eqn:Hd.
  - intros [= <- _]. apply drain_found_in in Hd.
    rewrite app_assoc. apply elem_of_app. by left.
  - apply drain_missed in Hd. cbn [app] in Hd. subst q.
    intros Hp. apply IH in Hp. by rewrite app_assoc.
  - discriminate.
Qed.

Lemma send_request_run (pipe_ok : bool) (arrivals : list (list json))
    (method : pystr) (params : json) (self : Lifecycle.t) :
  send_request pipe_ok arrivals method params self =
  if running (conn self) then
    let rid := request_id (conn self) + 1 in
    let polled := poll rid arrivals (response_queue (conn self)) in
    (Return (fst polled),
     Lifecycle.mk
       (LanguageServer.mk pipe_ok
          (stdin (conn self) ++
             (if pipe_ok then frame (request rid method params) else []))
          rid (snd polled))
       (if pipe_ok then has_process self else false)
       (capabilities self) (is_initialized self))
  else (Return None, self).
Proof.
  unfold send_request, _send_request.
  destruct self as [[run written rid queue] proc caps init]. cbn.
  destruct run; cbn [negb]; [|done].
  rewrite send_message_frame by done. exc_unfold. cbn.
  destruct (poll (rid + 1) arrivals queue) as [found queue']. cbn.
  unfold process_after. cbn. by destruct pipe_ok.
Qed.

Lemma send_notification_run (pipe_ok : bool) (method : pystr) (params : json)
    (self : Lifecycle.t) :
  send_notification pipe_ok method params self =
  (Return tt,
   if running (conn self) then
     Lifecycle.mk
       (LanguageServer.mk pipe_ok
          (stdin (conn self) ++
             (if pipe_ok then frame (notification method params) else []))
          (request_id (conn self)) (response_queue (conn self)))
       (if pipe_ok then has_process self else false)
       (capabilities self) (is_initialized self)
   else self).
Proof.
  unfold send_notification, _send_notification.
  destruct self as [[run written rid queue] proc caps init]. cbn.
  destruct run; cbn [negb]; [|done].
  rewrite send_message_frame by done.
  unfold process_after. cbn. by destruct pipe_ok.
Qed.

Lemma getitem_get (j v : json) (k : string) :
  getitem j (py k) = Return v -> get k j = Some v.
Proof.
  unfold getitem, get. destruct j as [|b|z|s|l|kvs]; try discriminate.
  destruct (assoc (py k) kvs); [by intros [= ->]|discriminate].
Qed.

Section HandshakeFacts.
Context (pid : Z) (workspace_dir encoded_root_uri : pystr).
Context (pipe_request pipe_notification : bool) (arrivals : list (list json)).

#[local] Abbreviation initialize :=
  (initialize pid workspace_dir encoded_root_uri pipe_request pipe_notification arrivals).
#[local] Abbreviation initialize_request rid :=
  (request rid (py "initialize") (initialize_params pid workspace_dir encoded_root_uri)).

(** When [initialize] returns [True], the connection was running and a
    message that was buffered or arrived during the wait passed the test
    of the identifier for the new request number and has a [result]
    with [capabilities], which are stored; the object is marked
    initialized; and the bytes written are the frame of the
    [initialize] request followed by the frame of the [initialized]
    notification (each only as far as the pipe held). *)
Theorem handshake_completes (self : Lifecycle.t) :
  fst (initialize self) = Return true ->
  let self' := snd (initialize self) in
  let rid := request_id (conn self) + 1 in
  running (conn self) = true /\
  (exists response result caps,
     response ∈ response_queue (conn self) ++ concat arrivals /\
     test_id rid response = IdMatch /\
     get "result" response = Some result /\
     get "capabilities" result = Some caps /\
     capabilities self' = Some caps) /\
  is_initialized self' = true /\
  request_id (conn self') = rid /\
  stdin (conn self') =
    stdin (conn self) ++
      (if pipe_request
       then frame (initialize_request rid) ++
              (if pipe_notification
               then frame (notification (py "initialized") (JDict []))
               else [])
       else []).
Proof.
  unfold Lifecycle.initialize. rewrite send_request_run.
  destruct (running (conn self)) eqn:Hrun; [|discriminate]. cbn zeta.
  destruct (poll (request_id (conn self) + 1) arrivals (response_queue (conn self)))
    as [found queue'] eqn:Hpoll.
  cbn [fst snd]. destruct found as [response|]; [|discriminate].
  destruct (truthy response); cbn [negb]; [|discriminate].
  destruct (member (py "result") response) as [[|]|]; try discriminate.
  exc_unfold.
  destruct (getitem response (py "result")) as [result|] eqn:Hresult; [|discriminate].
  destruct (getitem result (py "capabilities")) as [caps|] eqn:Hcaps; [|discriminate].
  rewrite send_notification_run. cbn [fst snd conn running]. intros _.
  split; [done|]. split; [|split; [|split]].
  - exists response, result, caps. split; [by eapply poll_found_in|].
    split; [by eapply poll_found_matches|].
    split; [by apply getitem_get|]. split; [by apply getitem_get|].
    by destruct pipe_request.
  - done.
  - by destruct pipe_request.
  - destruct pipe_request; cbn; [|done]. by rewrite <- app_assoc.
Qed.

(** When [initialize] returns [False] or raises, neither the stored
    capabilities nor the initialized flag have changed, and at most the
    frame of the [initialize] request was written: no [initialized]
    notification is sent. *)
Theorem failed_handshake_sets_nothing (self : Lifecycle.t) :
  fst (initialize self) <> Return true ->
  let self' := snd (initialize self) in
  capabilities self' = capabilities self /\
  is_initialized self' = is_initialized self /\
  stdin (conn self') =
    stdin (conn self) ++
      (if running (conn self) && pipe_request
       then frame (initialize_request (request_id (conn self) + 1))
       else []).
Proof.
  unfold Lifecycle.initialize. rewrite send_request_run.
  destruct (running (conn self)) eqn:Hrun; cbn zeta; cbn [andb];
    [|intros _; cbn; by rewrite app_nil_r].
  destruct (poll (request_id (conn self) + 1) arrivals (response_queue (conn self)))
    as [found queue'] eqn:Hpoll.
  cbn [fst snd]. destruct found as [response|]; [|done].
  destruct (truthy response); cbn [negb]; [|done].
  destruct (member (py "result") response) as [[|]|]; try done.
  exc_unfold.
  destruct (getitem response (py "result")) as [result|]; [|done].
  destruct (getitem result (py "capabilities")) as [caps|]; [|done].
  rewrite send_notification_run. cbn [fst]. done.
Qed.

(** When the process was spawned and is alive, the pipe holds at the
    request, and [start] nevertheless returns [False] (the handshake
    fails), the object still holds the process and the process is still
    running: nothing terminates it. *)
Theorem failed_start_leaves_process_running (self : Lifecycle.t) :
  pipe_request = true ->
  fst (start pid workspace_dir encoded_root_uri (Some true)
         pipe_request pipe_notification arrivals self) = false ->
  let self' := snd (start pid workspace_dir encoded_root_uri (Some true)
                      pipe_request pipe_notification arrivals self) in
  has_process self' = true /\ running (conn self') = true /\
  is_initialized self' = is_initialized self.
Proof.
  intros ->. unfold start.
  destruct (has_process self && running (conn self)); [discriminate|].
  unfold Lifecycle.initialize. rewrite send_request_run. cbn [conn running]. cbn zeta.
  destruct (poll _ arrivals _) as [found queue'].
  cbn [fst snd]. destruct found as [response|]; [|done].
  destruct (truthy response); cbn [negb]; [|done].
  destruct (member (py "result") response) as [[|]|]; try done.
  exc_unfold.
  destruct (getitem response (py "result")) as [result|]; [|done].
  destruct (getitem result (py "capabilities")) as [caps|]; [|done].
  rewrite send_notification_run. cbn [fst]. discriminate.
Qed.


End HandshakeFacts.


End LifecycleFacts.

(** A handshake answered at once. *)
Lemma handshake_completes_witness :
  Lifecycle.is_initialized
    (snd (Lifecycle.initialize 4242 (py "/w") (py "/w") true true
            [[Sample.response_1]] (Lifecycle.mk Sample.fresh true None false))) = true.
Proof.
  assert (Hret : fst (Lifecycle.initialize 4242 (py "/w") (py "/w") true true
                        [[Sample.response_1]]
                        (Lifecycle.mk Sample.fresh true None false)) = Return true)
    by (vm_compute; reflexivity).
  destruct (handshake_completes 4242 (py "/w") (py "/w") true true
              [[Sample.response_1]] (Lifecycle.mk Sample.fresh true None false) Hret)
    as (_ & _ & Hinit & _).
  exact Hinit.
Defined.

(** A handshake that times out. *)
Lemma failed_handshake_sets_nothing_witness :
  Lifecycle.capabilities
    (snd (Lifecycle.initialize 4242 (py "/w") (py "/w") true true []
            (Lifecycle.mk Sample.fresh true None false))) = None.
Proof.
  assert (Hret : fst (Lifecycle.initialize 4242 (py "/w") (py "/w") true true []
                        (Lifecycle.mk Sample.fresh true None false)) <> Return true)
    by (intros Heq; vm_compute in Heq; discriminate Heq).
  destruct (failed_handshake_sets_nothing 4242 (py "/w") (py "/w") true true []
              (Lifecycle.mk Sample.fresh true None false) Hret)
    as (Hcaps & _).
  exact Hcaps.
Defined.

(** A new object whose server never answers. *)
Lemma failed_start_leaves_process_running_witness :
  LanguageServer.running
    (Lifecycle.conn
       (snd (Lifecycle.start 4242 (py "/w") (py "/w") (Some true) true true []
               Lifecycle.new))) = true.
Proof.
  destruct (failed_start_leaves_process_running 4242 (py "/w") (py "/w") true true []
              Lifecycle.new eq_refl)
    as (_ & Hrun & _).
  - vm_compute. reflexivity.
  - exact Hrun.
Defined.



(** ** The definition heuristic on rendered contexts *)

Section ClassifierFacts.
Context `{UnicodeDB} `{FileSystem}.
Import Context Classifier.

Local Ltac exc_unfold := unfold mbind, mret, exc_bind, exc_ret in *.

Lemma uint_digits_no_colon (d : Decimal.uint) :
  Forall (fun c => c <> 58%N) (py (NilEmpty.string_of_uint d)).
Proof.
  induction d; cbn [NilEmpty.string_of_uint py list_ascii_of_string map];
    try constructor; auto; cbn; lia.
Qed.

Lemma str_of_int_no_colon (z : Z) : Forall (fun c => c <> 58%N) (str_of_int z).
Proof.
  unfold str_of_int, NilZero.string_of_int.
  destruct (Z.to_int z) as [d | d].
  - unfold NilZero.string_of_uint. destruct d; try apply uint_digits_no_colon.
    repeat constructor; cbn; lia.
  - cbn [py list_ascii_of_string map]. constructor; [cbn; lia|].
    unfold NilZero.string_of_uint. destruct d; try apply uint_digits_no_colon.
    repeat constructor; cbn; lia.
Qed.

Lemma after_colon_skip (p r : pystr) :
  Forall (fun c => c <> 58%N) p -> after_colon (p ++ 58%N :: r) = Return r.
Proof.
  induction 1 as [|c p Hc _ IH]; cbn [after_colon app].
  - reflexivity.
  - apply N.eqb_neq in Hc. by rewrite Hc.
Qed.

Lemma after_colon_marked (i : Z) (text : pystr) :
  after_colon (marked_line i text) = Return (32%N :: rstrip text).
Proof.
  unfold marked_line, arrow. cbn [app after_colon N.eqb Pos.eqb].
  change (py ": " ++ rstrip text) with (58%N :: 32%N :: rstrip text).
  apply after_colon_skip, str_of_int_no_colon.
Qed.

Lemma lstrip_head (s w : pystr) (c : N) : lstrip s = c :: w -> isspace c = false.
Proof.
  induction s as [|a s IH]; cbn [lstrip]; [discriminate|].
  destruct (isspace a) eqn:E; [done|]. by intros [= <- _].
Qed.

(** The space that follows the colon is stripped with the rest. *)
Lemma strip_after_space (text : pystr) : strip (32%N :: rstrip text) = strip text.
Proof.
  unfold strip, rstrip. cbn [rev]. rewrite rev_involutive.
  assert (Hsp : isspace 32 = true) by reflexivity.
  destruct (lstrip (rev text)) as [|c w] eqn:E.
  - cbn [app lstrip]. by rewrite Hsp.
  - cbn [app lstrip]. rewrite (lstrip_head _ _ _ E).
    cbn [rev]. rewrite rev_app_distr. cbn [rev app lstrip]. by rewrite Hsp.
Qed.

Lemma marked_defines_unmarked (ctx : list pystr) :
  Forall (fun x => startswith [8594%N] x = false) ctx ->
  marked_defines ctx = Return false.
Proof. induction 1 as [|x ctx Hx _ IH]; cbn [marked_defines]; [done|]. by rewrite Hx. Qed.

(** On a context in which every line that bears the mark is the
    rendering of [text], the loop answers from [text]. *)
Lemma marked_defines_rendering (i : Z) (text : pystr) (ctx : list pystr) :
  Forall (fun x => x = marked_line i text \/ startswith [8594%N] x = false) ctx ->
  marked_line i text ∈ ctx ->
  marked_defines ctx = Return (defines (strip text)).
Proof.
  induction 1 as [|x ctx Hx Hctx IH]; intros Hin; [by apply elem_of_nil in Hin|].
  cbn [marked_defines].
  destruct Hx as [-> | Hx].
  - replace (startswith [8594%N] (marked_line i text)) with true by reflexivity.
    rewrite after_colon_marked. exc_unfold. rewrite strip_after_space.
    destruct (defines (strip text)) eqn:Hd; [done|].
    clear IH Hin. induction Hctx as [|y ctx Hy _ IH]; cbn [marked_defines]; [done|].
    destruct Hy as [-> | Hy].
    + replace (startswith [8594%N] (marked_line i text)) with true by reflexivity.
      rewrite after_colon_marked. exc_unfold. by rewrite strip_after_space, Hd.
    + by rewrite Hy.
  - rewrite Hx. apply IH. apply elem_of_cons in Hin as [Heq | Hin]; [|done].
    rewrite <- Heq in Hx.
    replace (startswith [8594%N] (marked_line i text)) with true in Hx
      by reflexivity.
    discriminate Hx.
Qed.

Lemma discover_unmarked (decl : pystr) (i : Z) (rest acc : list pystr) :
  exists extra, fst (discover decl i rest acc) = acc ++ extra /\
    Forall (fun x => startswith [8594%N] x = false) extra.
Proof.
  revert i acc. induction rest as [|t rest IH]; intros i acc; cbn [discover].
  - exists []. by rewrite app_nil_r.
  - destruct (skipped t).
    + destruct (IH (i + 1) (acc ++ [plain_line i t])) as (extra & -> & Hextra).
      exists (plain_line i t :: extra). rewrite <- app_assoc. split; [done|].
      by constructor.
    + destruct (contains (py "def ") decl);
        [exists []; by rewrite app_nil_r|].
      destruct (contains (py "class ") decl);
        [exists []; by rewrite app_nil_r|].
      apply IH.
Qed.

Lemma collect_unmarked (n i : Z) (rest acc : list pystr) :
  exists extra, collect n i rest acc = acc ++ extra /\
    Forall (fun x => startswith [8594%N] x = false) extra.
Proof.
  revert i acc. induction rest as [|t rest IH]; intros i acc; cbn [collect].
  - exists []. by rewrite app_nil_r.
  - destruct (leaves_body n t); [exists []; by rewrite app_nil_r|].
    destruct (IH (i + 1) (acc ++ [plain_line i t])) as (extra & -> & Hextra).
    exists (plain_line i t :: extra). rewrite <- app_assoc. split; [done|].
    by constructor.
Qed.

(** The declaration branch renders the target first and marks no other
    line. *)
Lemma expand_marks_target (lines : list pystr) (line_index : Z) (decl : pystr) :
  exists extra, expand lines line_index decl = marked_line line_index decl :: extra /\
    Forall (fun x => startswith [8594%N] x = false) extra.
Proof.
  unfold expand.
  destruct (discover_unmarked decl (line_index + 1)
              (drop (Z.to_nat (line_index + 1)) lines) [marked_line line_index decl])
    as (extra & Hd & Hextra).
  destruct (discover _ _ _ _) as [func_lines [n|]]; cbn [fst] in Hd; subst func_lines.
  - destruct (collect_unmarked n (line_index + 1)
                (drop (Z.to_nat (line_index + 1)) lines)
                ([marked_line line_index decl] ++ extra)) as (more & -> & Hmore).
    exists (extra ++ more). split; [by rewrite <- app_assoc|].
    by apply Forall_app.
  - by exists extra.
Qed.

Lemma mapM_pointwise {A B} (f : A -> exc B) (l : list A) (ys : list B) :
  mapM f l = Return ys -> Forall2 (fun a y => f a = Return y) l ys.
Proof.
  revert ys. induction l as [|a l IH]; intros ys; cbn [mapM]; exc_unfold.
  - intros [= <-]. constructor.
  - destruct (f a) as [b|] eqn:Hb; [|discriminate].
    destruct (mapM f l) as [bs|]; [|discriminate].
    intros [= <-]. constructor; [done|]. by apply IH.
Qed.

(** The other branch marks the target line and no other. *)
Lemma window_marks_target (lines : list pystr) (line_index : Z) (target : pystr) :
  0 <= line_index -> lines !! Z.to_nat line_index = Some target ->
  exists ctx, window lines line_index = Return ctx /\
    Forall (fun x => x = marked_line line_index target \/
                     startswith [8594%N] x = false) ctx /\
    marked_line line_index target ∈ ctx.
Proof.
  intros Hlo Htarget.
  assert (line_index < len lines) as Hhi.
  { apply lookup_lt_Some in Htarget. unfold len. lia. }
  destruct (subscript_in_range lines line_index) as (x & Hsub & Hx); [lia|].
  assert (x = target) as -> by congruence.
  destruct (window_returns lines line_index) as [ctx Hctx]. exists ctx.
  split; [done|]. unfold window in Hctx. apply mapM_pointwise in Hctx. split.
  - induction Hctx as [|i y l ys Hy _ IH]; [constructor|]. constructor; [|done].
    exc_unfold. destruct (subscript lines i) as [t|] eqn:Ht; [|discriminate].
    injection Hy as <-. case_bool_decide as Hi; [|by right].
    subst i. left. congruence.
  - assert (line_index ∈ seqZ (Z.max 0 (line_index - 5))
              (Z.min (len lines) (line_index + 6) - Z.max 0 (line_index - 5))) as Hin
      by (apply elem_of_seqZ; lia).
    apply list_elem_of_lookup_1 in Hin as [k Hk].
    destruct (Forall2_lookup_l _ _ _ _ _ Hctx Hk) as (y & Hy & Hf).
    exc_unfold. rewrite Hsub in Hf.
    rewrite bool_decide_eq_true_2 in Hf by done. injection Hf as <-.
    by eapply list_elem_of_lookup_2.
Qed.

(** On the entries that [_process_locations] builds, [_is_definition]
    never raises, and its answer is the test on the stripped text of the
    line the location points at: the rendering of the context and the
    parsing of the marked line undo each other.  The answer is [False]
    when the file cannot be read or the line is out of range. *)
Theorem is_definition_judges_target_line (symbol_name uri : pystr)
    (line0 character0 : N) :
  _is_definition (Service.locate symbol_name uri line0 character0) =
  Return (match readlines (abspath (unquote (Service.remove_scheme uri))) with
          | Return lines =>
              match lines !! N.to_nat line0 with
              | Some target => defines (strip target)
              | None => false
              end
          | Raise _ => false
          end).
Proof.
  unfold _is_definition, Service.locate. cbn [Service.context].
  set (target_file := unquote (Service.remove_scheme uri)).
  transitivity (marked_defines (context (get_symbol_context target_file
                                            (Z.of_N line0 + 1))));
    [by destruct (context _)|].
  unfold get_symbol_context, get_symbol_context_try. exc_unfold.
  destruct (readlines (abspath target_file)) as [lines|e]; [|done].
  replace (Z.of_N line0 + 1 - 1) with (Z.of_N line0) by lia.
  destruct (_ || _) eqn:Hrange.
  - cbn [context]. rewrite lookup_ge_None_2; [done|].
    apply orb_true_iff in Hrange as [Hneg | Hbig]; [lia|].
    apply Z.leb_le in Hbig. unfold len in Hbig. lia.
  - apply orb_false_iff in Hrange as [Hlo Hhi].
    apply Z.ltb_ge in Hlo. apply Z.leb_gt in Hhi.
    destruct (subscript_in_range lines (Z.of_N line0)) as (decl & Hsub & Hdecl);
      [lia|].
    rewrite Hsub.
    replace (Z.to_nat (Z.of_N line0)) with (N.to_nat line0) in Hdecl by lia.
    rewrite Hdecl.
    destruct (looks_like_declaration decl).
    + cbn [context].
      destruct (expand_marks_target lines (Z.of_N line0) decl) as (extra & -> & Hextra).
      apply marked_defines_rendering with (i := Z.of_N line0).
      * constructor; [by left|].
        eapply Forall_impl; [exact Hextra|]. intros x Hx. by right.
      * apply list_elem_of_here.
    + destruct (window_marks_target lines (Z.of_N line0) decl) as (ctx & -> & Hall & Hin);
        [lia| by replace (Z.to_nat (Z.of_N line0)) with (N.to_nat line0) by lia |].
      cbn [context]. by apply marked_defines_rendering with (i := Z.of_N line0).
Qed.

End ClassifierFacts.
